(** * The trading bot's command/response surface

    A shallow embedding of [binance_client.py] (the exchange client adapter),
    [logger.py] (the logging helpers), [trading_bot.py] (the orchestrator)
    and [cli.py] (the interactive shell), with the properties the
    specification states about them.

    Conventions of the embedding:
    - A Python [str] is a [string] of its characters, and the builtins
      [strip], [split], [upper], [lower], [int], [float] and [repr] are
      embedded for ASCII text ([PyStr.is_ascii]): beyond it Python follows
      the Unicode tables, which are not part of this development.  Where a
      property rests on what one of them makes of text from outside, a line
      typed or a string of the exchange, it says that the text is ASCII.
    - Python [int] is [Z]; Python [float] is IEEE binary64
      ([PrimFloat.float]), with division, conversion from text and the
      format [.2f] correctly rounded as in CPython.
    - The values the vendor SDK hands back (parsed JSON) are [PyVal]; a
      [dict] is an association list in key order, looked up by first match.
      Nothing is assumed about their shape: a missing key raises [KeyError],
      as it does in Python.
    - The exchange is an oracle: the answer to a call is a function of the
      calls made so far.
    - Every method runs in a state-and-exception monad: the state survives
      an exception, as the mutations of a Python object do.
    - The exceptions are the subclasses of Python's [Exception].
    - [stdout] holds the arguments of the [print] calls and [logs] the calls
      made on loggers, in order; neither fails.  What an f-string
      interpolates is kept as a value ([Fmt v] for [str(v)]). *)

From Stdlib Require Import ZArith String List Lia Bool Ascii.
From Stdlib Require Import PrimFloat FloatOps SpecFloat Uint63 DecimalString.
Import ListNotations.

#[local] Set Warnings "-register-all".

Local Open Scope list_scope.
Local Open Scope string_scope.
Local Open Scope Z_scope.

(** ** Python exceptions *)

Inductive PyExc : Type :=
| KeyError (key : string)
| TypeError (msg : string)
| ValueError (msg : string)
| AttributeError (msg : string)
| ZeroDivisionError (msg : string)
| OverflowError (msg : string)
| BinanceAPIException (code : Z) (msg : string)
| OtherException (cls msg : string).

Inductive result (A : Type) : Type :=
| Ok (a : A)
| Raise (e : PyExc).
Arguments Ok {A} a.
Arguments Raise {A} e.

(** ** Python floats *)

Module PyFloat.

(** Quotient of [a / b] rounded to the nearest integer, ties to even
    ([0 <= a], [0 < b]). *)
Definition rne_quot (a b : Z) : Z :=
  let q := a / b in
  let r := a mod b in
  if 2 * r <? b then q
  else if b <? 2 * r then q + 1
  else if Z.even q then q else q + 1.

(** [floor (log2 (a / b))] for [0 < a], [0 < b]. *)
Definition ratio_log2 (a b : Z) : Z :=
  let d := Z.log2 a - Z.log2 b in
  if b * 2 ^ Z.max 0 d <=? a * 2 ^ Z.max 0 (- d) then d else d - 1.

(** The binary64 exponent at which [a / b] is rounded: 53 significant bits,
    but never below the subnormal exponent. *)
Definition ratio_exp (a b : Z) : Z := Z.max (ratio_log2 a b - 52) (-1074).

(** The integral significand of [a / b] at exponent [ratio_exp a b]. *)
Definition ratio_mant (a b : Z) : Z :=
  let e := ratio_exp a b in
  rne_quot (a * 2 ^ Z.max 0 (- e)) (b * 2 ^ Z.max 0 e).

(** [a / b] correctly rounded to binary64, [None] when the rounded value is
    beyond the largest finite float ([0 < a], [0 < b]). *)
Definition ratio_to_float (a b : Z) : option float :=
  let e := ratio_exp a b in
  let m := ratio_mant a b in
  if 1024 <=? Z.log2 m + e then None
  else Some (Z.ldexp (of_uint63 (Uint63.of_Z m)) e).

Definition signed (neg : bool) (f : float) : float :=
  if neg then PrimFloat.opp f else f.

(** [a / b] on Python ints (true division). *)
Definition int_truediv (a b : Z) : result float :=
  if b =? 0 then Raise (ZeroDivisionError "division by zero")
  else
    let neg := xorb (a <? 0) (b <? 0) in
    if a =? 0 then Ok (signed neg zero)
    else match ratio_to_float (Z.abs a) (Z.abs b) with
         | Some f => Ok (signed neg f)
         | None => Raise (OverflowError "integer division result too large for a float")
         end.

(** [float(n)] on a Python int. *)
Definition of_int (n : Z) : result float :=
  if n =? 0 then Ok zero
  else match ratio_to_float (Z.abs n) 1 with
       | Some f => Ok (signed (n <? 0) f)
       | None => Raise (OverflowError "int too large to convert to float")
       end.

(** *** Decimal rendering: [format(f, '.2f')] *)

Definition digit (d : Z) : ascii := ascii_of_nat (48 + Z.to_nat d).

Definition dec (n : Z) : string := NilZero.string_of_int (Z.to_int n).

Definition fixed2 (neg : bool) (n : Z) : string :=
  (if neg then "-" else "") ++ dec (n / 100) ++ "."
    ++ String (digit (n mod 100 / 10)) (String (digit (n mod 10)) "").

Definition format_2f (f : float) : string :=
  match Prim2SF f with
  | S754_zero s => fixed2 s 0
  | S754_infinity s => if s then "-inf" else "inf"
  | S754_nan => "nan"
  | S754_finite s m e =>
      fixed2 s (if 0 <=? e then Zpos m * 100 * 2 ^ e
                else rne_quot (Zpos m * 100) (2 ^ (- e)))
  end.

End PyFloat.

(** ** Python strings *)

Module PyStr.

Definition code (c : ascii) : N := N_of_ascii c.

Definition between (lo hi : N) (c : ascii) : bool :=
  ((lo <=? code c) && (code c <=? hi))%N.

(** The characters of ASCII. *)
Definition is_ascii_char (c : ascii) : bool := (code c <? 128)%N.

Fixpoint is_ascii (s : string) : bool :=
  match s with
  | EmptyString => true
  | String c r => is_ascii_char c && is_ascii r
  end.

(** [str.isspace] on the ASCII range: the blanks [strip] and [split] know. *)
Definition is_space (c : ascii) : bool := between 9 13 c || between 28 32 c.

(** [Py_ISSPACE], the blanks [float] and [int] skip around a number: those
    of C, without the four separators [0x1c] to [0x1f]. *)
Definition is_c_space (c : ascii) : bool := between 9 13 c || between 32 32 c.

Definition is_digit (c : ascii) : bool := between 48 57 c.

Definition digit_val (c : ascii) : Z := Z.of_N (code c) - 48.

Definition upper_char (c : ascii) : ascii :=
  if between 97 122 c then ascii_of_N (code c - 32) else c.

Definition lower_char (c : ascii) : ascii :=
  if between 65 90 c then ascii_of_N (code c + 32) else c.

Fixpoint map_chars (f : ascii -> ascii) (s : string) : string :=
  match s with
  | EmptyString => EmptyString
  | String c r => String (f c) (map_chars f r)
  end.

(** [s.upper()] and [s.lower()] on an ASCII string. *)
Definition upper : string -> string := map_chars upper_char.
Definition lower : string -> string := map_chars lower_char.

(** [s.strip()] on an ASCII string, in its two halves. *)

Fixpoint lstrip (s : string) : string :=
  match s with
  | EmptyString => EmptyString
  | String c r => if is_space c then lstrip r else s
  end.

Fixpoint rstrip (s : string) : string :=
  match s with
  | EmptyString => EmptyString
  | String c r =>
      match rstrip r with
      | EmptyString => if is_space c then EmptyString else String c EmptyString
      | r' => String c r'
      end
  end.

Definition strip (s : string) : string := rstrip (lstrip s).

(** The same for the blanks of C. *)
Fixpoint c_lstrip (s : string) : string :=
  match s with
  | EmptyString => EmptyString
  | String c r => if is_c_space c then c_lstrip r else s
  end.

Fixpoint c_rstrip (s : string) : string :=
  match s with
  | EmptyString => EmptyString
  | String c r =>
      match c_rstrip r with
      | EmptyString => if is_c_space c then EmptyString else String c EmptyString
      | r' => String c r'
      end
  end.

Definition c_strip (s : string) : string := c_rstrip (c_lstrip s).

(** [s.split()] on an ASCII string: the maximal runs of characters that are
    not blanks. *)
Fixpoint split (s : string) : list string :=
  match s with
  | EmptyString => []
  | String c r =>
      if is_space c then split r
      else match r with
           | EmptyString => [String c EmptyString]
           | String c' _ =>
               if is_space c' then String c EmptyString :: split r
               else match split r with
                    | t :: ts => String c t :: ts
                    | [] => [String c EmptyString]
                    end
           end
  end.

(** *** [float(s)] on a string *)

Definition underscore : ascii := "_"%char.

(** Digit-group underscores: allowed only between two digits. *)
Fixpoint drop_underscores (prev : ascii) (s : list ascii) : option (list ascii) :=
  match s with
  | [] => if Ascii.eqb prev underscore then None else Some []
  | c :: r =>
      if Ascii.eqb c underscore then
        if is_digit prev then drop_underscores c r else None
      else if Ascii.eqb prev underscore && negb (is_digit c) then None
      else option_map (cons c) (drop_underscores c r)
  end.

(** Reads a run of digits, continuing the number [acc]; returns the number,
    how many digits were read, and what follows. *)
Fixpoint take_digits (s : list ascii) (acc n : Z) : Z * Z * list ascii :=
  match s with
  | c :: r => if is_digit c then take_digits r (10 * acc + digit_val c) (n + 1)
              else (acc, n, s)
  | [] => (acc, n, [])
  end.

Definition take_sign (s : list ascii) : bool * list ascii :=
  match s with
  | "-"%char :: r => (true, r)
  | "+"%char :: r => (false, r)
  | _ => (false, s)
  end.

(** The decimal exponent part: empty, or [e]/[E], a sign and digits. *)
Definition parse_exponent (s : list ascii) : option Z :=
  match s with
  | [] => Some 0
  | c :: r =>
      if Ascii.eqb (lower_char c) "e"%char then
        let '(neg, r1) := take_sign r in
        match take_digits r1 0 0 with
        | (x, n, []) => if 0 <? n then Some (if neg then - x else x) else None
        | _ => None
        end
      else None
  end.

(** A decimal literal as [mantissa * 10 ^ exponent]. *)
Definition parse_decimal (s : list ascii) : option (Z * Z) :=
  let '(ip, ni, r1) := take_digits s 0 0 in
  let '(m, nf, r2) :=
    match r1 with
    | "."%char :: r => take_digits r ip 0
    | _ => (ip, 0, r1)
    end in
  if 0 <? ni + nf then
    match parse_exponent r2 with
    | Some x => Some (m, x - nf)
    | None => None
    end
  else None.

Definition decimal_to_float (neg : bool) (m x : Z) : float :=
  if m =? 0 then PyFloat.signed neg zero
  else
    match (if 0 <=? x then PyFloat.ratio_to_float (m * 10 ^ x) 1
           else PyFloat.ratio_to_float m (10 ^ (- x))) with
    | Some f => PyFloat.signed neg f
    | None => PyFloat.signed neg infinity
    end.

(** [float(s)] on an ASCII string; [None] stands for the [ValueError]
    Python raises. *)
Definition float_of_string (s : string) : option float :=
  match drop_underscores Ascii.zero (list_ascii_of_string s) with
  | None => None
  | Some cs =>
      let '(neg, body) :=
        take_sign (list_ascii_of_string (c_strip (string_of_list_ascii cs))) in
      let word := lower (string_of_list_ascii body) in
      if String.eqb word "inf" || String.eqb word "infinity"
      then Some (PyFloat.signed neg infinity)
      else if String.eqb word "nan" then Some nan
      else match parse_decimal body with
           | Some (m, x) => Some (decimal_to_float neg m x)
           | None => None
           end
  end.

(** *** [repr(s)] on a string *)

Definition quote : ascii := ascii_of_nat 39.
Definition double_quote : ascii := ascii_of_nat 34.
Definition backslash : ascii := ascii_of_nat 92.

Fixpoint contains (c : ascii) (s : string) : bool :=
  match s with
  | EmptyString => false
  | String c' r => Ascii.eqb c' c || contains c r
  end.

Definition hex_digit (n : N) : ascii :=
  if (n <? 10)%N then ascii_of_N (48 + n) else ascii_of_N (87 + n).

(** One character between the quotes [q]. *)
Definition escaped (q c : ascii) : string :=
  if Ascii.eqb c q || Ascii.eqb c backslash then String backslash (String c "")
  else if (code c =? 9)%N then String backslash "t"
  else if (code c =? 10)%N then String backslash "n"
  else if (code c =? 13)%N then String backslash "r"
  else if (code c <? 32)%N || (code c =? 127)%N then
    String backslash
      (String "x" (String (hex_digit (code c / 16)) (String (hex_digit (code c mod 16)) "")))
  else String c "".

Fixpoint escape (q : ascii) (s : string) : string :=
  match s with
  | EmptyString => EmptyString
  | String c r => escaped q c ++ escape q r
  end.

(** [repr(s)] on an ASCII string: between single quotes, or between double
    quotes when the string has a single quote and no double one. *)
Definition repr (s : string) : string :=
  let q := if contains quote s && negb (contains double_quote s)
           then double_quote else quote in
  String q (escape q s ++ String q "").

End PyStr.

(** [sys.get_int_max_str_digits()], as Python starts with. *)
Definition max_str_digits : Z := 4300.

(** [int(s)] on an ASCII string; [None] stands for the [ValueError] Python
    raises, also for a number of more than [max_str_digits] digits. *)
Definition int_of_string (s : string) : option Z :=
  match PyStr.drop_underscores Ascii.zero (list_ascii_of_string s) with
  | None => None
  | Some cs =>
      let '(neg, body) :=
        PyStr.take_sign
          (list_ascii_of_string (PyStr.c_strip (string_of_list_ascii cs))) in
      match PyStr.take_digits body 0 0 with
      | (x, n, []) =>
          if (0 <? n) && (n <=? max_str_digits)
          then Some (if neg then - x else x) else None
      | _ => None
      end
  end.

(** ** Python values *)

(** The values the vendor SDK hands back (parsed JSON) and the values the
    program passes on. *)
Inductive PyVal : Type :=
| PNone
| PBool (b : bool)
| PInt (n : Z)
| PFloat (f : float)
| PStr (s : string)
| PList (items : list PyVal)
| PDict (entries : list (string * PyVal)).

Fixpoint assoc {A : Type} (k : string) (d : list (string * A)) : option A :=
  match d with
  | [] => None
  | (k', v) :: r => if String.eqb k' k then Some v else assoc k r
  end.

Definition type_name (v : PyVal) : string :=
  match v with
  | PNone => "NoneType"
  | PBool _ => "bool"
  | PInt _ => "int"
  | PFloat _ => "float"
  | PStr _ => "str"
  | PList _ => "list"
  | PDict _ => "dict"
  end.

(** [v[k]] with a string key. *)
Definition py_getitem (v : PyVal) (k : string) : result PyVal :=
  match v with
  | PDict d => match assoc k d with
               | Some x => Ok x
               | None => Raise (KeyError k)
               end
  | PList _ => Raise (TypeError "list indices must be integers or slices, not str")
  | PStr _ => Raise (TypeError "string indices must be integers, not 'str'")
  | _ => Raise (TypeError ("'" ++ type_name v ++ "' object is not subscriptable"))
  end.

(** [v.get(k, default)]. *)
Definition py_get (v : PyVal) (k : string) (default : PyVal) : result PyVal :=
  match v with
  | PDict d => match assoc k d with
               | Some x => Ok x
               | None => Ok default
               end
  | _ => Raise (AttributeError ("'" ++ type_name v ++ "' object has no attribute 'get'"))
  end.

Fixpoint chars (s : string) : list PyVal :=
  match s with
  | EmptyString => []
  | String c r => PStr (String c EmptyString) :: chars r
  end.

(** The elements a [for] loop or a comprehension runs over. *)
Definition py_iter (v : PyVal) : result (list PyVal) :=
  match v with
  | PList l => Ok l
  | PDict d => Ok (map (fun kv => PStr (fst kv)) d)
  | PStr s => Ok (chars s)
  | _ => Raise (TypeError ("'" ++ type_name v ++ "' object is not iterable"))
  end.

(** Truth value, as [if v:] and [not v] read it. *)
Definition py_truthy (v : PyVal) : bool :=
  match v with
  | PNone => false
  | PBool b => b
  | PInt n => negb (n =? 0)
  | PFloat f => negb (PrimFloat.eqb f zero)
  | PStr s => negb (String.eqb s "")
  | PList l => match l with [] => false | _ => true end
  | PDict d => match d with [] => false | _ => true end
  end.

(** [v == s] for a string [s]: only an equal string is equal to a string. *)
Definition py_eq_str (v : PyVal) (s : string) : bool :=
  match v with
  | PStr t => String.eqb t s
  | _ => false
  end.

(** [float(v)]. *)
Definition py_float (v : PyVal) : result float :=
  match v with
  | PFloat f => Ok f
  | PInt n => PyFloat.of_int n
  | PBool b => Ok (if b then one else zero)
  | PStr s => match PyStr.float_of_string s with
              | Some f => Ok f
              | None => Raise (ValueError ("could not convert string to float: "
                                             ++ PyStr.repr s))
              end
  | _ => Raise (TypeError ("float() argument must be a string or a real number, not '"
                             ++ type_name v ++ "'"))
  end.

(** [v[-10:]]: the last ten elements. *)
Definition py_last10 (v : PyVal) : result PyVal :=
  match v with
  | PList l => Ok (PList (skipn (length l - 10) l))
  | PStr s => Ok (PStr (string_of_list_ascii
                          (skipn (String.length s - 10) (list_ascii_of_string s))))
  | PDict _ => Raise (TypeError "unhashable type: 'slice'")
  | _ => Raise (TypeError ("'" ++ type_name v ++ "' object is not subscriptable"))
  end.

(** ** Text written to the terminal and to the log *)

(** A piece of an f-string: literal text, or an interpolated value.  [Fmt v]
    stands for [str(v)], [FmtSpec v spec] for [format(v, spec)],
    [FmtStrSpec v spec] for [format(str(v), spec)] and [FmtExc e] for
    [str(e)]. *)
Inductive frag : Type :=
| Txt (s : string)
| Fmt (v : PyVal)
| FmtSpec (v : PyVal) (spec : string)
| FmtStrSpec (v : PyVal) (spec : string)
| FmtExc (e : PyExc).

Definition text : Type := list frag.

(** [format(v, spec)] with a non-empty [spec]: [None], lists and dicts have
    no format of their own and refuse one. *)
Definition py_format (v : PyVal) (spec : string) : result frag :=
  match v with
  | PNone | PList _ | PDict _ =>
      Raise (TypeError ("unsupported format string passed to " ++ type_name v ++ ".__format__"))
  | _ => Ok (FmtSpec v spec)
  end.

(** [str(v)] is the empty string only for the empty string. *)
Definition str_is_empty (v : PyVal) : bool :=
  match v with
  | PStr s => String.eqb s ""
  | _ => false
  end.

Definition nl : string := String (ascii_of_nat 10) EmptyString.

Fixpoint rep (s : string) (n : nat) : string :=
  match n with
  | O => ""
  | S k => s ++ rep s k
  end.

(** [f"{s:<n}"] for a string [s]. *)
Definition ljust (s : string) (n : nat) : string :=
  s ++ rep " " (n - String.length s).

Inductive level : Type := INFO | WARNING | ERROR.

Record LogRecord : Type := mkLog {
  log_name : string;
  log_level : level;
  log_msg : text
}.

(** ** The vendor SDK *)

(** One call on the SDK, with the arguments it is given: the construction
    of a [binance.client.Client], or one of its methods. *)
Inductive Request : Type :=
| Client (api_key api_secret : string) (testnet : bool)
| futures_account
| futures_exchange_info
| futures_symbol_ticker (symbol : string)
| futures_order_book (symbol : string) (limit : Z)
| futures_create_order (kwargs : list (string * PyVal))
| futures_cancel_order (symbol : string) (orderId : Z)
| futures_get_open_orders (symbol : option string)
| futures_get_all_orders (symbol : string) (limit : Z)
| futures_position_information.

(** The settings [config.py] reads from the environment. *)
Record Config : Type := mkConfig {
  BINANCE_API_KEY : string;
  BINANCE_SECRET_KEY : string
}.

(** The world outside the program.  The exchange is opaque: [remote] gives
    the outcome of a call from the whole history of calls made so far, the
    call itself last, so it may answer the same call differently each time. *)
Record Sys : Type := mkSys {
  config : Config;
  remote : list Request -> result PyVal;
  requests : list Request;
  stdout : list text;
  logs : list LogRecord
}.

(** ** The state-and-exception monad *)

Definition M (S A : Type) : Type := S -> result A * S.

Definition ret {S A : Type} (a : A) : M S A := fun s => (Ok a, s).

Definition raise {S A : Type} (e : PyExc) : M S A := fun s => (Raise e, s).

Definition bind {S A B : Type} (m : M S A) (k : A -> M S B) : M S B :=
  fun s => match m s with
           | (Ok a, s') => k a s'
           | (Raise e, s') => (Raise e, s')
           end.

(** [try: m  except Exception as e: h e]. *)
Definition try_except {S A : Type} (m : M S A) (h : PyExc -> M S A) : M S A :=
  fun s => match m s with
           | (Ok a, s') => (Ok a, s')
           | (Raise e, s') => h e s'
           end.

(** [try: m  finally: f]. *)
Definition try_finally {S A : Type} (m : M S A) (f : M S unit) : M S A :=
  fun s => match m s with
           | (r, s') => match f s' with
                        | (Ok _, s'') => (r, s'')
                        | (Raise e, s'') => (Raise e, s'')
                        end
           end.

Definition lift {S A : Type} (r : result A) : M S A := fun s => (r, s).

Declare Scope py_scope.
Delimit Scope py_scope with py.
Notation "x <- m ;; k" := (bind m (fun x => k))
  (at level 61, m at next level, right associativity) : py_scope.
Notation "m ;;; k" := (bind m (fun _ => k))
  (at level 61, right associativity) : py_scope.
Local Open Scope py_scope.

(** A [for] loop whose body returns nothing. *)
Fixpoint for_each {S A : Type} (l : list A) (body : A -> M S unit) : M S unit :=
  match l with
  | [] => ret tt
  | x :: r => body x ;;; for_each r body
  end.

(** A list comprehension with a condition. *)
Fixpoint filter_m {S A : Type} (l : list A) (keep : A -> M S bool) : M S (list A) :=
  match l with
  | [] => ret []
  | x :: r => b <- keep x ;; rest <- filter_m r keep ;;
              ret (if b then x :: rest else rest)
  end.

Definition print (t : text) : M Sys unit :=
  fun s => (Ok tt, mkSys (config s) (remote s) (requests s) (stdout s ++ [t])%list (logs s)).

Definition log (name : string) (lv : level) (t : text) : M Sys unit :=
  fun s => (Ok tt, mkSys (config s) (remote s) (requests s) (stdout s)
                         (logs s ++ [mkLog name lv t])%list).

(** A call on the SDK client: the request goes out, the exchange answers. *)
Definition call (r : Request) : M Sys PyVal :=
  fun s => let h := (requests s ++ [r])%list in
           (remote s h, mkSys (config s) (remote s) h (stdout s) (logs s)).

(** ** [binance_client.py]: the exchange client adapter *)

Module BinanceFuturesClient.

Definition logger : string := "binance_client".

Definition _initialize_client : M Sys unit :=
  try_except
    (cfg <- (fun s => (Ok (config s), s)) ;;
     call (Client (BINANCE_API_KEY cfg) (BINANCE_SECRET_KEY cfg) true) ;;;
     account_info <- call futures_account ;;
     log logger INFO [Txt "Successfully connected to Binance Futures Testnet"] ;;;
     balance <- lift (py_get account_info "totalWalletBalance" (PStr "N/A")) ;;
     log logger INFO [Txt "Account balance: "; Fmt balance; Txt " USDT"])
    (fun e =>
       log logger ERROR [Txt "Failed to initialize Binance client: "; FmtExc e] ;;;
       raise e).

Definition __init__ : M Sys unit := _initialize_client.

Definition get_account_info : M Sys PyVal :=
  try_except
    (account_info <- call futures_account ;;
     a <- lift (py_get account_info "totalWalletBalance" PNone) ;;
     b <- lift (py_get account_info "totalUnrealizedProfit" PNone) ;;
     c <- lift (py_get account_info "totalMarginBalance" PNone) ;;
     d <- lift (py_get account_info "availableBalance" PNone) ;;
     e <- lift (py_get account_info "maxWithdrawAmount" PNone) ;;
     ret (PDict [("total_wallet_balance", a);
                 ("total_unrealized_pnl", b);
                 ("total_margin_balance", c);
                 ("available_balance", d);
                 ("max_withdraw_amount", e)]))
    (fun e =>
       log logger ERROR [Txt "Failed to get account info: "; FmtExc e] ;;;
       raise e).

(** [record['symbol'] == symbol]. *)
Definition has_symbol (symbol : string) (record : PyVal) : result bool :=
  match py_getitem record "symbol" with
  | Ok v => Ok (py_eq_str v symbol)
  | Raise e => Raise e
  end.

(** The loop of [get_symbol_info]: the first record whose ['symbol'] is the
    symbol asked for, [ValueError] when the records run out. *)
Fixpoint find_symbol (symbol : string) (records : list PyVal) : result PyVal :=
  match records with
  | [] => Raise (ValueError ("Symbol " ++ symbol ++ " not found"))
  | symbol_info :: rest =>
      match has_symbol symbol symbol_info with
      | Ok true => Ok symbol_info
      | Ok false => find_symbol symbol rest
      | Raise e => Raise e
      end
  end.

Definition get_symbol_info (symbol : string) : M Sys PyVal :=
  try_except
    (exchange_info <- call futures_exchange_info ;;
     symbols <- lift (py_getitem exchange_info "symbols") ;;
     records <- lift (py_iter symbols) ;;
     lift (find_symbol symbol records))
    (fun e =>
       log logger ERROR [Txt "Failed to get symbol info for "; Fmt (PStr symbol);
                         Txt ": "; FmtExc e] ;;;
       raise e).

Definition get_current_price (symbol : string) : M Sys float :=
  try_except
    (ticker <- call (futures_symbol_ticker symbol) ;;
     price <- lift (py_getitem ticker "price") ;;
     lift (py_float price))
    (fun e =>
       log logger ERROR [Txt "Failed to get current price for "; Fmt (PStr symbol);
                         Txt ": "; FmtExc e] ;;;
       raise e).

Definition get_order_book (symbol : string) (limit : Z) : M Sys PyVal :=
  try_except
    (call (futures_order_book symbol limit))
    (fun e =>
       log logger ERROR [Txt "Failed to get order book for "; Fmt (PStr symbol);
                         Txt ": "; FmtExc e] ;;;
       raise e).

Definition is_api_exception (e : PyExc) : bool :=
  match e with
  | BinanceAPIException _ _ => true
  | _ => false
  end.

Definition place_market_order (symbol side : string) (quantity : float)
    (reduce_only : bool) : M Sys PyVal :=
  try_except
    (log logger INFO [Txt "Placing market "; Fmt (PStr side); Txt " order for ";
                      Fmt (PFloat quantity); Txt " "; Fmt (PStr symbol)] ;;;
     order <- call (futures_create_order
                      [("symbol", PStr symbol);
                       ("side", PStr side);
                       ("type", PStr "MARKET");
                       ("quantity", PFloat quantity);
                       ("reduceOnly", PBool reduce_only)]) ;;
     log logger INFO [Txt "Market order placed successfully: "; Fmt order] ;;;
     ret order)
    (fun e =>
       (if is_api_exception e
        then log logger ERROR [Txt "Binance API error placing market order: "; FmtExc e]
        else log logger ERROR [Txt "Unexpected error placing market order: "; FmtExc e]) ;;;
       raise e).

Definition place_limit_order (symbol side : string) (quantity price : float)
    (time_in_force : string) (reduce_only : bool) : M Sys PyVal :=
  try_except
    (log logger INFO [Txt "Placing limit "; Fmt (PStr side); Txt " order for ";
                      Fmt (PFloat quantity); Txt " "; Fmt (PStr symbol);
                      Txt " at "; Fmt (PFloat price)] ;;;
     order <- call (futures_create_order
                      [("symbol", PStr symbol);
                       ("side", PStr side);
                       ("type", PStr "LIMIT");
                       ("quantity", PFloat quantity);
                       ("price", PFloat price);
                       ("timeInForce", PStr time_in_force);
                       ("reduceOnly", PBool reduce_only)]) ;;
     log logger INFO [Txt "Limit order placed successfully: "; Fmt order] ;;;
     ret order)
    (fun e =>
       (if is_api_exception e
        then log logger ERROR [Txt "Binance API error placing limit order: "; FmtExc e]
        else log logger ERROR [Txt "Unexpected error placing limit order: "; FmtExc e]) ;;;
       raise e).

Definition place_stop_limit_order (symbol side : string)
    (quantity price stop_price : float) (time_in_force : string) : M Sys PyVal :=
  try_except
    (log logger INFO [Txt "Placing stop-limit "; Fmt (PStr side); Txt " order for ";
                      Fmt (PFloat quantity); Txt " "; Fmt (PStr symbol)] ;;;
     order <- call (futures_create_order
                      [("symbol", PStr symbol);
                       ("side", PStr side);
                       ("type", PStr "STOP_MARKET");
                       ("quantity", PFloat quantity);
                       ("stopPrice", PFloat stop_price);
                       ("timeInForce", PStr time_in_force)]) ;;
     log logger INFO [Txt "Stop-limit order placed successfully: "; Fmt order] ;;;
     ret order)
    (fun e =>
       log logger ERROR [Txt "Error placing stop-limit order: "; FmtExc e] ;;;
       raise e).

Definition cancel_order (symbol : string) (order_id : Z) : M Sys PyVal :=
  try_except
    (log logger INFO [Txt "Cancelling order "; Fmt (PInt order_id); Txt " for ";
                      Fmt (PStr symbol)] ;;;
     result <- call (futures_cancel_order symbol order_id) ;;
     log logger INFO [Txt "Order cancelled successfully: "; Fmt result] ;;;
     ret result)
    (fun e =>
       log logger ERROR [Txt "Error cancelling order: "; FmtExc e] ;;;
       raise e).

(** [if symbol:] on an optional string: [None] and the empty string are false. *)
Definition given (symbol : option string) : option string :=
  match symbol with
  | Some s => if String.eqb s "" then None else Some s
  | None => None
  end.

Definition get_open_orders (symbol : option string) : M Sys PyVal :=
  try_except
    (match given symbol with
     | Some s => call (futures_get_open_orders (Some s))
     | None => call (futures_get_open_orders None)
     end)
    (fun e =>
       log logger ERROR [Txt "Error getting open orders: "; FmtExc e] ;;;
       raise e).

Definition get_order_history (symbol : string) (limit : Z) : M Sys PyVal :=
  try_except
    (call (futures_get_all_orders symbol limit))
    (fun e =>
       log logger ERROR [Txt "Error getting order history: "; FmtExc e] ;;;
       raise e).

(** [float(pos['positionAmt']) != 0], the condition of the second one. *)
Definition is_active (pos : PyVal) : result bool :=
  match py_getitem pos "positionAmt" with
  | Ok v => match py_float v with
            | Ok f => Ok (negb (PrimFloat.eqb f zero))
            | Raise e => Raise e
            end
  | Raise e => Raise e
  end.

Definition get_positions (symbol : option string) : M Sys (list PyVal) :=
  try_except
    (response <- call futures_position_information ;;
     positions <-
       match given symbol with
       | Some s => all <- lift (py_iter response) ;;
                   filter_m all (fun pos => lift (has_symbol s pos))
       | None => lift (py_iter response)
       end ;;
     filter_m positions (fun pos => lift (is_active pos)))
    (fun e =>
       log logger ERROR [Txt "Error getting positions: "; FmtExc e] ;;;
       raise e).

End BinanceFuturesClient.

(** ** [logger.py]: the logging helpers the orchestrator calls *)

Module Logger.

(** [log_trade_action]; [order_id] is passed as [str(v)] and is given here
    by the value [v]. *)
Definition log_trade_action (action symbol side : string) (quantity : float)
    (price : option float) (order_id : option PyVal) : M Sys unit :=
  let message :=
    [Txt "TRADE: "; Fmt (PStr action); Txt " "; Fmt (PStr side); Txt " ";
     Fmt (PFloat quantity); Txt " "; Fmt (PStr symbol)] in
  let message :=
    match price with
    | Some p => if py_truthy (PFloat p)
                then (message ++ [Txt " @ "; Fmt (PFloat p)])%list else message
    | None => message
    end in
  let message :=
    match order_id with
    | Some v => if str_is_empty v then message
                else (message ++ [Txt " (Order ID: "; Fmt v; Txt ")"])%list
    | None => message
    end in
  log "trading_bot.trades" INFO message.

Definition log_error (error : PyExc) (context : text) : M Sys unit :=
  log "trading_bot.errors" ERROR
      ([Txt "ERROR in "] ++ context ++ [Txt ": "; FmtExc error])%list.

Definition log_performance_metrics (metrics : list (string * PyVal)) : M Sys unit :=
  log "trading_bot.performance" INFO [Txt "PERFORMANCE METRICS:"] ;;;
  for_each metrics (fun kv =>
    log "trading_bot.performance" INFO
        [Txt "  "; Fmt (PStr (fst kv)); Txt ": "; Fmt (snd kv)]).

End Logger.

(** ** [trading_bot.py]: the orchestrator *)

(** The attributes of a [TradingBot] object (its client holds no state of
    its own beyond the exchange). *)
Record Bot : Type := mkBot {
  running : bool;
  trade_count : Z;
  successful_trades : Z;
  failed_trades : Z
}.

Record State : Type := mkState {
  self : Bot;
  sys : Sys
}.

(** Runs an adapter or terminal action from a method of the bot. *)
Definition io {A : Type} (m : M Sys A) : M State A :=
  fun st => match m (sys st) with
            | (r, s') => (r, mkState (self st) s')
            end.

Definition get_self : M State Bot := fun st => (Ok (self st), st).

Definition set_self (b : Bot) : M State unit := fun st => (Ok tt, mkState b (sys st)).

Definition set_running (v : bool) : M State unit :=
  b <- get_self ;;
  set_self (mkBot v (trade_count b) (successful_trades b) (failed_trades b)).

(** [self.trade_count += 1]. *)
Definition incr_trade_count : M State unit :=
  b <- get_self ;;
  set_self (mkBot (running b) (trade_count b + 1) (successful_trades b) (failed_trades b)).

(** [self.successful_trades += 1]. *)
Definition incr_successful_trades : M State unit :=
  b <- get_self ;;
  set_self (mkBot (running b) (trade_count b) (successful_trades b + 1) (failed_trades b)).

(** [self.failed_trades += 1]. *)
Definition incr_failed_trades : M State unit :=
  b <- get_self ;;
  set_self (mkBot (running b) (trade_count b) (successful_trades b) (failed_trades b + 1)).

Module TradingBot.

Definition logger : string := "trading_bot".

Definition __init__ : M Sys Bot :=
  BinanceFuturesClient.__init__ ;;;
  log logger INFO [Txt "Trading Bot initialized successfully"] ;;;
  ret (mkBot false 0 0 0).

Definition display_account_info : M State unit :=
  try_except
    (account_info <- io BinanceFuturesClient.get_account_info ;;
     io (print [Txt (nl ++ rep "=" 50)]) ;;;
     io (print [Txt "ACCOUNT INFORMATION"]) ;;;
     io (print [Txt (rep "=" 50)]) ;;;
     a <- lift (py_getitem account_info "total_wallet_balance") ;;
     io (print [Txt "Total Wallet Balance: "; Fmt a; Txt " USDT"]) ;;;
     b <- lift (py_getitem account_info "available_balance") ;;
     io (print [Txt "Available Balance: "; Fmt b; Txt " USDT"]) ;;;
     c <- lift (py_getitem account_info "total_unrealized_pnl") ;;
     io (print [Txt "Total Unrealized PnL: "; Fmt c; Txt " USDT"]) ;;;
     d <- lift (py_getitem account_info "total_margin_balance") ;;
     io (print [Txt "Total Margin Balance: "; Fmt d; Txt " USDT"]) ;;;
     e <- lift (py_getitem account_info "max_withdraw_amount") ;;
     io (print [Txt "Max Withdraw Amount: "; Fmt e; Txt " USDT"]) ;;;
     io (print [Txt (rep "=" 50 ++ nl)]))
    (fun e =>
       io (Logger.log_error e [Txt "display_account_info"]) ;;;
       io (print [Txt "Error getting account info: "; FmtExc e])).

Definition start : M State unit :=
  set_running true ;;;
  io (log logger INFO [Txt "Trading Bot started"]) ;;;
  display_account_info.

(** One row of the positions table. *)
Definition position_row (pos : PyVal) : M State unit :=
  symbol <- lift (py_getitem pos "symbol") ;;
  amt <- lift (py_getitem pos "positionAmt") ;;
  f <- lift (py_float amt) ;;
  let side := if PrimFloat.ltb zero f then "LONG" else "SHORT" in
  amt' <- lift (py_getitem pos "positionAmt") ;;
  f' <- lift (py_float amt') ;;
  let size := PrimFloat.abs f' in
  entry_price <- lift (py_getitem pos "entryPrice") ;;
  mark_price <- lift (py_getitem pos "markPrice") ;;
  pnl <- lift (py_getitem pos "unRealizedProfit") ;;
  c1 <- lift (py_format symbol "<12") ;;
  c2 <- lift (py_format (PStr side) "<6") ;;
  c3 <- lift (py_format (PFloat size) "<15.6f") ;;
  c4 <- lift (py_format entry_price "<12") ;;
  c5 <- lift (py_format mark_price "<12") ;;
  c6 <- lift (py_format pnl "<12") ;;
  io (print [c1; Txt " "; c2; Txt " "; c3; Txt " "; c4; Txt " "; c5; Txt " "; c6]).

Definition display_positions : M State unit :=
  try_except
    (positions <- io (BinanceFuturesClient.get_positions None) ;;
     match positions with
     | [] => io (print [Txt "No open positions"])
     | _ =>
         io (print [Txt (nl ++ rep "=" 80)]) ;;;
         io (print [Txt "CURRENT POSITIONS"]) ;;;
         io (print [Txt (rep "=" 80)]) ;;;
         io (print [Txt (ljust "Symbol" 12 ++ " " ++ ljust "Side" 6 ++ " "
                           ++ ljust "Size" 15 ++ " " ++ ljust "Entry Price" 12 ++ " "
                           ++ ljust "Mark Price" 12 ++ " " ++ ljust "PnL" 12)]) ;;;
         io (print [Txt (rep "-" 80)]) ;;;
         for_each positions position_row ;;;
         io (print [Txt (rep "=" 80 ++ nl)])
     end)
    (fun e =>
       io (Logger.log_error e [Txt "display_positions"]) ;;;
       io (print [Txt "Error getting positions: "; FmtExc e])).

(** [f"...{' for ' + symbol if symbol else ''}"]. *)
Definition for_symbol (symbol : option string) : text :=
  match BinanceFuturesClient.given symbol with
  | Some s => [Fmt (PStr (" for " ++ s))]
  | None => [Fmt (PStr "")]
  end.

(** One row of the open-orders table. *)
Definition order_row (order : PyVal) : M State unit :=
  order_id <- lift (py_getitem order "orderId") ;;
  symbol <- lift (py_getitem order "symbol") ;;
  side <- lift (py_getitem order "side") ;;
  order_type <- lift (py_getitem order "type") ;;
  quantity <- lift (py_getitem order "origQty") ;;
  price <- lift (py_get order "price" (PStr "Market")) ;;
  status <- lift (py_getitem order "status") ;;
  let c1 := FmtStrSpec order_id "<12" in
  c2 <- lift (py_format symbol "<12") ;;
  c3 <- lift (py_format side "<6") ;;
  c4 <- lift (py_format order_type "<12") ;;
  c5 <- lift (py_format quantity "<15") ;;
  c6 <- lift (py_format price "<12") ;;
  c7 <- lift (py_format status "<12") ;;
  io (print [c1; Txt " "; c2; Txt " "; c3; Txt " "; c4; Txt " "; c5; Txt " "; c6;
             Txt " "; c7]).

Definition display_open_orders (symbol : option string) : M State unit :=
  try_except
    (orders <- io (BinanceFuturesClient.get_open_orders symbol) ;;
     if negb (py_truthy orders) then
       io (print (Txt "No open orders" :: for_symbol symbol))
     else
       io (print [Txt (nl ++ rep "=" 100)]) ;;;
       io (print (Txt "OPEN ORDERS" :: for_symbol symbol)) ;;;
       io (print [Txt (rep "=" 100)]) ;;;
       io (print [Txt (ljust "Order ID" 12 ++ " " ++ ljust "Symbol" 12 ++ " "
                         ++ ljust "Side" 6 ++ " " ++ ljust "Type" 12 ++ " "
                         ++ ljust "Quantity" 15 ++ " " ++ ljust "Price" 12 ++ " "
                         ++ ljust "Status" 12)]) ;;;
       io (print [Txt (rep "-" 100)]) ;;;
       items <- lift (py_iter orders) ;;
       for_each items order_row ;;;
       io (print [Txt (rep "=" 100 ++ nl)]))
    (fun e =>
       io (Logger.log_error e [Txt "display_open_orders"]) ;;;
       io (print [Txt "Error getting open orders: "; FmtExc e])).

Definition place_market_order (symbol side : string) (quantity : float) : M State bool :=
  try_except
    (io (log logger INFO [Txt "Placing market "; Fmt (PStr side); Txt " order for ";
                          Fmt (PFloat quantity); Txt " "; Fmt (PStr symbol)]) ;;;
     order <- io (BinanceFuturesClient.place_market_order symbol side quantity false) ;;
     order_id <- lift (py_getitem order "orderId") ;;
     io (Logger.log_trade_action "MARKET_ORDER" symbol side quantity None (Some order_id)) ;;;
     incr_trade_count ;;;
     incr_successful_trades ;;;
     io (print [Txt "✅ Market "; Fmt (PStr side); Txt " order placed successfully!"]) ;;;
     order_id' <- lift (py_getitem order "orderId") ;;
     io (print [Txt "   Order ID: "; Fmt order_id']) ;;;
     io (print [Txt "   Symbol: "; Fmt (PStr symbol)]) ;;;
     io (print [Txt "   Quantity: "; Fmt (PFloat quantity)]) ;;;
     status <- lift (py_getitem order "status") ;;
     io (print [Txt "   Status: "; Fmt status]) ;;;
     ret true)
    (fun e =>
       io (Logger.log_error e
             [Txt "place_market_order("; Fmt (PStr symbol); Txt ", "; Fmt (PStr side);
              Txt ", "; Fmt (PFloat quantity); Txt ")"]) ;;;
       incr_trade_count ;;;
       incr_failed_trades ;;;
       io (print [Txt "❌ Failed to place market "; Fmt (PStr side); Txt " order: ";
                  FmtExc e]) ;;;
       ret false).

Definition place_limit_order (symbol side : string) (quantity price : float)
    : M State bool :=
  try_except
    (io (log logger INFO [Txt "Placing limit "; Fmt (PStr side); Txt " order for ";
                          Fmt (PFloat quantity); Txt " "; Fmt (PStr symbol);
                          Txt " at "; Fmt (PFloat price)]) ;;;
     order <- io (BinanceFuturesClient.place_limit_order symbol side quantity price
                    "GTC" false) ;;
     order_id <- lift (py_getitem order "orderId") ;;
     io (Logger.log_trade_action "LIMIT_ORDER" symbol side quantity (Some price)
           (Some order_id)) ;;;
     incr_trade_count ;;;
     incr_successful_trades ;;;
     io (print [Txt "✅ Limit "; Fmt (PStr side); Txt " order placed successfully!"]) ;;;
     order_id' <- lift (py_getitem order "orderId") ;;
     io (print [Txt "   Order ID: "; Fmt order_id']) ;;;
     io (print [Txt "   Symbol: "; Fmt (PStr symbol)]) ;;;
     io (print [Txt "   Quantity: "; Fmt (PFloat quantity)]) ;;;
     io (print [Txt "   Price: "; Fmt (PFloat price)]) ;;;
     status <- lift (py_getitem order "status") ;;
     io (print [Txt "   Status: "; Fmt status]) ;;;
     ret true)
    (fun e =>
       io (Logger.log_error e
             [Txt "place_limit_order("; Fmt (PStr symbol); Txt ", "; Fmt (PStr side);
              Txt ", "; Fmt (PFloat quantity); Txt ", "; Fmt (PFloat price); Txt ")"]) ;;;
       incr_trade_count ;;;
       incr_failed_trades ;;;
       io (print [Txt "❌ Failed to place limit "; Fmt (PStr side); Txt " order: ";
                  FmtExc e]) ;;;
       ret false).

Definition cancel_order (symbol : string) (order_id : Z) : M State bool :=
  try_except
    (io (log logger INFO [Txt "Cancelling order "; Fmt (PInt order_id); Txt " for ";
                          Fmt (PStr symbol)]) ;;;
     result <- io (BinanceFuturesClient.cancel_order symbol order_id) ;;
     io (print [Txt "✅ Order "; Fmt (PInt order_id); Txt " cancelled successfully!"]) ;;;
     io (print [Txt "   Symbol: "; Fmt (PStr symbol)]) ;;;
     status <- lift (py_getitem result "status") ;;
     io (print [Txt "   Status: "; Fmt status]) ;;;
     ret true)
    (fun e =>
       io (Logger.log_error e
             [Txt "cancel_order("; Fmt (PStr symbol); Txt ", "; Fmt (PInt order_id);
              Txt ")"]) ;;;
       io (print [Txt "❌ Failed to cancel order "; Fmt (PInt order_id); Txt ": ";
                  FmtExc e]) ;;;
       ret false).

Definition get_current_price (symbol : string) : M State float :=
  try_except
    (io (BinanceFuturesClient.get_current_price symbol))
    (fun e =>
       io (Logger.log_error e [Txt "get_current_price("; Fmt (PStr symbol); Txt ")"]) ;;;
       raise e).

(** [display_performance_metrics], with the operator [/] of its one
    division taken as [truediv]. *)
Definition display_performance_metrics_with (truediv : Z -> Z -> result float)
    : M State unit :=
  b <- get_self ;;
  if trade_count b =? 0 then
    io (print [Txt "No trades executed yet."])
  else
    ratio <- lift (truediv (successful_trades b) (trade_count b)) ;;
    let success_rate := PrimFloat.mul ratio 100%float in
    let metrics :=
      [("Total Trades", PInt (trade_count b));
       ("Successful Trades", PInt (successful_trades b));
       ("Failed Trades", PInt (failed_trades b));
       ("Success Rate", PStr (PyFloat.format_2f success_rate ++ "%"))] in
    io (Logger.log_performance_metrics metrics) ;;;
    io (print [Txt (nl ++ rep "=" 40)]) ;;;
    io (print [Txt "PERFORMANCE METRICS"]) ;;;
    io (print [Txt (rep "=" 40)]) ;;;
    for_each metrics (fun kv =>
      io (print [Fmt (PStr (fst kv)); Txt ": "; Fmt (snd kv)])) ;;;
    io (print [Txt (rep "=" 40 ++ nl)]).

Definition display_performance_metrics : M State unit :=
  display_performance_metrics_with PyFloat.int_truediv.

Definition stop : M State unit :=
  set_running false ;;;
  io (log logger INFO [Txt "Trading Bot stopped"]) ;;;
  display_performance_metrics.

Definition validate_symbol (symbol : string) : M State bool :=
  try_except
    (symbol_info <- io (BinanceFuturesClient.get_symbol_info symbol) ;;
     status <- lift (py_getitem symbol_info "status") ;;
     ret (py_eq_str status "TRADING"))
    (fun e =>
       io (log logger WARNING [Txt "Symbol validation failed for "; Fmt (PStr symbol);
                               Txt ": "; FmtExc e]) ;;;
       ret false).

Definition get_symbol_info (symbol : string) : M State PyVal :=
  try_except
    (io (BinanceFuturesClient.get_symbol_info symbol))
    (fun e =>
       io (Logger.log_error e [Txt "get_symbol_info("; Fmt (PStr symbol); Txt ")"]) ;;;
       raise e).

End TradingBot.

(** ** [cli.py]: the interactive shell *)

(** The colour codes of [colorama]. *)
Module Fore.
Definition esc : string := String (ascii_of_nat 27) EmptyString.
Definition RED : string := esc ++ "[31m".
Definition GREEN : string := esc ++ "[32m".
Definition YELLOW : string := esc ++ "[33m".
Definition CYAN : string := esc ++ "[36m".
End Fore.

Module Style.
Definition RESET_ALL : string := Fore.esc ++ "[0m".
End Style.

(** What [input()] meets: a line typed by the user, or an interrupt. *)
Inductive Input : Type :=
| Line (s : string)
| Interrupt.

Module TradingBotCLI.

(** [__name__] of [cli.py], which is run as a script. *)
Definition logger : string := "__main__".

Definition __init__ : M Sys Bot := TradingBot.__init__.

Definition display_welcome : M State unit :=
  io (print [Txt (Fore.CYAN ++ rep "=" 60)]) ;;;
  io (print [Txt (Fore.CYAN ++ "🚀 BINANCE FUTURES TESTNET TRADING BOT")]) ;;;
  io (print [Txt (Fore.CYAN ++ rep "=" 60)]) ;;;
  io (print [Txt (Fore.YELLOW ++ "Welcome to the Trading Bot CLI!")]) ;;;
  io (print [Txt (Fore.YELLOW ++
        "This bot connects to Binance Futures Testnet for safe trading practice.")]) ;;;
  io (print [Txt (Fore.GREEN ++
        "Type 'help' to see available commands or 'quit' to exit.")]) ;;;
  io (print [Txt (Fore.CYAN ++ rep "=" 60 ++ nl)]).

Definition parse_command (command : string) : option string * list string :=
  match PyStr.split (PyStr.strip command) with
  | [] => (None, [])
  | cmd :: args => (Some (PyStr.lower cmd), args)
  end.

Definition handle_info (args : list string) : M State unit :=
  TradingBot.display_account_info.

Definition handle_positions (args : list string) : M State unit :=
  TradingBot.display_positions.

Definition handle_orders (args : list string) : M State unit :=
  TradingBot.display_open_orders (match args with
                                  | a :: _ => Some a
                                  | [] => None
                                  end).

Definition handle_price (args : list string) : M State unit :=
  match args with
  | [] => io (print [Txt (Fore.RED ++ "❌ Please provide a symbol. Usage: price <symbol>")])
  | a :: _ =>
      let symbol := PyStr.upper a in
      try_except
        (price <- TradingBot.get_current_price symbol ;;
         io (print [Txt (Fore.GREEN ++ "💰 Current price of "); Fmt (PStr symbol);
                    Txt ": "; Fmt (PFloat price); Txt " USDT"]))
        (fun e =>
           io (print [Txt (Fore.RED ++ "❌ Error getting price for "); Fmt (PStr symbol);
                      Txt ": "; FmtExc e]))
  end.

Definition invalid_symbol (symbol : string) : text :=
  [Txt (Fore.RED ++ "❌ Invalid or non-tradeable symbol: "); Fmt (PStr symbol)].

Definition handle_buy_market (args : list string) : M State unit :=
  if (length args <? 2)%nat then
    io (print [Txt (Fore.RED ++ "❌ Usage: buy_market <symbol> <quantity>")])
  else
    let symbol := PyStr.upper (nth 0 args "") in
    match PyStr.float_of_string (nth 1 args "") with
    | None => io (print [Txt (Fore.RED ++ "❌ Invalid quantity. Please enter a number.")])
    | Some quantity =>
        valid <- TradingBot.validate_symbol symbol ;;
        if negb valid then io (print (invalid_symbol symbol))
        else TradingBot.place_market_order symbol "BUY" quantity ;;; ret tt
    end.

Definition handle_sell_market (args : list string) : M State unit :=
  if (length args <? 2)%nat then
    io (print [Txt (Fore.RED ++ "❌ Usage: sell_market <symbol> <quantity>")])
  else
    let symbol := PyStr.upper (nth 0 args "") in
    match PyStr.float_of_string (nth 1 args "") with
    | None => io (print [Txt (Fore.RED ++ "❌ Invalid quantity. Please enter a number.")])
    | Some quantity =>
        valid <- TradingBot.validate_symbol symbol ;;
        if negb valid then io (print (invalid_symbol symbol))
        else TradingBot.place_market_order symbol "SELL" quantity ;;; ret tt
    end.

(** [quantity = float(args[1]); price = float(args[2])] under one [try]. *)
Definition quantity_and_price (args : list string) : option (float * float) :=
  match PyStr.float_of_string (nth 1 args "") with
  | Some quantity =>
      match PyStr.float_of_string (nth 2 args "") with
      | Some price => Some (quantity, price)
      | None => None
      end
  | None => None
  end.

Definition handle_buy_limit (args : list string) : M State unit :=
  if (length args <? 3)%nat then
    io (print [Txt (Fore.RED ++ "❌ Usage: buy_limit <symbol> <quantity> <price>")])
  else
    let symbol := PyStr.upper (nth 0 args "") in
    match quantity_and_price args with
    | None =>
        io (print [Txt (Fore.RED ++ "❌ Invalid quantity or price. Please enter numbers.")])
    | Some (quantity, price) =>
        valid <- TradingBot.validate_symbol symbol ;;
        if negb valid then io (print (invalid_symbol symbol))
        else TradingBot.place_limit_order symbol "BUY" quantity price ;;; ret tt
    end.

Definition handle_sell_limit (args : list string) : M State unit :=
  if (length args <? 3)%nat then
    io (print [Txt (Fore.RED ++ "❌ Usage: sell_limit <symbol> <quantity> <price>")])
  else
    let symbol := PyStr.upper (nth 0 args "") in
    match quantity_and_price args with
    | None =>
        io (print [Txt (Fore.RED ++ "❌ Invalid quantity or price. Please enter numbers.")])
    | Some (quantity, price) =>
        valid <- TradingBot.validate_symbol symbol ;;
        if negb valid then io (print (invalid_symbol symbol))
        else TradingBot.place_limit_order symbol "SELL" quantity price ;;; ret tt
    end.

Definition handle_cancel (args : list string) : M State unit :=
  if (length args <? 2)%nat then
    io (print [Txt (Fore.RED ++ "❌ Usage: cancel <symbol> <order_id>")])
  else
    let symbol := PyStr.upper (nth 0 args "") in
    match int_of_string (nth 1 args "") with
    | None => io (print [Txt (Fore.RED ++ "❌ Invalid order ID. Please enter a number.")])
    | Some order_id => TradingBot.cancel_order symbol order_id ;;; ret tt
    end.

(** One line of the order history. *)
Definition history_row (order : PyVal) : M State unit :=
  order_id <- lift (py_getitem order "orderId") ;;
  side <- lift (py_getitem order "side") ;;
  order_type <- lift (py_getitem order "type") ;;
  quantity <- lift (py_getitem order "origQty") ;;
  price <- lift (py_get order "price" (PStr "Market")) ;;
  status <- lift (py_getitem order "status") ;;
  time <- lift (py_getitem order "time") ;;
  io (print [Txt "ID: "; Fmt order_id; Txt " | "; Fmt side; Txt " "; Fmt order_type;
             Txt " | Qty: "; Fmt quantity; Txt " | "; Txt "Price: "; Fmt price;
             Txt " | Status: "; Fmt status; Txt " | Time: "; Fmt time]).

Definition handle_history (args : list string) : M State unit :=
  match args with
  | [] => io (print [Txt (Fore.RED ++ "❌ Please provide a symbol. Usage: history <symbol>")])
  | a :: _ =>
      let symbol := PyStr.upper a in
      try_except
        (orders <- io (BinanceFuturesClient.get_order_history symbol 20) ;;
         if negb (py_truthy orders) then
           io (print [Txt "No order history found for "; Fmt (PStr symbol)])
         else
           io (print [Txt (nl ++ Fore.GREEN ++ "Order History for "); Fmt (PStr symbol);
                      Txt ":"]) ;;;
           io (print [Txt (rep "-" 80)]) ;;;
           recent <- lift (py_last10 orders) ;;
           items <- lift (py_iter recent) ;;
           for_each items history_row)
        (fun e =>
           io (print [Txt (Fore.RED ++ "❌ Error getting order history: "); FmtExc e]))
  end.

(** [[s['symbol'] for s in records if s['status'] == 'TRADING']]. *)
Fixpoint trading_symbols (records : list PyVal) : result (list PyVal) :=
  match records with
  | [] => Ok []
  | s :: rest =>
      match py_getitem s "status" with
      | Raise e => Raise e
      | Ok status =>
          if py_eq_str status "TRADING" then
            match py_getitem s "symbol" with
            | Raise e => Raise e
            | Ok symbol => match trading_symbols rest with
                           | Ok l => Ok (symbol :: l)
                           | Raise e => Raise e
                           end
            end
          else trading_symbols rest
      end
  end.

(** [symbols[i:i+4]] for [i] in [range(0, len(symbols), 4)]. *)
Fixpoint rows_of_4 {A : Type} (l : list A) : list (list A) :=
  match l with
  | [] => []
  | a :: b :: c :: d :: r => [a; b; c; d] :: rows_of_4 r
  | _ => [l]
  end.

(** [f"{s:<12}" for s in row]. *)
Fixpoint format_row (row : list PyVal) : result text :=
  match row with
  | [] => Ok []
  | s :: rest =>
      match py_format s "<12" with
      | Raise e => Raise e
      | Ok c => match format_row rest with
                | Ok t => Ok (c :: t)
                | Raise e => Raise e
                end
      end
  end.

(** [sep.join(pieces)]. *)
Fixpoint join (sep : frag) (pieces : text) : text :=
  match pieces with
  | [] => []
  | c :: rest => match rest with
                 | [] => [c]
                 | _ => c :: sep :: join sep rest
                 end
  end.

Definition handle_symbols (args : list string) : M State unit :=
  try_except
    (exchange_info <- io (call futures_exchange_info) ;;
     listed <- lift (py_getitem exchange_info "symbols") ;;
     records <- lift (py_iter listed) ;;
     symbols <- lift (trading_symbols records) ;;
     io (print [Txt (nl ++ Fore.GREEN ++ "Available Trading Symbols (");
                Fmt (PInt (Z.of_nat (length symbols))); Txt " total):"]) ;;;
     io (print [Txt (rep "-" 50)]) ;;;
     for_each (rows_of_4 symbols) (fun row =>
       t <- lift (format_row row) ;; io (print (join (Txt "  ") t))) ;;;
     io (print []))
    (fun e => io (print [Txt (Fore.RED ++ "❌ Error getting symbols: "); FmtExc e])).

Definition handle_performance (args : list string) : M State unit :=
  TradingBot.display_performance_metrics.

Definition handle_start (args : list string) : M State unit := TradingBot.start.

Definition handle_stop (args : list string) : M State unit := TradingBot.stop.

Definition goodbye : text := [Txt (Fore.YELLOW ++ "👋 Goodbye!")].

(** The chain of [if]/[elif] of the loop, for a command that is not
    [quit] or [exit].  The class defines [display_help] but no
    [handle_help], so the attribute lookup of the [help] branch fails. *)
Definition dispatch (cmd : string) (args : list string) : M State unit :=
  if String.eqb cmd "help" then
    raise (AttributeError "'TradingBotCLI' object has no attribute 'handle_help'")
  else if String.eqb cmd "info" then handle_info args
  else if String.eqb cmd "positions" then handle_positions args
  else if String.eqb cmd "orders" then handle_orders args
  else if String.eqb cmd "price" then handle_price args
  else if String.eqb cmd "buy_market" then handle_buy_market args
  else if String.eqb cmd "sell_market" then handle_sell_market args
  else if String.eqb cmd "buy_limit" then handle_buy_limit args
  else if String.eqb cmd "sell_limit" then handle_sell_limit args
  else if String.eqb cmd "cancel" then handle_cancel args
  else if String.eqb cmd "history" then handle_history args
  else if String.eqb cmd "symbols" then handle_symbols args
  else if String.eqb cmd "performance" then handle_performance args
  else if String.eqb cmd "start" then handle_start args
  else if String.eqb cmd "stop" then handle_stop args
  else
    io (print [Txt (Fore.RED ++ "❌ Unknown command: "); Fmt (PStr cmd)]) ;;;
    io (print [Txt (Fore.YELLOW ++ "Type 'help' to see available commands.")]).

(** The body of the loop for one line read; [true] leaves the loop. *)
Definition handle_line (typed : string) : M State bool :=
  try_except
    (let command := PyStr.strip typed in
     if String.eqb command "" then ret false
     else
       match parse_command command with
       | (None, _) => ret false
       | (Some cmd, args) =>
           if String.eqb cmd "quit" || String.eqb cmd "exit"
           then io (print goodbye) ;;; ret true
           else dispatch cmd args ;;; ret false
       end)
    (fun e =>
       io (print [Txt (Fore.RED ++ "❌ Unexpected error: "); FmtExc e]) ;;;
       io (log logger ERROR [Txt "CLI error: "; FmtExc e]) ;;;
       ret false).

(** The prompt [input] writes before it reads. *)
Definition prompt : M State unit :=
  io (print [Txt (Fore.CYAN ++ "bot> " ++ Style.RESET_ALL)]).

(** The [while True] loop over what the user types; the end of the list is
    the end of the input. *)
Fixpoint loop (inputs : list Input) : M State unit :=
  match inputs with
  | Line typed :: rest =>
      prompt ;;; leave <- handle_line typed ;; if leave then ret tt else loop rest
  | Interrupt :: _ => prompt ;;; io (print (Txt nl :: goodbye))
  | [] => prompt ;;; io (print (Txt nl :: goodbye))
  end.

Definition run (inputs : list Input) : M State unit :=
  display_welcome ;;;
  TradingBot.start ;;;
  try_finally (loop inputs) TradingBot.stop.

End TradingBotCLI.

(** ** Concrete exchanges *)

(** An exchange that answers its calls from a script, one answer per call in
    order, and refuses the connection once the script is used up. *)
Definition scripted (answers : list (result PyVal)) : list Request -> result PyVal :=
  fun history =>
    nth (Nat.pred (length history)) answers
        (Raise (OtherException "ConnectionError" "connection refused")).

(** A system at start-up, talking to a scripted exchange. *)
Definition boot (answers : list (result PyVal)) : Sys :=
  mkSys (mkConfig "key" "secret") (scripted answers) [] [] [].

(** A freshly constructed bot, in a system that has done nothing yet. *)
Definition fresh (answers : list (result PyVal)) : State :=
  mkState (mkBot false 0 0 0) (boot answers).

(** An order as the exchange reports it. *)
Definition order_new (id : Z) : PyVal :=
  PDict [("orderId", PInt id); ("symbol", PStr "BTCUSDT"); ("status", PStr "NEW")].

Definition rejected : PyExc := BinanceAPIException (-2019) "Margin is insufficient.".


(** ** Vocabulary of the properties *)

(** The keyword arguments of the three kinds of order the adapter sends. *)
Definition market_kwargs (symbol side : string) (quantity : float) (reduce_only : bool)
    : list (string * PyVal) :=
  [("symbol", PStr symbol); ("side", PStr side); ("type", PStr "MARKET");
   ("quantity", PFloat quantity); ("reduceOnly", PBool reduce_only)].

Definition limit_kwargs (symbol side : string) (quantity price : float)
    (time_in_force : string) (reduce_only : bool) : list (string * PyVal) :=
  [("symbol", PStr symbol); ("side", PStr side); ("type", PStr "LIMIT");
   ("quantity", PFloat quantity); ("price", PFloat price);
   ("timeInForce", PStr time_in_force); ("reduceOnly", PBool reduce_only)].

Definition stop_kwargs (symbol side : string) (quantity stop_price : float)
    (time_in_force : string) : list (string * PyVal) :=
  [("symbol", PStr symbol); ("side", PStr side); ("type", PStr "STOP_MARKET");
   ("quantity", PFloat quantity); ("stopPrice", PFloat stop_price);
   ("timeInForce", PStr time_in_force)].

(** The system with some more lines on the terminal and nothing else changed. *)
Definition printed (lines : list text) (s : Sys) : Sys :=
  mkSys (config s) (remote s) (requests s) (stdout s ++ lines)%list (logs s).

(** The three trade counters are the same in both bots. *)
Definition same_counters (b b' : Bot) : Prop :=
  trade_count b' = trade_count b
  /\ successful_trades b' = successful_trades b
  /\ failed_trades b' = failed_trades b.

(** The counters went up by the given amounts. *)
Definition counted (dt ds df : Z) (b b' : Bot) : Prop :=
  trade_count b' = trade_count b + dt
  /\ successful_trades b' = successful_trades b + ds
  /\ failed_trades b' = failed_trades b + df.

(** Every attempt is either a success or a failure. *)
Definition invariant (b : Bot) : Prop :=
  trade_count b = successful_trades b + failed_trades b.

(** The invariant, with the counters counting up from zero. *)
Definition sound (b : Bot) : Prop :=
  0 <= successful_trades b /\ 0 <= failed_trades b /\ invariant b.

(** The operations of the orchestrator. *)
Inductive Op : Type :=
| op_start
| op_stop
| op_display_account_info
| op_display_positions
| op_display_open_orders (symbol : option string)
| op_place_market_order (symbol side : string) (quantity : float)
| op_place_limit_order (symbol side : string) (quantity price : float)
| op_cancel_order (symbol : string) (order_id : Z)
| op_get_current_price (symbol : string)
| op_display_performance_metrics
| op_validate_symbol (symbol : string)
| op_get_symbol_info (symbol : string).

Definition is_order_attempt (op : Op) : bool :=
  match op with
  | op_place_market_order _ _ _ | op_place_limit_order _ _ _ _ => true
  | _ => false
  end.

(** The state an operation leaves behind, whether it returns or raises. *)
Definition after (op : Op) (st : State) : State :=
  match op with
  | op_start => snd (TradingBot.start st)
  | op_stop => snd (TradingBot.stop st)
  | op_display_account_info => snd (TradingBot.display_account_info st)
  | op_display_positions => snd (TradingBot.display_positions st)
  | op_display_open_orders symbol => snd (TradingBot.display_open_orders symbol st)
  | op_place_market_order symbol side quantity =>
      snd (TradingBot.place_market_order symbol side quantity st)
  | op_place_limit_order symbol side quantity price =>
      snd (TradingBot.place_limit_order symbol side quantity price st)
  | op_cancel_order symbol order_id => snd (TradingBot.cancel_order symbol order_id st)
  | op_get_current_price symbol => snd (TradingBot.get_current_price symbol st)
  | op_display_performance_metrics => snd (TradingBot.display_performance_metrics st)
  | op_validate_symbol symbol => snd (TradingBot.validate_symbol symbol st)
  | op_get_symbol_info symbol => snd (TradingBot.get_symbol_info symbol st)
  end.

(** The states a bot can be in: constructed, then operated on. *)
Inductive reachable : State -> Prop :=
| reach_init : forall (s0 s : Sys) (b : Bot),
    TradingBot.__init__ s0 = (Ok b, s) -> reachable (mkState b s)
| reach_step : forall (op : Op) (st : State),
    reachable st -> reachable (after op st).

(** A computation relates the bot it starts from to the bot it leaves by
    [R], whether it returns or raises. *)
Definition respects (R : Bot -> Bot -> Prop) {A : Type} (m : M State A) : Prop :=
  forall st, R (self st) (self (snd (m st))).

(** The positions [get_positions] keeps, given all the positions of the
    exchange: those of the symbol, when one is given, whose size is not zero. *)
Definition kept (symbol : option string) (all : list PyVal) : list PyVal :=
  filter (fun pos => match BinanceFuturesClient.is_active pos with
                     | Ok true => true
                     | _ => false
                     end)
         (match BinanceFuturesClient.given symbol with
          | Some s => filter (fun pos => match BinanceFuturesClient.has_symbol s pos with
                                         | Ok true => true
                                         | _ => false
                                         end) all
          | None => all
          end).

(** The lines [display_performance_metrics] writes once there are trades. *)
Definition metrics_report (b : Bot) (rate : string) : list text :=
  [[Txt (nl ++ rep "=" 40)];
   [Txt "PERFORMANCE METRICS"];
   [Txt (rep "=" 40)];
   [Fmt (PStr "Total Trades"); Txt ": "; Fmt (PInt (trade_count b))];
   [Fmt (PStr "Successful Trades"); Txt ": "; Fmt (PInt (successful_trades b))];
   [Fmt (PStr "Failed Trades"); Txt ": "; Fmt (PInt (failed_trades b))];
   [Fmt (PStr "Success Rate"); Txt ": "; Fmt (PStr rate)];
   [Txt (rep "=" 40 ++ nl)]].

(** A float that is a number: neither an infinity nor a NaN. *)
Definition finite (f : float) : bool :=
  match Prim2SF f with
  | S754_zero _ | S754_finite _ _ _ => true
  | _ => false
  end.

(** The line the shell writes for a quantity that is not a number. *)
Definition quantity_error : text :=
  [Txt (Fore.RED ++ "❌ Invalid quantity. Please enter a number.")].

(** The field [k] of a dict, [None] when it is not there. *)
Definition field (k : string) (d : list (string * PyVal)) : PyVal :=
  match assoc k d with
  | Some x => x
  | None => PNone
  end.

(** The account snapshot [display_account_info] writes, given the account
    as the exchange reports it. *)
Definition account_report (d : list (string * PyVal)) : list text :=
  [[Txt (nl ++ rep "=" 50)];
   [Txt "ACCOUNT INFORMATION"];
   [Txt (rep "=" 50)];
   [Txt "Total Wallet Balance: "; Fmt (field "totalWalletBalance" d); Txt " USDT"];
   [Txt "Available Balance: "; Fmt (field "availableBalance" d); Txt " USDT"];
   [Txt "Total Unrealized PnL: "; Fmt (field "totalUnrealizedProfit" d); Txt " USDT"];
   [Txt "Total Margin Balance: "; Fmt (field "totalMarginBalance" d); Txt " USDT"];
   [Txt "Max Withdraw Amount: "; Fmt (field "maxWithdrawAmount" d); Txt " USDT"];
   [Txt (rep "=" 50 ++ nl)]].

(** What [display_account_info] writes, given the answer of the exchange to
    its request: the snapshot, or the error met fetching it. *)
Definition account_lines (answer : result PyVal) : list text :=
  match answer with
  | Ok (PDict d) => account_report d
  | Ok v =>
      [[Txt "Error getting account info: ";
        FmtExc (AttributeError ("'" ++ type_name v ++ "' object has no attribute 'get'"))]]
  | Raise e => [[Txt "Error getting account info: "; FmtExc e]]
  end.

(** The line [handle_history] writes for an order, given the order as the
    exchange reports it. *)
Definition history_line (d : list (string * PyVal)) : text :=
  [Txt "ID: "; Fmt (field "orderId" d); Txt " | "; Fmt (field "side" d); Txt " ";
   Fmt (field "type" d); Txt " | Qty: "; Fmt (field "origQty" d); Txt " | ";
   Txt "Price: "; Fmt (match assoc "price" d with
                       | Some price => price
                       | None => PStr "Market"
                       end);
   Txt " | Status: "; Fmt (field "status" d); Txt " | Time: "; Fmt (field "time" d)].

(** An order that has the six fields [handle_history] cannot do without. *)
Definition has_history_fields (d : list (string * PyVal)) : bool :=
  forallb (fun k => match assoc k d with Some _ => true | None => false end)
          ["orderId"; "side"; "type"; "origQty"; "status"; "time"].

(** The last ten elements of a list, [l[-10:]]. *)
Definition last_ten {A : Type} (l : list A) : list A := skipn (length l - 10) l.

(** A value that, when it is a string, is an ASCII one. *)
Definition ascii_str (v : PyVal) : bool :=
  match v with
  | PStr s => PyStr.is_ascii s
  | _ => true
  end.

(** The price of the ticker the exchange answers with, when there is one and
    it is a string, is ASCII text. *)
Definition ascii_price (answer : result PyVal) : Prop :=
  forall ticker price : PyVal,
    answer = Ok ticker -> py_getitem ticker "price" = Ok price -> ascii_str price = true.

(** ** Vocabulary of the further properties *)

(** What is logged from [before] to [after] is lines of information and
    then, last, one error of the adapter. *)
Definition logged_error (before after : list LogRecord) : Prop :=
  exists (pre : list LogRecord) (msg : text),
    after = (before ++ pre ++ [mkLog BinanceFuturesClient.logger ERROR msg])%list
    /\ Forall (fun l => log_level l = INFO) pre.

(** What is logged from [before] to [after] is lines of information only. *)
Definition logged_info (before after : list LogRecord) : Prop :=
  exists pre : list LogRecord,
    after = (before ++ pre)%list /\ Forall (fun l => log_level l = INFO) pre.

(** [m] relays the one request [r]: the request goes out once, the answer of
    the exchange comes back as it is, value or exception, nothing is written
    to the terminal, and an exception, and only an exception, is logged as
    an error. *)
Definition relays (r : Request) (m : M Sys PyVal) : Prop :=
  forall s : Sys,
    let out := m s in
    fst out = remote s (requests s ++ [r])%list
    /\ requests (snd out) = (requests s ++ [r])%list
    /\ stdout (snd out) = stdout s
    /\ match fst out with
       | Ok _ => logged_info (logs s) (logs (snd out))
       | Raise _ => logged_error (logs s) (logs (snd out))
       end.

(** [m] sends the requests [l], in order, and no other, and leaves the
    exchange and the configuration as they are. *)
Definition calls (l : list Request) {A : Type} (m : M Sys A) : Prop :=
  forall s : Sys,
    requests (snd (m s)) = (requests s ++ l)%list
    /\ remote (snd (m s)) = remote s
    /\ config (snd (m s)) = config s.

(** The same for a method of the bot. *)
Definition emits (l : list Request) {A : Type} (m : M State A) : Prop :=
  forall st : State,
    requests (sys (snd (m st))) = (requests (sys st) ++ l)%list
    /\ remote (sys (snd (m st))) = remote (sys st)
    /\ config (sys (snd (m st))) = config (sys st).

(** [m] returns, whatever the state. *)
Definition never_raises {A : Type} (m : M State A) : Prop :=
  forall st : State, exists a : A, fst (m st) = Ok a.

(** The requests an operation of the orchestrator sends. *)
Definition requests_of (op : Op) : list Request :=
  match op with
  | op_start => [futures_account]
  | op_stop => []
  | op_display_account_info => [futures_account]
  | op_display_positions => [futures_position_information]
  | op_display_open_orders symbol =>
      [futures_get_open_orders (BinanceFuturesClient.given symbol)]
  | op_place_market_order symbol side quantity =>
      [futures_create_order (market_kwargs symbol side quantity false)]
  | op_place_limit_order symbol side quantity price =>
      [futures_create_order (limit_kwargs symbol side quantity price "GTC" false)]
  | op_cancel_order symbol order_id => [futures_cancel_order symbol order_id]
  | op_get_current_price symbol => [futures_symbol_ticker symbol]
  | op_display_performance_metrics => []
  | op_validate_symbol symbol => [futures_exchange_info]
  | op_get_symbol_info symbol => [futures_exchange_info]
  end.

(** The exception an operation ends with, if it ends with one. *)
Definition raised {A : Type} (r : result A) : option PyExc :=
  match r with
  | Ok _ => None
  | Raise e => Some e
  end.

Definition failure (op : Op) (st : State) : option PyExc :=
  match op with
  | op_start => raised (fst (TradingBot.start st))
  | op_stop => raised (fst (TradingBot.stop st))
  | op_display_account_info => raised (fst (TradingBot.display_account_info st))
  | op_display_positions => raised (fst (TradingBot.display_positions st))
  | op_display_open_orders symbol => raised (fst (TradingBot.display_open_orders symbol st))
  | op_place_market_order symbol side quantity =>
      raised (fst (TradingBot.place_market_order symbol side quantity st))
  | op_place_limit_order symbol side quantity price =>
      raised (fst (TradingBot.place_limit_order symbol side quantity price st))
  | op_cancel_order symbol order_id =>
      raised (fst (TradingBot.cancel_order symbol order_id st))
  | op_get_current_price symbol => raised (fst (TradingBot.get_current_price symbol st))
  | op_display_performance_metrics =>
      raised (fst (TradingBot.display_performance_metrics st))
  | op_validate_symbol symbol => raised (fst (TradingBot.validate_symbol symbol st))
  | op_get_symbol_info symbol => raised (fst (TradingBot.get_symbol_info symbol st))
  end.

(** The running flag is the same in both bots. *)
Definition same_running (b b' : Bot) : Prop := running b' = running b.

(** The counters of [b'] are sound if those of [b] are. *)
Definition stays_sound (b b' : Bot) : Prop := sound b -> sound b'.

(** A string without whitespace. *)
Fixpoint no_space (s : string) : bool :=
  match s with
  | EmptyString => true
  | String c r => negb (PyStr.is_space c) && no_space r
  end.

(** A word of a command line: not empty, and without whitespace. *)
Definition word (t : string) : Prop := t <> "" /\ no_space t = true.

(** What [m] writes to the terminal, in a state where it leaves everything
    else of the bot as it is. *)
Definition writes {A : Type} (m : M State A) (st : State) (lines : list text) : Prop :=
  self (snd (m st)) = self st
  /\ stdout (sys (snd (m st))) = (stdout (sys st) ++ lines)%list.

(** The commands the loop of the shell knows. *)
Definition commands : list string :=
  ["quit"; "exit"; "help"; "info"; "positions"; "orders"; "price"; "buy_market";
   "sell_market"; "buy_limit"; "sell_limit"; "cancel"; "history"; "symbols";
   "performance"; "start"; "stop"].

(** The block under [if __name__ == "__main__"] of [cli.py], as it runs once
    the module and its imports have been loaded; its value is the exit
    status it gives the process, 1 for [sys.exit(1)] and 0 when it falls
    through.  What the imports do before the block starts (the
    configuration read from the environment, the log file opened) is outside
    this development. *)
Definition main_block (inputs : list Input) : M Sys Z :=
  fun s =>
    let failed (e : PyExc) : M Sys Z :=
      print [Txt (Fore.RED ++ "❌ Failed to start CLI: "); FmtExc e] ;;; ret 1 in
    match TradingBotCLI.__init__ s with
    | (Ok bot, s1) =>
        match TradingBotCLI.run inputs (mkState bot s1) with
        | (Ok _, st) => (Ok 0, sys st)
        | (Raise e, st) => failed e (sys st)
        end
    | (Raise e, s1) => failed e s1
    end.

(** The records of the trade log, among the records logged. *)
Definition trade_records (lg : list LogRecord) : list LogRecord :=
  filter (fun r => String.eqb (log_name r) "trading_bot.trades") lg.

(** A computation relates the state it starts from to the state it leaves
    by [R], whether it returns or raises. *)
Definition preserves {S A : Type} (R : S -> S -> Prop) (m : M S A) : Prop :=
  forall s : S, R s (snd (m s)).

(** The trade log is the same in both systems. *)
Definition same_trades (s s' : Sys) : Prop :=
  trade_records (logs s') = trade_records (logs s).

Definition same_trade_log (st st' : State) : Prop := same_trades (sys st) (sys st').

(** The trade records written from [st] to [st']. *)
Definition trades_logged (st st' : State) : Z :=
  Z.of_nat (length (trade_records (logs (sys st'))))
  - Z.of_nat (length (trade_records (logs (sys st)))).

(** A line that ends the session: its first word, in any case, is [quit]
    or [exit]. *)
Definition leaving (typed : string) : bool :=
  match TradingBotCLI.parse_command typed with
  | (Some cmd, _) => String.eqb cmd "quit" || String.eqb cmd "exit"
  | (None, _) => false
  end.

(** * Properties *)

(** Evaluates the monad as far as the program text allows. *)
Ltac run :=
  cbv beta iota zeta delta
    [ret raise bind try_except try_finally lift print log call io for_each
     get_self set_self set_running incr_trade_count incr_successful_trades
     incr_failed_trades Logger.log_error Logger.log_trade_action
     Logger.log_performance_metrics fst snd self sys config remote requests stdout logs].

(** ** Frame rules: what a computation does to the bot *)

Section Frame.

Context (R : Bot -> Bot -> Prop) `{!RelationClasses.PreOrder R}.

Lemma respects_ret {A : Type} (a : A) : respects R (ret a).
Proof. intros st. cbn. reflexivity. Qed.

Lemma respects_raise {A : Type} (e : PyExc) : respects R (@raise State A e).
Proof. intros st. cbn. reflexivity. Qed.

Lemma respects_lift {A : Type} (r : result A) : respects R (lift r).
Proof. intros st. cbn. reflexivity. Qed.

Lemma respects_get_self : respects R get_self.
Proof. intros st. cbn. reflexivity. Qed.

Lemma respects_io {A : Type} (m : M Sys A) : respects R (io m).
Proof. intros st. unfold io. destruct (m (sys st)). cbn. reflexivity. Qed.

Lemma respects_bind {A B : Type} (m : M State A) (k : A -> M State B) :
  respects R m -> (forall a, respects R (k a)) -> respects R (bind m k).
Proof.
  intros Hm Hk st. unfold bind. specialize (Hm st).
  destruct (m st) as [[a | e] st']; cbn in *; [| exact Hm].
  etransitivity; [exact Hm | apply Hk].
Qed.

Lemma respects_try_except {A : Type} (m : M State A) (h : PyExc -> M State A) :
  respects R m -> (forall e, respects R (h e)) -> respects R (try_except m h).
Proof.
  intros Hm Hh st. unfold try_except. specialize (Hm st).
  destruct (m st) as [[a | e] st']; cbn in *; [exact Hm |].
  etransitivity; [exact Hm | apply Hh].
Qed.

Lemma respects_for_each {A : Type} (l : list A) (body : A -> M State unit) :
  (forall x, respects R (body x)) -> respects R (for_each l body).
Proof.
  intros Hb. induction l as [| x l IH]; cbn [for_each].
  - apply respects_ret.
  - apply respects_bind; [apply Hb | intros _; exact IH].
Qed.

End Frame.

(** Applies the frame rules along the text of a method. *)
Ltac frame :=
  repeat first
    [ apply respects_ret
    | apply respects_raise
    | apply respects_lift
    | apply respects_get_self
    | apply respects_io
    | apply respects_bind
    | apply respects_try_except
    | apply respects_for_each
    | match goal with
      | |- RelationClasses.PreOrder _ => exact _
      | |- forall _ : _, _ => intro
      | |- respects _ (match ?x with _ => _ end) => destruct x
      | |- respects _ (if ?x then _ else _) => destruct x
      end ].

#[local] Instance same_counters_preorder : RelationClasses.PreOrder same_counters.
Proof.
  split.
  - intros b. unfold same_counters. auto.
  - intros a b c (H1 & H2 & H3) (H4 & H5 & H6). unfold same_counters.
    repeat split; congruence.
Qed.

Section Untouched.

Context (R : Bot -> Bot -> Prop) `{!RelationClasses.PreOrder R}.

Lemma display_account_info_frame : respects R TradingBot.display_account_info.
Proof. unfold TradingBot.display_account_info. frame. Qed.

Lemma display_positions_frame : respects R TradingBot.display_positions.
Proof. unfold TradingBot.display_positions, TradingBot.position_row. frame. Qed.

Lemma display_open_orders_frame symbol : respects R (TradingBot.display_open_orders symbol).
Proof. unfold TradingBot.display_open_orders, TradingBot.order_row. frame. Qed.

Lemma cancel_order_frame symbol order_id :
  respects R (TradingBot.cancel_order symbol order_id).
Proof. unfold TradingBot.cancel_order. frame. Qed.

Lemma get_current_price_frame symbol : respects R (TradingBot.get_current_price symbol).
Proof. unfold TradingBot.get_current_price. frame. Qed.

Lemma display_performance_metrics_frame truediv :
  respects R (TradingBot.display_performance_metrics_with truediv).
Proof. unfold TradingBot.display_performance_metrics_with. frame. Qed.

Lemma validate_symbol_frame symbol : respects R (TradingBot.validate_symbol symbol).
Proof. unfold TradingBot.validate_symbol. frame. Qed.

Lemma get_symbol_info_frame symbol : respects R (TradingBot.get_symbol_info symbol).
Proof. unfold TradingBot.get_symbol_info. frame. Qed.

End Untouched.

Lemma set_running_counters v : respects same_counters (set_running v).
Proof. intros st. cbn. unfold same_counters. auto. Qed.

Lemma start_counters : respects same_counters TradingBot.start.
Proof.
  unfold TradingBot.start.
  apply respects_bind; [exact _ | apply set_running_counters | intros _].
  frame.
Qed.

Lemma stop_counters : respects same_counters TradingBot.stop.
Proof.
  unfold TradingBot.stop.
  apply respects_bind; [exact _ | apply set_running_counters | intros _].
  frame.
Qed.

(** ** The adapter hands the exchange's answer through *)

Lemma adapter_market_answer :
  forall symbol side quantity reduce_only s,
    fst (BinanceFuturesClient.place_market_order symbol side quantity reduce_only s)
    = remote s (requests s ++ [futures_create_order
                                 (market_kwargs symbol side quantity reduce_only)])%list.
Proof.
  intros symbol side quantity reduce_only [cfg rem reqs out lg].
  unfold BinanceFuturesClient.place_market_order, market_kwargs. run.
  destruct (rem _) as [order | e]; [reflexivity |].
  destruct (BinanceFuturesClient.is_api_exception e); reflexivity.
Qed.

Lemma adapter_limit_answer :
  forall symbol side quantity price tif reduce_only s,
    fst (BinanceFuturesClient.place_limit_order symbol side quantity price tif reduce_only s)
    = remote s (requests s ++ [futures_create_order
                                 (limit_kwargs symbol side quantity price tif reduce_only)])%list.
Proof.
  intros symbol side quantity price tif reduce_only [cfg rem reqs out lg].
  unfold BinanceFuturesClient.place_limit_order, limit_kwargs. run.
  destruct (rem _) as [order | e]; [reflexivity |].
  destruct (BinanceFuturesClient.is_api_exception e); reflexivity.
Qed.

(** C1.  Whatever the arguments, [place_stop_limit_order] sends exactly one
    request, an order of type [STOP_MARKET] carrying the symbol, the side,
    the quantity, the stop price and the time in force; the request has no
    [price], the answer of the exchange is handed back as it is, and the
    whole effect of the call is the same for every [price]. *)
Theorem stop_limit_order_sends_stop_market :
  forall (symbol side : string) (quantity price stop_price : float)
         (time_in_force : string) (s : Sys),
    let sent := futures_create_order
                  (stop_kwargs symbol side quantity stop_price time_in_force) in
    let out := BinanceFuturesClient.place_stop_limit_order
                 symbol side quantity price stop_price time_in_force s in
    requests (snd out) = (requests s ++ [sent])%list
    /\ stop_kwargs symbol side quantity stop_price time_in_force
       = [("symbol", PStr symbol); ("side", PStr side); ("type", PStr "STOP_MARKET");
          ("quantity", PFloat quantity); ("stopPrice", PFloat stop_price);
          ("timeInForce", PStr time_in_force)]
    /\ assoc "price" (stop_kwargs symbol side quantity stop_price time_in_force) = None
    /\ fst out = remote s (requests s ++ [sent])%list
    /\ forall price' : float,
         BinanceFuturesClient.place_stop_limit_order
           symbol side quantity price' stop_price time_in_force s = out.
Proof.
  intros symbol side quantity price stop_price time_in_force [cfg rem reqs out lg].
  cbn zeta. unfold BinanceFuturesClient.place_stop_limit_order, stop_kwargs. run.
  destruct (rem _) as [order | e]; repeat split; reflexivity.
Qed.

(** The call of the specification: a limit price of 100 and a stop price of
    95.  One request goes out, a [STOP_MARKET] order at 95; the 100 is
    nowhere in it. *)
Lemma stop_limit_order_sends_stop_market_witness :
  requests (snd (BinanceFuturesClient.place_stop_limit_order
                   "BTCUSDT" "SELL" 0.5%float 100%float 95%float "GTC" (boot [])))
  = [futures_create_order
       [("symbol", PStr "BTCUSDT"); ("side", PStr "SELL"); ("type", PStr "STOP_MARKET");
        ("quantity", PFloat 0.5%float); ("stopPrice", PFloat 95%float);
        ("timeInForce", PStr "GTC")]].
Proof.
  exact (proj1 (stop_limit_order_sends_stop_market
                  "BTCUSDT" "SELL" 0.5%float 100%float 95%float "GTC" (boot []))).
Defined.

(** ** Order attempts and the counters *)

(** What one attempt does, case by case on the answer of the exchange. *)
Lemma market_attempt :
  forall (symbol side : string) (quantity : float) (st : State),
    let out := TradingBot.place_market_order symbol side quantity st in
    match remote (sys st)
            (requests (sys st)
               ++ [futures_create_order (market_kwargs symbol side quantity false)])%list
    with
    | Raise _ => fst out = Ok false /\ counted 1 0 1 (self st) (self (snd out))
    | Ok order =>
        match py_getitem order "orderId", py_getitem order "status" with
        | Raise _, _ => fst out = Ok false /\ counted 1 0 1 (self st) (self (snd out))
        | Ok _, Ok _ => fst out = Ok true /\ counted 1 1 0 (self st) (self (snd out))
        | Ok _, Raise _ => fst out = Ok false /\ counted 2 1 1 (self st) (self (snd out))
        end
    end.
Proof.
  intros symbol side quantity [[r t sc fl] [cfg rem reqs out lg]]. cbn zeta.
  unfold TradingBot.place_market_order, BinanceFuturesClient.place_market_order,
    market_kwargs, counted.
  run.
  destruct (rem _) as [order | e].
  - destruct (py_getitem order "orderId") as [id | e1]; run.
    + destruct (py_getitem order "status") as [status | e2]; run; cbn; repeat split; lia.
    + cbn; repeat split; lia.
  - destruct (BinanceFuturesClient.is_api_exception e); run; cbn; repeat split; lia.
Qed.

Lemma limit_attempt :
  forall (symbol side : string) (quantity price : float) (st : State),
    let out := TradingBot.place_limit_order symbol side quantity price st in
    match remote (sys st)
            (requests (sys st)
               ++ [futures_create_order
                     (limit_kwargs symbol side quantity price "GTC" false)])%list
    with
    | Raise _ => fst out = Ok false /\ counted 1 0 1 (self st) (self (snd out))
    | Ok order =>
        match py_getitem order "orderId", py_getitem order "status" with
        | Raise _, _ => fst out = Ok false /\ counted 1 0 1 (self st) (self (snd out))
        | Ok _, Ok _ => fst out = Ok true /\ counted 1 1 0 (self st) (self (snd out))
        | Ok _, Raise _ => fst out = Ok false /\ counted 2 1 1 (self st) (self (snd out))
        end
    end.
Proof.
  intros symbol side quantity price [[r t sc fl] [cfg rem reqs out lg]]. cbn zeta.
  unfold TradingBot.place_limit_order, BinanceFuturesClient.place_limit_order,
    limit_kwargs, counted.
  run.
  destruct (rem _) as [order | e].
  - destruct (py_getitem order "orderId") as [id | e1]; run.
    + destruct (py_truthy (PFloat price)), (str_is_empty id); run.
      all: destruct (py_getitem order "status") as [status | e2]; run; cbn;
        repeat split; lia.
    + cbn; repeat split; lia.
  - destruct (BinanceFuturesClient.is_api_exception e); run; cbn; repeat split; lia.
Qed.

(** C2, as stated, fails.  The exchange accepts the order and the adapter
    call returns its answer, but the answer has no ['orderId']: reading it
    raises inside the [try], the handler counts a failed trade and the
    method returns false. *)
Lemma accepted_order_counted_as_failed :
  let answer := PDict [("code", PInt 200); ("msg", PStr "success")] in
  let st := fresh [Ok answer] in
  let out := TradingBot.place_market_order "BTCUSDT" "BUY" 0.5%float st in
  fst (BinanceFuturesClient.place_market_order "BTCUSDT" "BUY" 0.5%float false (sys st))
  = Ok answer
  /\ fst out = Ok false
  /\ successful_trades (self (snd out)) = successful_trades (self st)
  /\ failed_trades (self (snd out)) = failed_trades (self st) + 1.
Proof. vm_compute. repeat split; reflexivity. Qed.

(** C2, amended.  For [place_market_order] and [place_limit_order] of the
    orchestrator: if the adapter call succeeds and the order it returns has
    an ['orderId'] and a ['status'], the method returns true, having added
    one to the successful-trade counter (and to the trade count, the failed
    counter staying as it was); if the adapter call succeeds with an order
    that has no ['orderId'], or if it raises, the method returns false,
    having added one to the failed-trade counter (and to the trade count,
    the successful counter staying as it was): no exception reaches the
    caller.  The adapter call is taken in the system the method starts
    from; its outcome is the answer of the exchange to the request
    ([adapter_market_answer], [adapter_limit_answer]), which the lines
    logged before it do not change. *)
Theorem order_attempt_is_counted :
  forall (symbol side : string) (quantity price : float) (st : State),
    let market := TradingBot.place_market_order symbol side quantity st in
    let limit := TradingBot.place_limit_order symbol side quantity price st in
    let market_call :=
      fst (BinanceFuturesClient.place_market_order symbol side quantity false (sys st)) in
    let limit_call :=
      fst (BinanceFuturesClient.place_limit_order symbol side quantity price "GTC" false
             (sys st)) in
    (forall order id status,
        market_call = Ok order ->
        py_getitem order "orderId" = Ok id ->
        py_getitem order "status" = Ok status ->
        fst market = Ok true /\ counted 1 1 0 (self st) (self (snd market)))
    /\ (forall order e,
        market_call = Ok order ->
        py_getitem order "orderId" = Raise e ->
        fst market = Ok false /\ counted 1 0 1 (self st) (self (snd market)))
    /\ (forall e,
        market_call = Raise e ->
        fst market = Ok false /\ counted 1 0 1 (self st) (self (snd market)))
    /\ (forall order id status,
        limit_call = Ok order ->
        py_getitem order "orderId" = Ok id ->
        py_getitem order "status" = Ok status ->
        fst limit = Ok true /\ counted 1 1 0 (self st) (self (snd limit)))
    /\ (forall order e,
        limit_call = Ok order ->
        py_getitem order "orderId" = Raise e ->
        fst limit = Ok false /\ counted 1 0 1 (self st) (self (snd limit)))
    /\ (forall e,
        limit_call = Raise e ->
        fst limit = Ok false /\ counted 1 0 1 (self st) (self (snd limit))).
Proof.
  intros symbol side quantity price st. cbn zeta.
  rewrite adapter_market_answer, adapter_limit_answer.
  pose proof (market_attempt symbol side quantity st) as Hm.
  pose proof (limit_attempt symbol side quantity price st) as Hl.
  cbn zeta in Hm, Hl.
  repeat split; intros.
  all: try (rewrite H in Hm; rewrite ?H0, ?H1 in Hm; apply Hm).
  all: try (rewrite H in Hl; rewrite ?H0, ?H1 in Hl; apply Hl).
Qed.

(** The amended C2 at work: an order the exchange reports in full is a
    success, an order it rejects is a failure. *)
Lemma order_attempt_is_counted_witness :
  (let st := fresh [Ok (order_new 1)] in
   let out := TradingBot.place_market_order "BTCUSDT" "BUY" 0.5%float st in
   fst out = Ok true /\ counted 1 1 0 (self st) (self (snd out)))
  /\ (let st := fresh [Raise rejected] in
      let out := TradingBot.place_limit_order "BTCUSDT" "SELL" 0.5%float 100%float st in
      fst out = Ok false /\ counted 1 0 1 (self st) (self (snd out))).
Proof.
  split.
  - apply (proj1 (order_attempt_is_counted "BTCUSDT" "BUY" 0.5%float 100%float
                    (fresh [Ok (order_new 1)]))
             (order_new 1) (PInt 1) (PStr "NEW")); reflexivity.
  - apply (proj2 (proj2 (proj2 (proj2 (proj2
             (order_attempt_is_counted "BTCUSDT" "SELL" 0.5%float 100%float
                (fresh [Raise rejected]))))))
             rejected); reflexivity.
Defined.

(** ** The invariant of the counters *)

Lemma construction_zero :
  forall (s0 s : Sys) (b : Bot),
    TradingBot.__init__ s0 = (Ok b, s) -> b = mkBot false 0 0 0.
Proof.
  intros [cfg rem reqs out lg] s b.
  unfold TradingBot.__init__, BinanceFuturesClient.__init__,
    BinanceFuturesClient._initialize_client.
  run.
  destruct (rem _) as [x | e]; run; [| discriminate].
  destruct (rem _) as [account_info | e]; run; [| discriminate].
  destruct (py_get account_info "totalWalletBalance" (PStr "N/A")); run;
    [| discriminate].
  intros H. injection H as <- _. reflexivity.
Qed.

Lemma counted_sound :
  forall b b', sound b ->
    (counted 1 1 0 b b' \/ counted 1 0 1 b b' \/ counted 2 1 1 b b') -> sound b'.
Proof.
  unfold sound, invariant, counted. intros b b' (Hs & Hf & Hi) H.
  destruct H as [H | [H | H]]; destruct H as (Ht & Hs' & Hf'); repeat split; lia.
Qed.

Lemma same_counters_sound : forall b b', same_counters b b' -> sound b -> sound b'.
Proof.
  unfold sound, invariant, same_counters. intros b b' (Ht & Hs & Hf) (H1 & H2 & H3).
  repeat split; lia.
Qed.

Lemma market_attempt_counts :
  forall symbol side quantity st,
    let b' := self (snd (TradingBot.place_market_order symbol side quantity st)) in
    counted 1 1 0 (self st) b' \/ counted 1 0 1 (self st) b' \/ counted 2 1 1 (self st) b'.
Proof.
  intros. pose proof (market_attempt symbol side quantity st) as H. cbn zeta in H.
  destruct (remote _ _) as [order | e]; [| tauto].
  destruct (py_getitem order "orderId"); [| tauto].
  destruct (py_getitem order "status"); tauto.
Qed.

Lemma limit_attempt_counts :
  forall symbol side quantity price st,
    let b' := self (snd (TradingBot.place_limit_order symbol side quantity price st)) in
    counted 1 1 0 (self st) b' \/ counted 1 0 1 (self st) b' \/ counted 2 1 1 (self st) b'.
Proof.
  intros. pose proof (limit_attempt symbol side quantity price st) as H. cbn zeta in H.
  destruct (remote _ _) as [order | e]; [| tauto].
  destruct (py_getitem order "orderId"); [| tauto].
  destruct (py_getitem order "status"); tauto.
Qed.

(** No operation but an order attempt touches a counter. *)
Lemma only_attempts_count :
  forall (op : Op) (st : State),
    is_order_attempt op = false -> same_counters (self st) (self (after op st)).
Proof.
  intros op st H. destruct op; try discriminate H; cbn [after].
  - apply start_counters.
  - apply stop_counters.
  - exact (display_account_info_frame same_counters st).
  - exact (display_positions_frame same_counters st).
  - exact (display_open_orders_frame same_counters symbol st).
  - exact (cancel_order_frame same_counters symbol order_id st).
  - exact (get_current_price_frame same_counters symbol st).
  - exact (display_performance_metrics_frame same_counters PyFloat.int_truediv st).
  - exact (validate_symbol_frame same_counters symbol st).
  - exact (get_symbol_info_frame same_counters symbol st).
Qed.

(** Every operation keeps the counters sound, and so the invariant. *)
Lemma sound_preserved :
  forall (op : Op) (st : State), sound (self st) -> sound (self (after op st)).
Proof.
  intros op st H.
  destruct (is_order_attempt op) eqn:E.
  - destruct op; try discriminate E; cbn [after].
    + eapply counted_sound; [exact H | apply market_attempt_counts].
    + eapply counted_sound; [exact H | apply limit_attempt_counts].
  - eapply same_counters_sound; [apply only_attempts_count; exact E | exact H].
Qed.

Lemma reachable_sound : forall st, reachable st -> sound (self st).
Proof.
  induction 1 as [s0 s b Hinit | op st _ IH].
  - apply construction_zero in Hinit. subst b. cbn. unfold sound, invariant. cbn. lia.
  - apply sound_preserved. exact IH.
Qed.

(** C10.  One attempt, counted twice.  The bot is new, the exchange accepts
    the order, and its answer has an ['orderId'] but no ['status'].  The
    attempt is counted as a success; then the report of the order raises,
    the handler counts it once more, as a failure, and the method returns
    false: the trade count goes up by two and both counters go up. *)
Theorem attempt_counted_twice :
  let st := fresh [Ok (PDict [("orderId", PInt 1); ("symbol", PStr "BTCUSDT")])] in
  let out := TradingBot.place_market_order "BTCUSDT" "BUY" 0.5%float st in
  self st = mkBot false 0 0 0
  /\ fst out = Ok false
  /\ self (snd out) = mkBot false 2 1 1.
Proof. vm_compute. repeat split; reflexivity. Qed.

(** ** Positions *)

(** A comprehension whose condition has no effect keeps exactly the
    elements on which the condition is true, and fails where it fails. *)
Lemma filter_m_lift {S A : Type} (f : A -> result bool) (l : list A) (s : S) :
  match filter_m l (fun x => lift (f x)) s with
  | (Ok out, s') =>
      s' = s
      /\ out = filter (fun x => match f x with Ok true => true | _ => false end) l
  | (Raise e, s') => s' = s /\ exists x, In x l /\ f x = Raise e
  end.
Proof.
  induction l as [| x l IH]; cbn [filter_m filter].
  - cbn. auto.
  - unfold bind at 1. unfold lift at 1.
    destruct (f x) as [b |e] eqn:E.
    + unfold bind at 1.
      destruct (filter_m l (fun x => lift (f x)) s) as [[rest | e] s1].
      * destruct IH as [-> ->]. cbn. destruct b; auto.
      * destruct IH as [-> (y & Hy & Hf)]. split; [reflexivity |].
        exists y. split; [right; exact Hy | exact Hf].
    + split; [reflexivity |]. exists x. split; [left; reflexivity | exact E].
Qed.

Lemma filter_m_lift_total {S A : Type} (f : A -> result bool) (l : list A) (s : S) :
  Forall (fun x => exists b, f x = Ok b) l ->
  filter_m l (fun x => lift (f x)) s
  = (Ok (filter (fun x => match f x with Ok true => true | _ => false end) l), s).
Proof.
  intros H. pose proof (filter_m_lift f l s) as P.
  destruct (filter_m l (fun x => lift (f x)) s) as [[out | e] s1].
  - destruct P as [-> ->]. reflexivity.
  - destruct P as [_ (x & Hx & Hf)]. rewrite Forall_forall in H.
    destruct (H x Hx) as [b Hb]. congruence.
Qed.

Lemma is_active_true :
  forall pos,
    BinanceFuturesClient.is_active pos = Ok true <->
    exists v f, py_getitem pos "positionAmt" = Ok v /\ py_float v = Ok f
                /\ PrimFloat.eqb f zero = false.
Proof.
  intros pos. unfold BinanceFuturesClient.is_active. split.
  - destruct (py_getitem pos "positionAmt") as [v | e]; [| discriminate].
    destruct (py_float v) as [f | e] eqn:Ef; [| discriminate].
    intros H. exists v, f. split; [reflexivity |]. split; [exact Ef |].
    destruct (PrimFloat.eqb f zero); [discriminate | reflexivity].
  - intros (v & f & -> & -> & ->). reflexivity.
Qed.

Lemma get_positions_run :
  forall symbol s out s',
    BinanceFuturesClient.get_positions symbol s = (Ok out, s') ->
    exists response all,
      remote s (requests s ++ [futures_position_information])%list = Ok response
      /\ py_iter response = Ok all
      /\ out = kept symbol all.
Proof.
  intros symbol [cfg rem reqs so lg] out s'.
  unfold BinanceFuturesClient.get_positions, kept. run.
  destruct (rem _) as [response | e]; run; [| discriminate].
  destruct (py_iter response) as [all | e] eqn:Ei.
  2:{ destruct (BinanceFuturesClient.given symbol); run; discriminate. }
  destruct (BinanceFuturesClient.given symbol) as [sy |]; run.
  - match goal with
    | |- context [filter_m all ?k ?s0] =>
        pose proof (filter_m_lift (BinanceFuturesClient.has_symbol sy) all s0) as P1;
        change k with (fun pos => @lift Sys bool (BinanceFuturesClient.has_symbol sy pos));
        destruct (filter_m all _ s0) as [[mine | e] s1]
    end; [| discriminate].
    destruct P1 as [-> ->].
    match goal with
    | |- context [filter_m ?l ?k ?s0] =>
        pose proof (filter_m_lift BinanceFuturesClient.is_active l s0) as P2;
        change k with (fun pos => @lift Sys bool (BinanceFuturesClient.is_active pos));
        destruct (filter_m l _ s0) as [[act | e] s2]
    end; [| discriminate].
    destruct P2 as [-> ->].
    intros H. injection H as <- _. exists response, all. auto.
  - match goal with
    | |- context [filter_m ?l ?k ?s0] =>
        pose proof (filter_m_lift BinanceFuturesClient.is_active l s0) as P2;
        change k with (fun pos => @lift Sys bool (BinanceFuturesClient.is_active pos));
        destruct (filter_m l _ s0) as [[act | e] s2]
    end; [| discriminate].
    destruct P2 as [-> ->].
    intros H. injection H as <- _. exists response, all. auto.
Qed.

Lemma get_positions_returns :
  forall symbol s response all,
    remote s (requests s ++ [futures_position_information])%list = Ok response ->
    py_iter response = Ok all ->
    Forall (fun pos => exists b, BinanceFuturesClient.is_active pos = Ok b) all ->
    (forall sy, BinanceFuturesClient.given symbol = Some sy ->
                Forall (fun pos => exists b, BinanceFuturesClient.has_symbol sy pos = Ok b) all) ->
    fst (BinanceFuturesClient.get_positions symbol s) = Ok (kept symbol all).
Proof.
  intros symbol [cfg rem reqs so lg] response all Hr Hi Ha Hs.
  unfold BinanceFuturesClient.get_positions, kept. run. cbn [remote requests] in Hr.
  rewrite Hr. run. rewrite Hi.
  destruct (BinanceFuturesClient.given symbol) as [sy |]; run.
  - match goal with
    | |- context [filter_m all ?k ?s0] =>
        change k with (fun pos => @lift Sys bool (BinanceFuturesClient.has_symbol sy pos));
        rewrite (filter_m_lift_total (BinanceFuturesClient.has_symbol sy) all s0
                   (Hs sy eq_refl))
    end.
    match goal with
    | |- context [filter_m ?l ?k ?s0] =>
        change k with (fun pos => @lift Sys bool (BinanceFuturesClient.is_active pos));
        rewrite (filter_m_lift_total BinanceFuturesClient.is_active l s0)
    end; [reflexivity |].
    rewrite Forall_forall in *. intros x Hx. apply filter_In in Hx. apply Ha, Hx.
  - match goal with
    | |- context [filter_m ?l ?k ?s0] =>
        change k with (fun pos => @lift Sys bool (BinanceFuturesClient.is_active pos));
        rewrite (filter_m_lift_total BinanceFuturesClient.is_active l s0 Ha)
    end.
    reflexivity.
Qed.

(** C3.  Whatever the exchange returns, every position in the output of
    [get_positions] is one of the positions returned and has a size,
    [float(pos['positionAmt'])], different from zero; a position whose size
    is zero is not in the output.  The output is there whenever every
    position returned has a size (and a symbol, when one is asked for). *)
Theorem get_positions_excludes_zero :
  forall (symbol : option string) (s : Sys),
    (forall out s',
        BinanceFuturesClient.get_positions symbol s = (Ok out, s') ->
        exists response all,
          remote s (requests s ++ [futures_position_information])%list = Ok response
          /\ py_iter response = Ok all
          /\ (forall pos, In pos out ->
                In pos all
                /\ exists v f, py_getitem pos "positionAmt" = Ok v
                               /\ py_float v = Ok f
                               /\ PrimFloat.eqb f zero = false)
          /\ (forall pos v f,
                py_getitem pos "positionAmt" = Ok v -> py_float v = Ok f ->
                PrimFloat.eqb f zero = true -> ~ In pos out))
    /\ (forall response all,
        remote s (requests s ++ [futures_position_information])%list = Ok response ->
        py_iter response = Ok all ->
        Forall (fun pos => exists b, BinanceFuturesClient.is_active pos = Ok b) all ->
        (forall sy, BinanceFuturesClient.given symbol = Some sy ->
           Forall (fun pos => exists b, BinanceFuturesClient.has_symbol sy pos = Ok b) all) ->
        fst (BinanceFuturesClient.get_positions symbol s) = Ok (kept symbol all)).
Proof.
  intros symbol s. split.
  - intros out s' H. apply get_positions_run in H.
    destruct H as (response & all & Hr & Hi & ->).
    exists response, all. repeat split; try assumption.
    + unfold kept in H. apply filter_In in H. destruct H as [H _].
      destruct (BinanceFuturesClient.given symbol); [apply filter_In in H |]; tauto.
    + unfold kept in H. apply filter_In in H. destruct H as [_ H].
      apply is_active_true.
      destruct (BinanceFuturesClient.is_active pos) as [[|] | e]; congruence.
    + intros pos v f Hv Hf Hz Hin. unfold kept in Hin. apply filter_In in Hin.
      destruct Hin as [_ Hin]. unfold BinanceFuturesClient.is_active in Hin.
      rewrite Hv, Hf, Hz in Hin. discriminate.
  - apply get_positions_returns.
Qed.

(** Two positions come back from the exchange, one of size zero: only the
    other is returned. *)
Lemma get_positions_excludes_zero_witness :
  let flat := PDict [("symbol", PStr "ETHUSDT"); ("positionAmt", PStr "0.000")] in
  let long := PDict [("symbol", PStr "BTCUSDT"); ("positionAmt", PStr "0.010")] in
  fst (BinanceFuturesClient.get_positions None (boot [Ok (PList [flat; long])]))
  = Ok [long].
Proof.
  cbn zeta.
  apply (proj2 (get_positions_excludes_zero None
                  (boot [Ok (PList [PDict [("symbol", PStr "ETHUSDT");
                                           ("positionAmt", PStr "0.000")];
                                    PDict [("symbol", PStr "BTCUSDT");
                                           ("positionAmt", PStr "0.010")]])]))
               (PList [PDict [("symbol", PStr "ETHUSDT"); ("positionAmt", PStr "0.000")];
                       PDict [("symbol", PStr "BTCUSDT"); ("positionAmt", PStr "0.010")]])
               [PDict [("symbol", PStr "ETHUSDT"); ("positionAmt", PStr "0.000")];
                PDict [("symbol", PStr "BTCUSDT"); ("positionAmt", PStr "0.010")]]).
  - reflexivity.
  - reflexivity.
  - repeat constructor; eexists; vm_compute; reflexivity.
  - intros sy H. discriminate H.
Defined.

(** ** Symbols *)

Lemma find_symbol_absent :
  forall symbol records,
    Forall (fun r => BinanceFuturesClient.has_symbol symbol r = Ok false) records ->
    BinanceFuturesClient.find_symbol symbol records
    = Raise (ValueError ("Symbol " ++ symbol ++ " not found")).
Proof.
  intros symbol records H. induction H as [| r records Hr _ IH]; cbn.
  - reflexivity.
  - rewrite Hr. exact IH.
Qed.

Lemma find_symbol_present :
  forall symbol before info rest,
    Forall (fun r => BinanceFuturesClient.has_symbol symbol r = Ok false) before ->
    BinanceFuturesClient.has_symbol symbol info = Ok true ->
    BinanceFuturesClient.find_symbol symbol (before ++ info :: rest)%list = Ok info.
Proof.
  intros symbol before info rest H Hi. induction H as [| r before Hr _ IH]; cbn.
  - rewrite Hi. reflexivity.
  - rewrite Hr. exact IH.
Qed.

Lemma get_symbol_info_answer :
  forall symbol s metadata listed records,
    remote s (requests s ++ [futures_exchange_info])%list = Ok metadata ->
    py_getitem metadata "symbols" = Ok listed ->
    py_iter listed = Ok records ->
    fst (BinanceFuturesClient.get_symbol_info symbol s)
    = BinanceFuturesClient.find_symbol symbol records.
Proof.
  intros symbol [cfg rem reqs so lg] metadata listed records Hr Hl Hi.
  cbn [remote requests] in Hr.
  unfold BinanceFuturesClient.get_symbol_info. run.
  rewrite Hr. run. rewrite Hl. run. rewrite Hi. run.
  destruct (BinanceFuturesClient.find_symbol symbol records); reflexivity.
Qed.

(** C8, as stated, fails.  The metadata has one record, and it has no
    ['symbol']: the symbol asked for is absent from the metadata, and the
    lookup fails on the record itself, with [KeyError], before it can
    report that the symbol was not found. *)
Lemma absent_symbol_key_error :
  let records := [PDict [("pair", PStr "BTCUSDT"); ("status", PStr "TRADING")]] in
  let s := boot [Ok (PDict [("symbols", PList records)])] in
  Forall (fun r => py_getitem r "symbol" <> Ok (PStr "BTCUSDT")) records
  /\ fst (BinanceFuturesClient.get_symbol_info "BTCUSDT" s) = Raise (KeyError "symbol").
Proof.
  cbn zeta. split.
  - repeat constructor. discriminate.
  - vm_compute. reflexivity.
Qed.

(** C8, amended.  Let the exchange return metadata whose ['symbols'] can be
    run over.  If every record has a ['symbol'] and none is the symbol asked
    for, [get_symbol_info] fails with the [ValueError] that says the symbol
    was not found.  If a record has the symbol asked for, and the records
    before it each have another ['symbol'], [get_symbol_info] returns that
    record. *)
Theorem get_symbol_info_finds :
  forall (symbol : string) (s : Sys) (metadata listed : PyVal) (records : list PyVal),
    remote s (requests s ++ [futures_exchange_info])%list = Ok metadata ->
    py_getitem metadata "symbols" = Ok listed ->
    py_iter listed = Ok records ->
    (Forall (fun r => exists v, py_getitem r "symbol" = Ok v /\ v <> PStr symbol) records ->
     fst (BinanceFuturesClient.get_symbol_info symbol s)
     = Raise (ValueError ("Symbol " ++ symbol ++ " not found")))
    /\ (forall before info rest,
          records = (before ++ info :: rest)%list ->
          Forall (fun r => exists v, py_getitem r "symbol" = Ok v /\ v <> PStr symbol)
                 before ->
          py_getitem info "symbol" = Ok (PStr symbol) ->
          fst (BinanceFuturesClient.get_symbol_info symbol s) = Ok info).
Proof.
  intros symbol s metadata listed records Hr Hl Hi.
  rewrite (get_symbol_info_answer symbol s metadata listed records Hr Hl Hi).
  assert (other : forall l,
             Forall (fun r => exists v, py_getitem r "symbol" = Ok v /\ v <> PStr symbol) l ->
             Forall (fun r => BinanceFuturesClient.has_symbol symbol r = Ok false) l).
  { intros l H. eapply Forall_impl; [| exact H]. cbn beta.
    intros r (v & Hv & Hne). unfold BinanceFuturesClient.has_symbol. rewrite Hv.
    f_equal. destruct v; cbn; try reflexivity.
    destruct (String.eqb_spec s0 symbol); [congruence | reflexivity]. }
  split.
  - intros H. apply find_symbol_absent, other, H.
  - intros before info rest -> Hb Hinfo. apply find_symbol_present.
    + apply other, Hb.
    + unfold BinanceFuturesClient.has_symbol. rewrite Hinfo. cbn.
      rewrite String.eqb_refl. reflexivity.
Qed.

(** The exchange lists two symbols: the second is found, a third is not. *)
Lemma get_symbol_info_finds_witness :
  let eth := PDict [("symbol", PStr "ETHUSDT"); ("status", PStr "TRADING")] in
  let btc := PDict [("symbol", PStr "BTCUSDT"); ("status", PStr "TRADING")] in
  let s := boot [Ok (PDict [("symbols", PList [eth; btc])])] in
  fst (BinanceFuturesClient.get_symbol_info "BTCUSDT" s) = Ok btc
  /\ fst (BinanceFuturesClient.get_symbol_info "XRPUSDT" s)
     = Raise (ValueError "Symbol XRPUSDT not found").
Proof.
  cbn zeta.
  pose (eth := PDict [("symbol", PStr "ETHUSDT"); ("status", PStr "TRADING")]).
  pose (btc := PDict [("symbol", PStr "BTCUSDT"); ("status", PStr "TRADING")]).
  pose (s := boot [Ok (PDict [("symbols", PList [eth; btc])])]).
  split.
  - apply (proj2 (get_symbol_info_finds "BTCUSDT" s
                    (PDict [("symbols", PList [eth; btc])]) (PList [eth; btc]) [eth; btc]
                    eq_refl eq_refl eq_refl) [eth] btc []).
    + reflexivity.
    + repeat constructor. exists (PStr "ETHUSDT"). split; [reflexivity | discriminate].
    + reflexivity.
  - apply (proj1 (get_symbol_info_finds "XRPUSDT" s
                    (PDict [("symbols", PList [eth; btc])]) (PList [eth; btc]) [eth; btc]
                    eq_refl eq_refl eq_refl)).
    repeat constructor.
    + exists (PStr "ETHUSDT"). split; [reflexivity | discriminate].
    + exists (PStr "BTCUSDT"). split; [reflexivity | discriminate].
Defined.

Lemma py_eq_str_true : forall v s, py_eq_str v s = true <-> v = PStr s.
Proof.
  intros v s. split.
  - destruct v; cbn; try discriminate. intros H. apply String.eqb_eq in H. congruence.
  - intros ->. cbn. apply String.eqb_refl.
Qed.

(** C4.  [validate_symbol] always returns a boolean, raising nothing and
    leaving the bot as it was.  The boolean is true exactly when the lookup
    of the adapter succeeds and the ['status'] of the record found is the
    string [TRADING]; it is false when the lookup raises, and it is false
    when the lookup succeeds with another status: the same value in both
    cases. *)
Theorem validate_symbol_is_total :
  forall (symbol : string) (st : State),
    let lookup := fst (BinanceFuturesClient.get_symbol_info symbol (sys st)) in
    exists (valid : bool) (st' : State),
      TradingBot.validate_symbol symbol st = (Ok valid, st')
      /\ self st' = self st
      /\ (valid = true <->
          exists info, lookup = Ok info /\ py_getitem info "status" = Ok (PStr "TRADING"))
      /\ (forall e, lookup = Raise e -> valid = false)
      /\ (forall info, lookup = Ok info ->
                       py_getitem info "status" <> Ok (PStr "TRADING") -> valid = false).
Proof.
  intros symbol [b s]. cbn zeta. cbn [sys].
  unfold TradingBot.validate_symbol. run.
  destruct (BinanceFuturesClient.get_symbol_info symbol s) as [[info | e] s1]; run.
  - destruct (py_getitem info "status") as [status | e] eqn:Es; run.
    + eexists _, _. split; [reflexivity |]. split; [reflexivity |]. repeat split.
      * intros H. apply py_eq_str_true in H. subst status. exists info. auto.
      * intros (info' & Hi & Ht). injection Hi as <-.
        apply py_eq_str_true. congruence.
      * discriminate.
      * intros info' Hi Hne. injection Hi as <-.
        destruct (py_eq_str status "TRADING") eqn:E; [| reflexivity].
        apply py_eq_str_true in E. congruence.
    + eexists _, _. split; [reflexivity |]. split; [reflexivity |]. repeat split.
      * discriminate.
      * intros (info' & Hi & Ht). injection Hi as <-. congruence.
  - eexists _, _. split; [reflexivity |]. split; [reflexivity |]. repeat split.
    + discriminate.
    + intros (info' & Hi & _). discriminate Hi.
Qed.

(** The two ways of being invalid, side by side: the exchange is out of
    reach, or it lists the symbol as halted.  The caller sees the same. *)
Example validate_symbol_false_twice :
  let down := fresh [Raise (OtherException "ConnectionError" "timed out")] in
  let halted :=
    fresh [Ok (PDict [("symbols",
                       PList [PDict [("symbol", PStr "BTCUSDT");
                                     ("status", PStr "BREAK")]])])] in
  fst (TradingBot.validate_symbol "BTCUSDT" down) = Ok false
  /\ fst (TradingBot.validate_symbol "BTCUSDT" halted) = Ok false.
Proof. vm_compute. split; reflexivity. Qed.

(** ** The success rate *)

Lemma rne_quot_bounds :
  forall a b, 0 <= a -> 0 < b -> 0 <= PyFloat.rne_quot a b <= a / b + 1.
Proof.
  intros a b Ha Hb. unfold PyFloat.rne_quot.
  assert (0 <= a / b) by (apply Z.div_pos; lia).
  destruct (2 * (a mod b) <? b); [lia |].
  destruct (b <? 2 * (a mod b)); [lia |].
  destruct (Z.even (a / b)); lia.
Qed.

(** A ratio of at most one is never too large for a float. *)
Lemma ratio_to_float_small :
  forall a b, 0 < a -> a <= b -> exists f, PyFloat.ratio_to_float a b = Some f.
Proof.
  intros a b Ha Hab. unfold PyFloat.ratio_to_float.
  set (e := PyFloat.ratio_exp a b). set (m := PyFloat.ratio_mant a b).
  assert (He : -1074 <= e <= -52).
  { subst e. unfold PyFloat.ratio_exp, PyFloat.ratio_log2.
    assert (Z.log2 a <= Z.log2 b) by (apply Z.log2_le_mono; lia).
    destruct (_ <=? _); lia. }
  assert (Hm : 0 <= m <= 2 ^ (- e) + 1).
  { subst m. unfold PyFloat.ratio_mant. fold e.
    rewrite (Z.max_r 0 (- e)) by lia. rewrite (Z.max_l 0 e) by lia.
    rewrite Z.pow_0_r, Z.mul_1_r.
    assert (0 < 2 ^ (- e)) by (apply Z.pow_pos_nonneg; lia).
    pose proof (rne_quot_bounds (a * 2 ^ (- e)) b ltac:(nia) ltac:(lia)) as Hq.
    assert (a * 2 ^ (- e) / b <= 2 ^ (- e)).
    { apply Z.div_le_upper_bound; [lia | nia]. }
    lia. }
  assert (Hlog : Z.log2 m + e < 1024).
  { destruct (Z.eq_dec m 0) as [-> | Hne]; [cbn; lia |].
    assert (Z.log2 m < - e + 1); [| lia].
    apply Z.log2_lt_pow2; [lia |].
    rewrite Z.pow_add_r by lia.
    assert (2 <= 2 ^ (- e)).
    { change 2 with (2 ^ 1) at 1. apply Z.pow_le_mono_r; lia. }
    lia. }
  destruct (1024 <=? Z.log2 m + e) eqn:E; [apply Z.leb_le in E; lia |].
  eexists. reflexivity.
Qed.

(** With sound counters the division of the success rate gives a float. *)
Lemma int_truediv_sound :
  forall s t, 0 <= s <= t -> t <> 0 -> exists ratio, PyFloat.int_truediv s t = Ok ratio.
Proof.
  intros s t Hs Ht. unfold PyFloat.int_truediv.
  destruct (t =? 0) eqn:E; [apply Z.eqb_eq in E; lia |].
  destruct (s =? 0) eqn:E0; [eexists; reflexivity |].
  apply Z.eqb_neq in E0.
  destruct (ratio_to_float_small (Z.abs s) (Z.abs t)) as [f Hf]; [lia | lia |].
  rewrite Hf. eexists. reflexivity.
Qed.

Lemma int_truediv_zero_division :
  forall a b msg, PyFloat.int_truediv a b = Raise (ZeroDivisionError msg) -> b = 0.
Proof.
  intros a b msg. unfold PyFloat.int_truediv.
  destruct (b =? 0) eqn:E; [intros _; apply Z.eqb_eq; exact E |].
  destruct (a =? 0); [discriminate |].
  destruct (PyFloat.ratio_to_float _ _); discriminate.
Qed.

Lemma metrics_run :
  forall (truediv : Z -> Z -> result float) (st : State) (ratio : float),
    trade_count (self st) <> 0 ->
    truediv (successful_trades (self st)) (trade_count (self st)) = Ok ratio ->
    let out := TradingBot.display_performance_metrics_with truediv st in
    fst out = Ok tt
    /\ self (snd out) = self st
    /\ stdout (sys (snd out))
       = (stdout (sys st)
            ++ metrics_report (self st)
                 (PyFloat.format_2f (PrimFloat.mul ratio 100%float) ++ "%"))%list.
Proof.
  intros truediv [[r t sc fl] [cfg rem reqs so lg]] ratio Ht Hr. cbn zeta.
  cbn [self sys trade_count successful_trades] in Ht, Hr.
  unfold TradingBot.display_performance_metrics_with, metrics_report. run.
  cbn [trade_count successful_trades failed_trades].
  destruct (t =? 0) eqn:E; [apply Z.eqb_eq in E; contradiction |].
  run. rewrite Hr. run.
  repeat split. cbn [trade_count successful_trades failed_trades].
  repeat rewrite <- app_assoc. reflexivity.
Qed.

Lemma metrics_none :
  forall (truediv : Z -> Z -> result float) (st : State),
    trade_count (self st) = 0 ->
    TradingBot.display_performance_metrics_with truediv st
    = (Ok tt, mkState (self st) (printed [[Txt "No trades executed yet."]] (sys st))).
Proof.
  intros truediv [[r t sc fl] [cfg rem reqs so lg]]. cbn [self sys trade_count].
  intros ->. unfold TradingBot.display_performance_metrics_with, printed. run.
  reflexivity.
Qed.

(** C5.  With no trade attempted, [display_performance_metrics] writes the
    no-trades message and returns, whatever the division would do: the
    division is not evaluated.  In every state, the method behaves the same
    under any division that agrees with Python's on the divisors other than
    zero, so it never divides by zero; and it never raises
    [ZeroDivisionError]. *)
Theorem no_trades_no_division :
  forall (st : State),
    (trade_count (self st) = 0 ->
     forall truediv : Z -> Z -> result float,
       TradingBot.display_performance_metrics_with truediv st
       = (Ok tt, mkState (self st) (printed [[Txt "No trades executed yet."]] (sys st))))
    /\ (forall truediv : Z -> Z -> result float,
          (forall a b, b <> 0 -> truediv a b = PyFloat.int_truediv a b) ->
          TradingBot.display_performance_metrics_with truediv st
          = TradingBot.display_performance_metrics st)
    /\ (forall msg,
          fst (TradingBot.display_performance_metrics st) <> Raise (ZeroDivisionError msg)).
Proof.
  intros [[r t sc fl] [cfg rem reqs so lg]]. cbn [self sys trade_count].
  unfold TradingBot.display_performance_metrics,
    TradingBot.display_performance_metrics_with, printed.
  split; [| split].
  - intros -> truediv.
    exact (metrics_none truediv (mkState (mkBot r 0 sc fl) (mkSys cfg rem reqs so lg))
             eq_refl).
  - intros truediv H. run. cbn [trade_count successful_trades].
    destruct (t =? 0) eqn:E; [reflexivity |].
    apply Z.eqb_neq in E. rewrite (H sc t E). reflexivity.
  - intros msg. run. cbn [trade_count successful_trades failed_trades].
    destruct (t =? 0) eqn:E; [discriminate |].
    run. destruct (PyFloat.int_truediv sc t) as [ratio | e] eqn:Ed; run.
    + discriminate.
    + intros H. injection H as ->. apply int_truediv_zero_division in Ed.
      apply Z.eqb_neq in E. contradiction.
Qed.

(** A new bot asked for its metrics says that there are none. *)
Lemma no_trades_no_division_witness :
  TradingBot.display_performance_metrics (fresh [])
  = (Ok tt, mkState (mkBot false 0 0 0)
                    (printed [[Txt "No trades executed yet."]] (boot []))).
Proof.
  exact (proj1 (no_trades_no_division (fresh [])) eq_refl PyFloat.int_truediv).
Defined.

Lemma append_assoc : forall a b c : string, (a ++ b) ++ c = a ++ b ++ c.
Proof.
  intros a b c. induction a as [| x a IH]; cbn; [reflexivity | rewrite IH; reflexivity].
Qed.

Lemma digit_is_digit : forall d, 0 <= d <= 9 -> PyStr.is_digit (PyFloat.digit d) = true.
Proof.
  intros d H.
  assert (d = 0 \/ d = 1 \/ d = 2 \/ d = 3 \/ d = 4 \/ d = 5 \/ d = 6 \/ d = 7
          \/ d = 8 \/ d = 9) as C by lia.
  repeat (destruct C as [-> | C]; [reflexivity |]). subst d. reflexivity.
Qed.

(** [format(f, '.2f')] of a number ends in a point and two digits. *)
Lemma format_2f_two_decimals :
  forall f, finite f = true ->
    exists (whole : string) (d1 d2 : ascii),
      PyFloat.format_2f f = whole ++ "." ++ String d1 (String d2 "")
      /\ PyStr.is_digit d1 = true /\ PyStr.is_digit d2 = true.
Proof.
  intros f. unfold finite, PyFloat.format_2f.
  assert (shape : forall neg n, 0 <= n ->
             exists whole d1 d2,
               PyFloat.fixed2 neg n = whole ++ "." ++ String d1 (String d2 "")
               /\ PyStr.is_digit d1 = true /\ PyStr.is_digit d2 = true).
  { intros neg n Hn. unfold PyFloat.fixed2.
    exists ((if neg then "-" else "") ++ PyFloat.dec (n / 100)).
    exists (PyFloat.digit (n mod 100 / 10)), (PyFloat.digit (n mod 10)).
    split; [rewrite append_assoc; reflexivity |].
    split; apply digit_is_digit.
    - pose proof (Z.mod_pos_bound n 100 ltac:(lia)).
      assert (n mod 100 / 10 < 10) by (apply Z.div_lt_upper_bound; lia).
      assert (0 <= n mod 100 / 10) by (apply Z.div_pos; lia).
      lia.
    - pose proof (Z.mod_pos_bound n 10 ltac:(lia)). lia. }
  destruct (Prim2SF f) as [s | s | | s m e]; try discriminate; intros _.
  - apply shape. lia.
  - apply shape. destruct (0 <=? e) eqn:E.
    + apply Z.leb_le in E. assert (0 <= 2 ^ e) by (apply Z.pow_nonneg; lia). nia.
    + apply Z.leb_gt in E. assert (0 < 2 ^ (- e)) by (apply Z.pow_pos_nonneg; lia).
      apply rne_quot_bounds; lia.
Qed.

(** C6.  Once there are trades, the success rate [display_performance_metrics]
    writes is [successful_trades / trade_count * 100] rendered by the format
    [.2f] and followed by a percent sign; in every state a constructed bot
    can reach the division gives a float, so the rate is written; the format
    ends every number in a point and two digits.  With three trades of which
    two succeeded the rate written is [66.67%], and this is what three
    attempts, two accepted and one rejected by the exchange, lead to. *)
Theorem success_rate_reported :
  (forall (st : State) (ratio : float),
      trade_count (self st) <> 0 ->
      PyFloat.int_truediv (successful_trades (self st)) (trade_count (self st)) = Ok ratio ->
      let out := TradingBot.display_performance_metrics st in
      fst out = Ok tt
      /\ stdout (sys (snd out))
         = (stdout (sys st)
              ++ metrics_report (self st)
                   (PyFloat.format_2f (PrimFloat.mul ratio 100%float) ++ "%"))%list)
  /\ (forall st : State,
        reachable st -> trade_count (self st) <> 0 ->
        exists ratio : float,
          PyFloat.int_truediv (successful_trades (self st)) (trade_count (self st))
          = Ok ratio)
  /\ (forall f : float, finite f = true ->
        exists (whole : string) (d1 d2 : ascii),
          PyFloat.format_2f f = whole ++ "." ++ String d1 (String d2 "")
          /\ PyStr.is_digit d1 = true /\ PyStr.is_digit d2 = true)
  /\ (forall st : State,
        trade_count (self st) = 3 -> successful_trades (self st) = 2 ->
        let out := TradingBot.display_performance_metrics st in
        fst out = Ok tt
        /\ stdout (sys (snd out)) = (stdout (sys st) ++ metrics_report (self st) "66.67%")%list)
  /\ (let st0 := fresh [Ok (order_new 1); Ok (order_new 2); Raise rejected] in
      let st1 := snd (TradingBot.place_market_order "BTCUSDT" "BUY" 0.5%float st0) in
      let st2 := snd (TradingBot.place_limit_order "BTCUSDT" "SELL" 0.5%float 100%float st1) in
      let st3 := snd (TradingBot.place_market_order "BTCUSDT" "BUY" 0.5%float st2) in
      self st3 = mkBot false 3 2 1
      /\ In [Fmt (PStr "Success Rate"); Txt ": "; Fmt (PStr "66.67%")]
            (stdout (sys (snd (TradingBot.display_performance_metrics st3))))).
Proof.
  assert (general : forall (st : State) (ratio : float),
             trade_count (self st) <> 0 ->
             PyFloat.int_truediv (successful_trades (self st)) (trade_count (self st))
             = Ok ratio ->
             let out := TradingBot.display_performance_metrics st in
             fst out = Ok tt
             /\ stdout (sys (snd out))
                = (stdout (sys st)
                     ++ metrics_report (self st)
                          (PyFloat.format_2f (PrimFloat.mul ratio 100%float) ++ "%"))%list).
  { intros st ratio Ht Hr. cbn zeta.
    destruct (metrics_run PyFloat.int_truediv st ratio Ht Hr) as (H1 & _ & H3).
    split; assumption. }
  split; [exact general |].
  split.
  { intros st Hr Ht. apply reachable_sound in Hr. destruct Hr as (Hs & Hf & Hi).
    unfold invariant in Hi. apply int_truediv_sound; lia. }
  split; [exact format_2f_two_decimals |]. split.
  - intros st Ht Hs.
    apply (general st (PrimFloat.div 2 3)); [lia |].
    rewrite Ht, Hs. vm_compute. reflexivity.
  - cbn zeta. split.
    + vm_compute. reflexivity.
    + vm_compute. do 18 right. left. reflexivity.
Qed.

(** The rate of a bot that has seen one success in four attempts. *)
Lemma success_rate_reported_witness :
  let st := mkState (mkBot true 4 1 3) (boot []) in
  stdout (sys (snd (TradingBot.display_performance_metrics st)))
  = metrics_report (self st) "25.00%".
Proof.
  exact (proj2 (proj1 success_rate_reported (mkState (mkBot true 4 1 3) (boot []))
                  (PrimFloat.div 1 4) ltac:(discriminate) eq_refl)).
Defined.

(** ** Starting and stopping *)

Lemma py_get_dict :
  forall d k v,
    py_get (PDict d) k v = Ok (match assoc k d with Some x => x | None => v end).
Proof. intros d k v. cbn. destruct (assoc k d); reflexivity. Qed.

(** [display_account_info] always returns, having written the snapshot of
    the account the exchange reports, or the error met fetching it. *)
Lemma display_account_info_run :
  forall st : State,
    let out := TradingBot.display_account_info st in
    fst out = Ok tt
    /\ stdout (sys (snd out))
       = (stdout (sys st)
            ++ account_lines (remote (sys st) (requests (sys st) ++ [futures_account])))%list.
Proof.
  intros [b [cfg rem reqs so lg]]. cbn zeta.
  unfold TradingBot.display_account_info, BinanceFuturesClient.get_account_info,
    account_lines.
  run.
  destruct (rem _) as [account_info | e]; run.
  - destruct account_info as [| v | v | v | v | v | d];
      try (cbn [py_get type_name]; run; split; reflexivity).
    rewrite !py_get_dict. run. cbn [py_getitem assoc String.eqb Ascii.eqb Bool.eqb]. run.
    split; [reflexivity |].
    repeat rewrite <- app_assoc. reflexivity.
  - split; reflexivity.
Qed.

Lemma start_unfold :
  forall st : State,
    TradingBot.start st
    = TradingBot.display_account_info
        (mkState (mkBot true (trade_count (self st)) (successful_trades (self st))
                        (failed_trades (self st)))
                 (mkSys (config (sys st)) (remote (sys st)) (requests (sys st))
                        (stdout (sys st))
                        (logs (sys st)
                           ++ [mkLog TradingBot.logger INFO [Txt "Trading Bot started"]]))).
Proof. intros [b s]. unfold TradingBot.start. run. reflexivity. Qed.

Lemma stop_unfold :
  forall st : State,
    TradingBot.stop st
    = TradingBot.display_performance_metrics
        (mkState (mkBot false (trade_count (self st)) (successful_trades (self st))
                        (failed_trades (self st)))
                 (mkSys (config (sys st)) (remote (sys st)) (requests (sys st))
                        (stdout (sys st))
                        (logs (sys st)
                           ++ [mkLog TradingBot.logger INFO [Txt "Trading Bot stopped"]]))).
Proof. intros [b s]. unfold TradingBot.stop. run. reflexivity. Qed.

#[local] Instance eq_bot_preorder : RelationClasses.PreOrder (@eq Bot).
Proof. split; [intros b; reflexivity | intros a b c; apply eq_trans]. Qed.

(** C9.  [start] sets the running flag and [stop] clears it, and neither
    changes a trade counter.  [start] always returns, and what it has
    written by then is the account snapshot: the nine lines of
    [account_report] for the account the exchange reports, or the one line
    of the error met fetching it.  [stop], in every state a constructed bot
    can reach, returns, and what it has written by then is the performance
    snapshot: the no-trades line when no trade was attempted, and otherwise
    the report of the three counters with the success rate. *)
Theorem start_stop_toggle_running :
  forall st : State,
    (let out := TradingBot.start st in
     fst out = Ok tt
     /\ running (self (snd out)) = true
     /\ same_counters (self st) (self (snd out))
     /\ stdout (sys (snd out))
        = (stdout (sys st)
             ++ account_lines (remote (sys st) (requests (sys st) ++ [futures_account])))%list)
    /\ (let out := TradingBot.stop st in
        running (self (snd out)) = false
        /\ same_counters (self st) (self (snd out))
        /\ (reachable st ->
            fst out = Ok tt
            /\ (trade_count (self st) = 0 ->
                stdout (sys (snd out))
                = (stdout (sys st) ++ [[Txt "No trades executed yet."]])%list)
            /\ (trade_count (self st) <> 0 ->
                exists ratio : float,
                  PyFloat.int_truediv (successful_trades (self st)) (trade_count (self st))
                  = Ok ratio
                  /\ stdout (sys (snd out))
                     = (stdout (sys st)
                          ++ metrics_report (self st)
                               (PyFloat.format_2f (PrimFloat.mul ratio 100%float)
                                  ++ "%"))%list))).
Proof.
  intros st. cbn zeta. split.
  - split; [| split; [| split]].
    + rewrite start_unfold. apply display_account_info_run.
    + rewrite start_unfold.
      rewrite <- (display_account_info_frame eq _). reflexivity.
    + apply start_counters.
    + rewrite start_unfold.
      destruct (display_account_info_run
                  (mkState (mkBot true (trade_count (self st)) (successful_trades (self st))
                                  (failed_trades (self st)))
                           (mkSys (config (sys st)) (remote (sys st)) (requests (sys st))
                                  (stdout (sys st))
                                  (logs (sys st)
                                     ++ [mkLog TradingBot.logger INFO
                                               [Txt "Trading Bot started"]]))))
        as [_ H].
      exact H.
  - split; [| split].
    + rewrite stop_unfold. unfold TradingBot.display_performance_metrics.
      rewrite <- (display_performance_metrics_frame eq PyFloat.int_truediv _). reflexivity.
    + apply stop_counters.
    + intros Hr. apply reachable_sound in Hr. destruct Hr as (Hs & Hf & Hi).
      unfold invariant in Hi. rewrite stop_unfold.
      destruct (Z.eq_dec (trade_count (self st)) 0) as [Hz | Hnz].
      * match goal with
        | |- context [TradingBot.display_performance_metrics ?st1] =>
            unfold TradingBot.display_performance_metrics;
            rewrite (metrics_none PyFloat.int_truediv st1 Hz)
        end.
        split; [reflexivity |]. split; [intros _; reflexivity | contradiction].
      * destruct (int_truediv_sound (successful_trades (self st)) (trade_count (self st))
                    ltac:(lia) Hnz) as [ratio Hratio].
        match goal with
        | |- context [TradingBot.display_performance_metrics ?st1] =>
            destruct (metrics_run PyFloat.int_truediv st1 ratio Hnz Hratio)
              as (H1 & _ & H3)
        end.
        split; [exact H1 |]. split; [contradiction |]. intros _.
        exists ratio. split; [exact Hratio |].
        unfold TradingBot.display_performance_metrics. rewrite H3. reflexivity.
Qed.

(** A bot is constructed and started, which writes the account; stopped, it
    returns with the flag cleared, having written that there were no
    trades. *)
Lemma start_stop_toggle_running_witness :
  let account := PDict [("totalWalletBalance", PStr "100.00")] in
  let init := TradingBot.__init__ (boot [Ok PNone; Ok account; Ok account]) in
  let st := after op_start (mkState (mkBot false 0 0 0) (snd init)) in
  fst init = Ok (mkBot false 0 0 0)
  /\ running (self st) = true
  /\ stdout (sys st) = account_report [("totalWalletBalance", PStr "100.00")]
  /\ fst (TradingBot.stop st) = Ok tt
  /\ running (self (snd (TradingBot.stop st))) = false
  /\ stdout (sys (snd (TradingBot.stop st)))
     = (stdout (sys st) ++ [[Txt "No trades executed yet."]])%list.
Proof.
  cbn zeta.
  pose (account := PDict [("totalWalletBalance", PStr "100.00")]).
  pose (s0 := boot [Ok PNone; Ok account; Ok account]).
  assert (R : reachable (mkState (mkBot false 0 0 0) (snd (TradingBot.__init__ s0)))).
  { apply (reach_init s0). vm_compute. reflexivity. }
  pose proof (start_stop_toggle_running
                (mkState (mkBot false 0 0 0) (snd (TradingBot.__init__ s0)))) as [Hstart _].
  pose proof (start_stop_toggle_running
                (after op_start
                   (mkState (mkBot false 0 0 0) (snd (TradingBot.__init__ s0)))))
    as [_ Hstop].
  cbn zeta in Hstart, Hstop.
  destruct Hstart as (_ & Hrun & _ & Hout).
  destruct Hstop as (Hflag & _ & Hstop).
  destruct (Hstop (reach_step op_start _ R)) as (Hret & Hnone & _).
  split; [vm_compute; reflexivity |].
  split; [exact Hrun |].
  split; [etransitivity; [exact Hout | vm_compute; reflexivity] |].
  split; [exact Hret |].
  split; [exact Hflag |].
  apply Hnone. vm_compute. reflexivity.
Defined.

(** ** The shell *)

Lemma strip_typed_not_empty :
  forall typed cmd args,
    TradingBotCLI.parse_command (PyStr.strip typed) = (Some cmd, args) ->
    String.eqb (PyStr.strip typed) "" = false.
Proof.
  intros typed cmd args H.
  destruct (String.eqb_spec (PyStr.strip typed) "") as [E | E]; [| reflexivity].
  rewrite E in H. discriminate H.
Qed.

(** C7.  A [buy_market] or [sell_market] command with at least two
    arguments, the second of which is ASCII text that [float] does not
    accept, writes the quantity error and does nothing else: the bot is as
    it was, nothing is sent to the exchange and nothing is logged.  So it is
    for the handlers, and for a whole ASCII line that parses to such a
    command. *)
Theorem non_numeric_quantity_rejected :
  forall (args : list string) (st : State),
    (2 <= length args)%nat ->
    PyStr.is_ascii (nth 1 args "") = true ->
    PyStr.float_of_string (nth 1 args "") = None ->
    let refused := mkState (self st) (printed [quantity_error] (sys st)) in
    TradingBotCLI.handle_buy_market args st = (Ok tt, refused)
    /\ TradingBotCLI.handle_sell_market args st = (Ok tt, refused)
    /\ (forall typed cmd,
          PyStr.is_ascii typed = true ->
          TradingBotCLI.parse_command (PyStr.strip typed) = (Some cmd, args) ->
          cmd = "buy_market" \/ cmd = "sell_market" ->
          TradingBotCLI.handle_line typed st = (Ok false, refused)).
Proof.
  intros args [b [cfg rem reqs so lg]] Hlen _ Hq. cbn zeta.
  assert (Hb : TradingBotCLI.handle_buy_market args
                 (mkState b (mkSys cfg rem reqs so lg))
               = (Ok tt, mkState b (printed [quantity_error] (mkSys cfg rem reqs so lg)))).
  { unfold TradingBotCLI.handle_buy_market.
    destruct (length args <? 2)%nat eqn:E; [apply Nat.ltb_lt in E; lia |].
    rewrite Hq. reflexivity. }
  assert (Hs : TradingBotCLI.handle_sell_market args
                 (mkState b (mkSys cfg rem reqs so lg))
               = (Ok tt, mkState b (printed [quantity_error] (mkSys cfg rem reqs so lg)))).
  { unfold TradingBotCLI.handle_sell_market.
    destruct (length args <? 2)%nat eqn:E; [apply Nat.ltb_lt in E; lia |].
    rewrite Hq. reflexivity. }
  cbn [self sys].
  split; [exact Hb |]. split; [exact Hs |].
  intros typed cmd _ Hp Hc.
  unfold TradingBotCLI.handle_line, try_except.
  rewrite (strip_typed_not_empty typed cmd args Hp), Hp.
  destruct Hc as [-> | ->]; cbn [String.eqb Ascii.eqb Bool.eqb orb].
  - change (TradingBotCLI.dispatch "buy_market" args)
      with (TradingBotCLI.handle_buy_market args).
    unfold bind. rewrite Hb. reflexivity.
  - change (TradingBotCLI.dispatch "sell_market" args)
      with (TradingBotCLI.handle_sell_market args).
    unfold bind. rewrite Hs. reflexivity.
Qed.

(** The line of the specification, typed at a new bot. *)
Lemma non_numeric_quantity_rejected_witness :
  TradingBotCLI.handle_line "buy_market BTCUSDT abc" (fresh [])
  = (Ok false, mkState (mkBot false 0 0 0) (printed [quantity_error] (boot []))).
Proof.
  apply (proj2 (proj2 (non_numeric_quantity_rejected ["BTCUSDT"; "abc"] (fresh [])
                         ltac:(cbn; lia) eq_refl eq_refl))
           "buy_market BTCUSDT abc" "buy_market").
  - reflexivity.
  - reflexivity.
  - left. reflexivity.
Defined.

(** * Further properties *)

(** ** The adapter as a relay *)

Lemma logged_info_nil : forall lg, logged_info lg lg.
Proof. intros lg. exists []. split; [rewrite app_nil_r; reflexivity | constructor]. Qed.

(** Settles what was logged, once the run has been evaluated. *)
Ltac settle_logs :=
  first
    [ apply logged_info_nil
    | unfold logged_info; repeat rewrite <- app_assoc; eexists; split;
      [reflexivity | repeat constructor]
    | unfold logged_error; repeat rewrite <- app_assoc; cbn [app];
      first
        [ eexists [], _; split; [reflexivity | constructor]
        | eexists [_], _; split; [reflexivity | repeat constructor]
        | eexists [_; _], _; split; [reflexivity | repeat constructor] ] ].

(** X1.  The adapter methods that act on orders are relays: one request,
    with the arguments given, the answer of the exchange handed back
    unchanged, an exception raised again as it came, after one error record;
    no second attempt, nothing on the terminal. *)
Theorem order_methods_relay :
  forall (symbol side time_in_force : string) (quantity price : float)
         (reduce_only : bool) (order_id : Z),
    relays (futures_create_order (market_kwargs symbol side quantity reduce_only))
           (BinanceFuturesClient.place_market_order symbol side quantity reduce_only)
    /\ relays (futures_create_order
                 (limit_kwargs symbol side quantity price time_in_force reduce_only))
              (BinanceFuturesClient.place_limit_order symbol side quantity price
                 time_in_force reduce_only)
    /\ relays (futures_cancel_order symbol order_id)
              (BinanceFuturesClient.cancel_order symbol order_id).
Proof.
  intros. split; [| split]; intros [cfg rem reqs so lg]; cbn zeta.
  all: unfold BinanceFuturesClient.place_market_order,
         BinanceFuturesClient.place_limit_order, BinanceFuturesClient.cancel_order,
         market_kwargs, limit_kwargs; run.
  all: destruct (rem _) as [answer | e]; run.
  all: try destruct (BinanceFuturesClient.is_api_exception e); run.
  all: repeat split; settle_logs.
Qed.

(** X2.  The adapter methods that read orders and the order book are relays
    too; [get_open_orders] asks for one symbol when it is given one, and for
    all symbols when it is given none or the empty string. *)
Theorem query_methods_relay :
  forall (symbol : string) (limit : Z) (wanted : option string),
    relays (futures_order_book symbol limit)
           (BinanceFuturesClient.get_order_book symbol limit)
    /\ relays (futures_get_all_orders symbol limit)
              (BinanceFuturesClient.get_order_history symbol limit)
    /\ relays (futures_get_open_orders (BinanceFuturesClient.given wanted))
              (BinanceFuturesClient.get_open_orders wanted)
    /\ BinanceFuturesClient.given (Some "") = None
    /\ (symbol <> "" -> BinanceFuturesClient.given (Some symbol) = Some symbol).
Proof.
  intros. split; [| split; [| split; [| split]]].
  1-3: intros [cfg rem reqs so lg]; cbn zeta.
  1-3: unfold BinanceFuturesClient.get_order_book, BinanceFuturesClient.get_order_history,
         BinanceFuturesClient.get_open_orders; run.
  3: destruct (BinanceFuturesClient.given wanted); run.
  1-4: destruct (rem _) as [answer | e]; run; repeat split; settle_logs.
  - reflexivity.
  - intros H. unfold BinanceFuturesClient.given.
    destruct (String.eqb_spec symbol ""); [contradiction | reflexivity].
Qed.

(** ** What the adapter makes of an answer *)

(** X3.  [get_account_info] sends one request.  From an answer that is a
    dict it makes the five-field snapshot, each field under its new name, a
    field the answer lacks being [None], and logs nothing; an answer that is
    no dict fails with [AttributeError], and an exception of the exchange is
    raised again as it came, each after one error record. *)
Theorem get_account_info_reshapes :
  forall s : Sys,
    let out := BinanceFuturesClient.get_account_info s in
    requests (snd out) = (requests s ++ [futures_account])%list
    /\ stdout (snd out) = stdout s
    /\ match remote s (requests s ++ [futures_account])%list with
       | Ok (PDict d) =>
           fst out = Ok (PDict [("total_wallet_balance", field "totalWalletBalance" d);
                                ("total_unrealized_pnl", field "totalUnrealizedProfit" d);
                                ("total_margin_balance", field "totalMarginBalance" d);
                                ("available_balance", field "availableBalance" d);
                                ("max_withdraw_amount", field "maxWithdrawAmount" d)])
           /\ logs (snd out) = logs s
       | Ok v =>
           fst out = Raise (AttributeError
                              ("'" ++ type_name v ++ "' object has no attribute 'get'"))
           /\ logged_error (logs s) (logs (snd out))
       | Raise e =>
           fst out = Raise e /\ logged_error (logs s) (logs (snd out))
       end.
Proof.
  intros [cfg rem reqs so lg]. cbn zeta.
  unfold BinanceFuturesClient.get_account_info. run.
  destruct (rem _) as [[| v | v | v | v | v | d] | e]; run; cbn [py_get type_name]; run.
  all: try (repeat split; settle_logs).
  unfold field.
  destruct (assoc "totalWalletBalance" d); run;
    destruct (assoc "totalUnrealizedProfit" d); run;
    destruct (assoc "totalMarginBalance" d); run;
    destruct (assoc "availableBalance" d); run;
    destruct (assoc "maxWithdrawAmount" d); run; repeat split.
Qed.

(** X4.  [get_current_price] sends one ticker request and returns
    [float(ticker['price'])], the price being a number or ASCII text.
    Whatever fails on the way, the exchange, the lookup of the price or its
    conversion, reaches the caller as it is, after one error record; a price
    is returned with nothing logged. *)
Theorem get_current_price_converts :
  forall (symbol : string) (s : Sys),
    ascii_price (remote s (requests s ++ [futures_symbol_ticker symbol])%list) ->
    let out := BinanceFuturesClient.get_current_price symbol s in
    requests (snd out) = (requests s ++ [futures_symbol_ticker symbol])%list
    /\ stdout (snd out) = stdout s
    /\ fst out
       = match remote s (requests s ++ [futures_symbol_ticker symbol])%list with
         | Ok ticker => match py_getitem ticker "price" with
                        | Ok price => py_float price
                        | Raise e => Raise e
                        end
         | Raise e => Raise e
         end
    /\ match fst out with
       | Ok _ => logs (snd out) = logs s
       | Raise _ => logged_error (logs s) (logs (snd out))
       end.
Proof.
  intros symbol [cfg rem reqs so lg] _. cbn zeta.
  unfold BinanceFuturesClient.get_current_price. run.
  destruct (rem _) as [ticker | e]; run.
  - destruct (py_getitem ticker "price") as [price | e]; run.
    + destruct (py_float price) as [f | e]; run; repeat split; settle_logs.
    + repeat split; settle_logs.
  - repeat split; settle_logs.
Qed.

(** Settles that the price of a given ticker is ASCII text. *)
Ltac price_is_ascii :=
  let ticker := fresh "ticker" in
  let price := fresh "price" in
  let H1 := fresh in
  let H2 := fresh in
  intros ticker price H1 H2; cbv in H1;
  first
    [ discriminate H1
    | injection H1 as <-; cbv in H2;
      first [discriminate H2 | injection H2 as <-; reflexivity] ].

(** A ticker with a price, one without, and one whose price is no number. *)
Lemma get_current_price_converts_witness :
  fst (BinanceFuturesClient.get_current_price "BTCUSDT"
         (boot [Ok (PDict [("symbol", PStr "BTCUSDT"); ("price", PStr "43250.50")])]))
  = Ok 43250.5%float
  /\ fst (BinanceFuturesClient.get_current_price "BTCUSDT"
            (boot [Ok (PDict [("symbol", PStr "BTCUSDT")])]))
     = Raise (KeyError "price")
  /\ fst (BinanceFuturesClient.get_current_price "BTCUSDT"
            (boot [Ok (PDict [("price", PStr "n/a")])]))
     = Raise (ValueError "could not convert string to float: 'n/a'").
Proof.
  split; [| split].
  - rewrite (proj1 (proj2 (proj2 (get_current_price_converts "BTCUSDT"
               (boot [Ok (PDict [("symbol", PStr "BTCUSDT");
                                 ("price", PStr "43250.50")])])
               ltac:(price_is_ascii))))).
    vm_compute. reflexivity.
  - rewrite (proj1 (proj2 (proj2 (get_current_price_converts "BTCUSDT"
               (boot [Ok (PDict [("symbol", PStr "BTCUSDT")])])
               ltac:(price_is_ascii))))).
    reflexivity.
  - rewrite (proj1 (proj2 (proj2 (get_current_price_converts "BTCUSDT"
               (boot [Ok (PDict [("price", PStr "n/a")])])
               ltac:(price_is_ascii))))).
    reflexivity.
Defined.


Lemma has_symbol_true :
  forall symbol pos,
    BinanceFuturesClient.has_symbol symbol pos = Ok true <->
    py_getitem pos "symbol" = Ok (PStr symbol).
Proof.
  intros symbol pos. unfold BinanceFuturesClient.has_symbol. split.
  - destruct (py_getitem pos "symbol") as [v | e]; [| discriminate].
    intros H. injection H as H. apply py_eq_str_true in H. congruence.
  - intros ->. cbn. rewrite String.eqb_refl. reflexivity.
Qed.

(** X5.  Asked for the positions of one symbol, [get_positions] returns
    positions of that symbol only, in the order of the exchange; asked with
    the empty string it does what it does asked with no symbol at all. *)
Theorem get_positions_of_symbol :
  forall (symbol : string) (s : Sys),
    (symbol <> "" ->
     forall out s',
       BinanceFuturesClient.get_positions (Some symbol) s = (Ok out, s') ->
       exists response all,
         remote s (requests s ++ [futures_position_information])%list = Ok response
         /\ py_iter response = Ok all
         /\ out = filter (fun pos =>
                            match BinanceFuturesClient.has_symbol symbol pos,
                                  BinanceFuturesClient.is_active pos with
                            | Ok true, Ok true => true
                            | _, _ => false
                            end) all
         /\ forall pos, In pos out -> py_getitem pos "symbol" = Ok (PStr symbol))
    /\ BinanceFuturesClient.get_positions (Some "") s
       = BinanceFuturesClient.get_positions None s.
Proof.
  intros symbol s. split; [| reflexivity].
  intros Hne out s' H. apply get_positions_run in H.
  destruct H as (response & all & Hr & Hi & ->).
  exists response, all. split; [exact Hr |]. split; [exact Hi |].
  unfold kept, BinanceFuturesClient.given.
  destruct (String.eqb_spec symbol "") as [E | _]; [contradiction |].
  assert (F : forall l,
             filter (fun pos => match BinanceFuturesClient.is_active pos with
                                | Ok true => true
                                | _ => false
                                end)
                    (filter (fun pos => match BinanceFuturesClient.has_symbol symbol pos with
                                        | Ok true => true
                                        | _ => false
                                        end) l)
             = filter (fun pos =>
                         match BinanceFuturesClient.has_symbol symbol pos,
                               BinanceFuturesClient.is_active pos with
                         | Ok true, Ok true => true
                         | _, _ => false
                         end) l).
  { induction l as [| x l IH]; cbn [filter]; [reflexivity |].
    destruct (BinanceFuturesClient.has_symbol symbol x) as [[|] | e]; cbn [filter];
      rewrite IH; reflexivity. }
  split; [apply F |].
  intros pos Hin. rewrite F in Hin. apply filter_In in Hin. destruct Hin as [_ Hin].
  apply has_symbol_true.
  destruct (BinanceFuturesClient.has_symbol symbol pos) as [[|] | e];
    [reflexivity | discriminate | discriminate].
Qed.

(** Three positions, two of them open, one of them in the symbol asked for. *)
Lemma get_positions_of_symbol_witness :
  let btc := PDict [("symbol", PStr "BTCUSDT"); ("positionAmt", PStr "0.010")] in
  let eth := PDict [("symbol", PStr "ETHUSDT"); ("positionAmt", PStr "-2")] in
  let xrp := PDict [("symbol", PStr "XRPUSDT"); ("positionAmt", PStr "0")] in
  let s := boot [Ok (PList [btc; eth; xrp])] in
  fst (BinanceFuturesClient.get_positions (Some "ETHUSDT") s) = Ok [eth]
  /\ exists response all,
       remote s (requests s ++ [futures_position_information])%list = Ok response
       /\ py_iter response = Ok all
       /\ [eth] = filter (fun pos =>
                            match BinanceFuturesClient.has_symbol "ETHUSDT" pos,
                                  BinanceFuturesClient.is_active pos with
                            | Ok true, Ok true => true
                            | _, _ => false
                            end) all.
Proof.
  cbn zeta. split; [vm_compute; reflexivity |].
  pose (s := boot [Ok (PList [PDict [("symbol", PStr "BTCUSDT");
                                     ("positionAmt", PStr "0.010")];
                              PDict [("symbol", PStr "ETHUSDT");
                                     ("positionAmt", PStr "-2")];
                              PDict [("symbol", PStr "XRPUSDT");
                                     ("positionAmt", PStr "0")]])]).
  destruct (proj1 (get_positions_of_symbol "ETHUSDT" s) ltac:(discriminate)
              [PDict [("symbol", PStr "ETHUSDT"); ("positionAmt", PStr "-2")]]
              (snd (BinanceFuturesClient.get_positions (Some "ETHUSDT") s))
              ltac:(vm_compute; reflexivity))
    as (response & all & Hr & Hi & Hout & _).
  exists response, all. split; [exact Hr |]. split; [exact Hi | exact Hout].
Defined.

(** ** Construction *)

(** X6.  Constructing the bot first makes the SDK client, with the two keys
    of the configuration and always for the testnet, and then asks for the
    account, once.  If either request fails, or the account is no dict,
    construction fails with that exception and there is no bot; otherwise
    the bot is not running and its three counters are zero.  Nothing is
    written to the terminal. *)
Theorem construction_connects_to_testnet :
  forall s0 : Sys,
    let out := TradingBot.__init__ s0 in
    let connect := Client (BINANCE_API_KEY (config s0)) (BINANCE_SECRET_KEY (config s0))
                          true in
    stdout (snd out) = stdout s0
    /\ match remote s0 (requests s0 ++ [connect])%list with
       | Raise e =>
           fst out = Raise e /\ requests (snd out) = (requests s0 ++ [connect])%list
       | Ok _ =>
           requests (snd out) = (requests s0 ++ [connect; futures_account])%list
           /\ match remote s0 (requests s0 ++ [connect; futures_account])%list with
              | Raise e => fst out = Raise e
              | Ok (PDict _) => fst out = Ok (mkBot false 0 0 0)
              | Ok v => fst out
                        = Raise (AttributeError
                                   ("'" ++ type_name v ++ "' object has no attribute 'get'"))
              end
       end.
Proof.
  intros [cfg rem reqs so lg]. cbn zeta.
  unfold TradingBot.__init__, BinanceFuturesClient.__init__,
    BinanceFuturesClient._initialize_client.
  run.
  destruct (rem (reqs ++ [_])%list) as [x | e]; run; [| repeat split].
  rewrite <- app_assoc. cbn [app].
  destruct (rem _) as [[| v | v | v | v | v | d] | e]; run; cbn [py_get type_name];
    try destruct (assoc "totalWalletBalance" d); run; repeat split.
Qed.

(** ** What reaches the exchange *)

Lemma filter_m_lift_state {S A : Type} (f : A -> result bool) (l : list A) (s : S) :
  snd (filter_m l (fun x => lift (f x)) s) = s.
Proof.
  pose proof (filter_m_lift f l s) as P.
  destruct (filter_m l (fun x => lift (f x)) s) as [[out | e] s1]; cbn;
    destruct P as [-> _]; reflexivity.
Qed.

Section Calls.

Ltac one_call :=
  intros [cfg rem reqs so lg]; run;
  repeat match goal with
         | |- context [match ?x with _ => _ end] =>
             match x with
             | context [match _ with _ => _ end] => fail 1
             | _ => destruct x; run
             end
         end;
  repeat split.

Lemma calls_print t : calls [] (print t).
Proof. intros [cfg rem reqs so lg]. cbn. rewrite app_nil_r. auto. Qed.

Lemma calls_log n lv t : calls [] (log n lv t).
Proof. intros [cfg rem reqs so lg]. cbn. rewrite app_nil_r. auto. Qed.

Lemma calls_log_error e t : calls [] (Logger.log_error e t).
Proof. apply calls_log. Qed.

Lemma calls_log_trade_action a s d q p o : calls [] (Logger.log_trade_action a s d q p o).
Proof. apply calls_log. Qed.

Lemma calls_log_performance_metrics metrics :
  calls [] (Logger.log_performance_metrics metrics).
Proof.
  intros [cfg rem reqs so lg]. unfold Logger.log_performance_metrics.
  assert (L : forall l s, let out := for_each l (fun kv : string * PyVal =>
                 log "trading_bot.performance" INFO
                     [Txt "  "; Fmt (PStr (fst kv)); Txt ": "; Fmt (snd kv)]) s in
              requests (snd out) = requests s /\ remote (snd out) = remote s
              /\ config (snd out) = config s).
  { induction l as [| x l IH]; intros s; cbn zeta; [cbn; auto |].
    cbn [for_each]. unfold bind at 1. cbn [log fst snd].
    destruct (IH (mkSys (config s) (remote s) (requests s) (stdout s)
                        (logs s ++ [mkLog "trading_bot.performance" INFO
                                          [Txt "  "; Fmt (PStr (fst x)); Txt ": ";
                                           Fmt (snd x)]]))) as (H1 & H2 & H3).
    cbn zeta in H1, H2, H3. cbn [config remote requests] in H1, H2, H3. auto. }
  unfold bind at 1. cbn [log]. rewrite app_nil_r.
  match goal with |- context [for_each ?l ?b ?s0] => exact (L l s0) end.
Qed.

Lemma calls_call r : calls [r] (call r).
Proof. intros [cfg rem reqs so lg]. cbn. auto. Qed.

Lemma calls_get_account_info : calls [futures_account] BinanceFuturesClient.get_account_info.
Proof. unfold BinanceFuturesClient.get_account_info. one_call. Qed.

Lemma calls_get_symbol_info symbol :
  calls [futures_exchange_info] (BinanceFuturesClient.get_symbol_info symbol).
Proof. unfold BinanceFuturesClient.get_symbol_info. one_call. Qed.

Lemma calls_get_current_price symbol :
  calls [futures_symbol_ticker symbol] (BinanceFuturesClient.get_current_price symbol).
Proof. unfold BinanceFuturesClient.get_current_price. one_call. Qed.

Lemma calls_place_market_order symbol side quantity reduce_only :
  calls [futures_create_order (market_kwargs symbol side quantity reduce_only)]
        (BinanceFuturesClient.place_market_order symbol side quantity reduce_only).
Proof. unfold BinanceFuturesClient.place_market_order, market_kwargs. one_call. Qed.

Lemma calls_place_limit_order symbol side quantity price tif reduce_only :
  calls [futures_create_order (limit_kwargs symbol side quantity price tif reduce_only)]
        (BinanceFuturesClient.place_limit_order symbol side quantity price tif reduce_only).
Proof. unfold BinanceFuturesClient.place_limit_order, limit_kwargs. one_call. Qed.

Lemma calls_cancel_order symbol order_id :
  calls [futures_cancel_order symbol order_id]
        (BinanceFuturesClient.cancel_order symbol order_id).
Proof. unfold BinanceFuturesClient.cancel_order. one_call. Qed.

Lemma calls_get_open_orders symbol :
  calls [futures_get_open_orders (BinanceFuturesClient.given symbol)]
        (BinanceFuturesClient.get_open_orders symbol).
Proof.
  unfold BinanceFuturesClient.get_open_orders.
  destruct (BinanceFuturesClient.given symbol); one_call.
Qed.

Lemma calls_get_order_history symbol limit :
  calls [futures_get_all_orders symbol limit]
        (BinanceFuturesClient.get_order_history symbol limit).
Proof. unfold BinanceFuturesClient.get_order_history. one_call. Qed.

Lemma calls_get_positions symbol :
  calls [futures_position_information] (BinanceFuturesClient.get_positions symbol).
Proof.
  intros [cfg rem reqs so lg]. unfold BinanceFuturesClient.get_positions. run.
  destruct (rem _) as [response | e]; run; [| repeat split].
  destruct (py_iter response) as [all | e].
  2:{ destruct (BinanceFuturesClient.given symbol); run; repeat split. }
  destruct (BinanceFuturesClient.given symbol) as [sy |]; run.
  - match goal with
    | |- context [filter_m all ?k ?s0] =>
        pose proof (filter_m_lift_state (BinanceFuturesClient.has_symbol sy) all s0) as P1;
        change k with (fun pos => @lift Sys bool (BinanceFuturesClient.has_symbol sy pos));
        destruct (filter_m all _ s0) as [[mine | e] s1]
    end; cbn [snd] in P1; subst s1; run; [| repeat split].
    match goal with
    | |- context [filter_m ?l ?k ?s0] =>
        pose proof (filter_m_lift_state BinanceFuturesClient.is_active l s0) as P2;
        change k with (fun pos => @lift Sys bool (BinanceFuturesClient.is_active pos));
        destruct (filter_m l _ s0) as [[act | e] s2]
    end; cbn [snd] in P2; subst s2; run; repeat split.
  - match goal with
    | |- context [filter_m ?l ?k ?s0] =>
        pose proof (filter_m_lift_state BinanceFuturesClient.is_active l s0) as P2;
        change k with (fun pos => @lift Sys bool (BinanceFuturesClient.is_active pos));
        destruct (filter_m l _ s0) as [[act | e] s2]
    end; cbn [snd] in P2; subst s2; run; repeat split.
Qed.

End Calls.

(** *** Rules for [emits] *)

Lemma emits_ret {A : Type} (a : A) : emits [] (ret a).
Proof. intros st. cbn. rewrite app_nil_r. auto. Qed.

Lemma emits_raise {A : Type} (e : PyExc) : emits [] (@raise State A e).
Proof. intros st. cbn. rewrite app_nil_r. auto. Qed.

Lemma emits_lift {A : Type} (r : result A) : emits [] (lift r).
Proof. intros st. cbn. rewrite app_nil_r. auto. Qed.

Lemma emits_get_self : emits [] get_self.
Proof. intros st. cbn. rewrite app_nil_r. auto. Qed.

Lemma emits_set_self b : emits [] (set_self b).
Proof. intros st. cbn. rewrite app_nil_r. auto. Qed.

Lemma emits_io {A : Type} (l : list Request) (m : M Sys A) : calls l m -> emits l (io m).
Proof.
  intros H st. unfold io. specialize (H (sys st)).
  destruct (m (sys st)) as [r s']. cbn in *. exact H.
Qed.

(** After a step that sends nothing, whatever is sent is sent by the rest;
    the step has to return for the rest to run. *)
Lemma emits_bind_l {A B : Type} (l : list Request) (m : M State A) (k : A -> M State B) :
  emits [] m -> never_raises m -> (forall a, emits l (k a)) -> emits l (bind m k).
Proof.
  intros Hm Hn Hk st. unfold bind. specialize (Hm st). specialize (Hn st).
  destruct (m st) as [[a | e] st']; cbn in *.
  - specialize (Hk a st'). destruct Hm as (H1 & H2 & H3), Hk as (K1 & K2 & K3).
    rewrite app_nil_r in H1. rewrite K1, K2, K3, H1, H2, H3. auto.
  - destruct Hn as [a Ha]. discriminate Ha.
Qed.

(** Once the requests are out, a rest that sends nothing adds nothing,
    whether it runs or not. *)
Lemma emits_bind_r {A B : Type} (l : list Request) (m : M State A) (k : A -> M State B) :
  emits l m -> (forall a, emits [] (k a)) -> emits l (bind m k).
Proof.
  intros Hm Hk st. unfold bind. specialize (Hm st).
  destruct (m st) as [[a | e] st']; cbn in *; [| exact Hm].
  specialize (Hk a st'). destruct Hm as (H1 & H2 & H3), Hk as (K1 & K2 & K3).
  rewrite app_nil_r in K1. rewrite K1, K2, K3, H1, H2, H3. auto.
Qed.

Lemma emits_try_except {A : Type} (l : list Request) (m : M State A)
    (h : PyExc -> M State A) :
  emits l m -> (forall e, emits [] (h e)) -> emits l (try_except m h).
Proof.
  intros Hm Hh st. unfold try_except. specialize (Hm st).
  destruct (m st) as [[a | e] st']; cbn in *; [exact Hm |].
  specialize (Hh e st'). destruct Hm as (H1 & H2 & H3), Hh as (K1 & K2 & K3).
  rewrite app_nil_r in K1. rewrite K1, K2, K3, H1, H2, H3. auto.
Qed.

Lemma emits_for_each {A : Type} (l : list A) (body : A -> M State unit) :
  (forall x, emits [] (body x)) -> emits [] (for_each l body).
Proof.
  intros Hb. induction l as [| x l IH]; cbn [for_each].
  - apply emits_ret.
  - apply emits_bind_r; [apply Hb | intros _; exact IH].
Qed.

(** Settles that a stretch of a method sends nothing. *)
Ltac quiet :=
  repeat lazymatch goal with
    | |- forall _ : _, _ => intro
    | |- emits _ (ret _) => apply emits_ret
    | |- emits _ (raise _) => apply emits_raise
    | |- emits _ (lift _) => apply emits_lift
    | |- emits _ get_self => apply emits_get_self
    | |- emits _ (set_self _) => apply emits_set_self
    | |- emits _ (io (print _)) => apply emits_io, calls_print
    | |- emits _ (io (log _ _ _)) => apply emits_io, calls_log
    | |- emits _ (io (Logger.log_error _ _)) => apply emits_io, calls_log_error
    | |- emits _ (io (Logger.log_trade_action _ _ _ _ _ _)) =>
        apply emits_io, calls_log_trade_action
    | |- emits _ (io (Logger.log_performance_metrics _)) =>
        apply emits_io, calls_log_performance_metrics
    | |- emits _ (for_each _ _) => apply emits_for_each
    | |- emits _ (try_except _ _) => apply emits_try_except
    | |- emits _ (bind _ _) => apply emits_bind_r
    | |- emits _ (match ?x with _ => _ end) => destruct x
    | |- emits _ (let _ := _ in _) => cbv zeta
    end.

(** *** Rules for [never_raises] *)

Lemma nr_ret {A : Type} (a : A) : never_raises (ret a).
Proof. intros st. exists a. reflexivity. Qed.

Lemma nr_get_self : never_raises get_self.
Proof. intros st. eexists. reflexivity. Qed.

Lemma nr_set_self b : never_raises (set_self b).
Proof. intros st. eexists. reflexivity. Qed.

Lemma nr_print t : never_raises (io (print t)).
Proof. intros st. eexists. reflexivity. Qed.

Lemma nr_log n lv t : never_raises (io (log n lv t)).
Proof. intros st. eexists. reflexivity. Qed.

Lemma nr_log_error e t : never_raises (io (Logger.log_error e t)).
Proof. intros st. eexists. reflexivity. Qed.

Lemma nr_bind {A B : Type} (m : M State A) (k : A -> M State B) :
  never_raises m -> (forall a, never_raises (k a)) -> never_raises (bind m k).
Proof.
  intros Hm Hk st. unfold bind. specialize (Hm st).
  destruct (m st) as [[a | e] st']; cbn in *.
  - apply Hk.
  - destruct Hm as [a Ha]. discriminate Ha.
Qed.

Lemma nr_try_except {A : Type} (m : M State A) (h : PyExc -> M State A) :
  (forall e, never_raises (h e)) -> never_raises (try_except m h).
Proof.
  intros Hh st. unfold try_except.
  destruct (m st) as [[a | e] st']; cbn.
  - exists a. reflexivity.
  - apply Hh.
Qed.

(** Settles that a method returns. *)
Ltac safe :=
  repeat lazymatch goal with
    | |- forall _ : _, _ => intro
    | |- never_raises (ret _) => apply nr_ret
    | |- never_raises get_self => apply nr_get_self
    | |- never_raises (set_self _) => apply nr_set_self
    | |- never_raises (io (print _)) => apply nr_print
    | |- never_raises (io (log _ _ _)) => apply nr_log
    | |- never_raises (io (Logger.log_error _ _)) => apply nr_log_error
    | |- never_raises (try_except _ _) => apply nr_try_except
    | |- never_raises (bind _ _) => apply nr_bind
    | |- never_raises (match ?x with _ => _ end) => destruct x
    end.

Lemma emits_set_running v : emits [] (set_running v).
Proof. unfold set_running. quiet. Qed.

Lemma nr_set_running v : never_raises (set_running v).
Proof. unfold set_running. safe. Qed.

Lemma emits_display_account_info : emits [futures_account] TradingBot.display_account_info.
Proof.
  unfold TradingBot.display_account_info.
  apply emits_try_except; [| quiet].
  apply emits_bind_r; [apply emits_io, calls_get_account_info | quiet].
Qed.

Lemma emits_display_positions :
  emits [futures_position_information] TradingBot.display_positions.
Proof.
  unfold TradingBot.display_positions, TradingBot.position_row.
  apply emits_try_except; [| quiet].
  apply emits_bind_r; [apply emits_io, calls_get_positions | quiet].
Qed.

Lemma emits_display_open_orders symbol :
  emits [futures_get_open_orders (BinanceFuturesClient.given symbol)]
        (TradingBot.display_open_orders symbol).
Proof.
  unfold TradingBot.display_open_orders, TradingBot.order_row.
  apply emits_try_except; [| quiet].
  apply emits_bind_r; [apply emits_io, calls_get_open_orders | quiet].
Qed.

Lemma emits_place_market_order symbol side quantity :
  emits [futures_create_order (market_kwargs symbol side quantity false)]
        (TradingBot.place_market_order symbol side quantity).
Proof.
  unfold TradingBot.place_market_order, incr_trade_count, incr_successful_trades,
    incr_failed_trades.
  apply emits_try_except; [| quiet].
  apply emits_bind_l; [quiet | safe | intros _].
  apply emits_bind_r; [apply emits_io, calls_place_market_order | quiet].
Qed.

Lemma emits_place_limit_order symbol side quantity price :
  emits [futures_create_order (limit_kwargs symbol side quantity price "GTC" false)]
        (TradingBot.place_limit_order symbol side quantity price).
Proof.
  unfold TradingBot.place_limit_order, incr_trade_count, incr_successful_trades,
    incr_failed_trades.
  apply emits_try_except; [| quiet].
  apply emits_bind_l; [quiet | safe | intros _].
  apply emits_bind_r; [apply emits_io, calls_place_limit_order | quiet].
Qed.

Lemma emits_cancel_order symbol order_id :
  emits [futures_cancel_order symbol order_id] (TradingBot.cancel_order symbol order_id).
Proof.
  unfold TradingBot.cancel_order.
  apply emits_try_except; [| quiet].
  apply emits_bind_l; [quiet | safe | intros _].
  apply emits_bind_r; [apply emits_io, calls_cancel_order | quiet].
Qed.

Lemma emits_get_current_price symbol :
  emits [futures_symbol_ticker symbol] (TradingBot.get_current_price symbol).
Proof.
  unfold TradingBot.get_current_price.
  apply emits_try_except; [apply emits_io, calls_get_current_price | quiet].
Qed.

Lemma emits_validate_symbol symbol :
  emits [futures_exchange_info] (TradingBot.validate_symbol symbol).
Proof.
  unfold TradingBot.validate_symbol.
  apply emits_try_except; [| quiet].
  apply emits_bind_r; [apply emits_io, calls_get_symbol_info | quiet].
Qed.

Lemma emits_get_symbol_info symbol :
  emits [futures_exchange_info] (TradingBot.get_symbol_info symbol).
Proof.
  unfold TradingBot.get_symbol_info.
  apply emits_try_except; [apply emits_io, calls_get_symbol_info | quiet].
Qed.

Lemma emits_display_performance_metrics truediv :
  emits [] (TradingBot.display_performance_metrics_with truediv).
Proof. unfold TradingBot.display_performance_metrics_with. quiet. Qed.

Lemma emits_start : emits [futures_account] TradingBot.start.
Proof.
  unfold TradingBot.start.
  apply emits_bind_l; [apply emits_set_running | apply nr_set_running | intros _].
  apply emits_bind_l; [quiet | safe | intros _].
  apply emits_display_account_info.
Qed.

Lemma emits_stop : emits [] TradingBot.stop.
Proof.
  unfold TradingBot.stop.
  apply emits_bind_l; [apply emits_set_running | apply nr_set_running | intros _].
  apply emits_bind_l; [quiet | safe | intros _].
  apply emits_display_performance_metrics.
Qed.

(** X7.  No operation of the orchestrator tries twice.  Each sends the
    requests of [requests_of], at most one: the account for [start] and
    [display_account_info], the order for an order placement (a limit order
    always good-till-cancelled, neither kind ever reduce-only), and so on;
    [stop] and [display_performance_metrics] send nothing.  This is so
    whether the operation returns or raises, and whatever the exchange
    answers. *)
Theorem operations_send_at_most_one_request :
  forall (op : Op) (st : State),
    requests (sys (after op st)) = (requests (sys st) ++ requests_of op)%list
    /\ remote (sys (after op st)) = remote (sys st)
    /\ (length (requests_of op) <= 1)%nat.
Proof.
  intros op st.
  assert (H : requests (sys (after op st)) = (requests (sys st) ++ requests_of op)%list
              /\ remote (sys (after op st)) = remote (sys st)
              /\ config (sys (after op st)) = config (sys st)).
  { destruct op; cbn [after requests_of].
    - apply emits_start.
    - apply emits_stop.
    - apply emits_display_account_info.
    - apply emits_display_positions.
    - apply emits_display_open_orders.
    - apply emits_place_market_order.
    - apply emits_place_limit_order.
    - apply emits_cancel_order.
    - apply emits_get_current_price.
    - apply (emits_display_performance_metrics PyFloat.int_truediv).
    - apply emits_validate_symbol.
    - apply emits_get_symbol_info. }
  destruct H as (H1 & H2 & _). split; [exact H1 |]. split; [exact H2 |].
  destruct op; cbn; lia.
Qed.

(** ** Which operations can fail *)

Lemma nr_display_account_info : never_raises TradingBot.display_account_info.
Proof. unfold TradingBot.display_account_info. safe. Qed.

Lemma nr_display_positions : never_raises TradingBot.display_positions.
Proof. unfold TradingBot.display_positions. safe. Qed.

Lemma nr_display_open_orders symbol : never_raises (TradingBot.display_open_orders symbol).
Proof. unfold TradingBot.display_open_orders. safe. Qed.

Lemma nr_incr_trade_count : never_raises incr_trade_count.
Proof. unfold incr_trade_count. safe. Qed.

Lemma nr_incr_failed_trades : never_raises incr_failed_trades.
Proof. unfold incr_failed_trades. safe. Qed.

Lemma nr_place_market_order symbol side quantity :
  never_raises (TradingBot.place_market_order symbol side quantity).
Proof.
  unfold TradingBot.place_market_order. apply nr_try_except. intros e.
  apply nr_bind; [safe | intros _].
  apply nr_bind; [apply nr_incr_trade_count | intros _].
  apply nr_bind; [apply nr_incr_failed_trades | intros _]. safe.
Qed.

Lemma nr_place_limit_order symbol side quantity price :
  never_raises (TradingBot.place_limit_order symbol side quantity price).
Proof.
  unfold TradingBot.place_limit_order. apply nr_try_except. intros e.
  apply nr_bind; [safe | intros _].
  apply nr_bind; [apply nr_incr_trade_count | intros _].
  apply nr_bind; [apply nr_incr_failed_trades | intros _]. safe.
Qed.

Lemma nr_cancel_order symbol order_id :
  never_raises (TradingBot.cancel_order symbol order_id).
Proof. unfold TradingBot.cancel_order. safe. Qed.

Lemma nr_validate_symbol symbol : never_raises (TradingBot.validate_symbol symbol).
Proof. unfold TradingBot.validate_symbol. safe. Qed.

Lemma nr_start : never_raises TradingBot.start.
Proof.
  unfold TradingBot.start.
  apply nr_bind; [apply nr_set_running | intros _].
  apply nr_bind; [safe | intros _]. apply nr_display_account_info.
Qed.

(** With sound counters the metrics are written and the method returns. *)
Lemma metrics_return :
  forall st : State,
    sound (self st) -> fst (TradingBot.display_performance_metrics st) = Ok tt.
Proof.
  intros st (Hs & Hf & Hi). unfold invariant in Hi.
  unfold TradingBot.display_performance_metrics.
  destruct (Z.eq_dec (trade_count (self st)) 0) as [Hz | Hnz].
  - rewrite (metrics_none PyFloat.int_truediv st Hz). reflexivity.
  - destruct (int_truediv_sound (successful_trades (self st)) (trade_count (self st))
                ltac:(lia) Hnz) as [ratio Hratio].
    apply (metrics_run PyFloat.int_truediv st ratio Hnz Hratio).
Qed.

Lemma stop_return : forall st : State, sound (self st) -> fst (TradingBot.stop st) = Ok tt.
Proof.
  intros st H. rewrite stop_unfold. apply metrics_return. cbn [self].
  destruct H as (Hs & Hf & Hi). unfold sound, invariant in *. cbn. auto.
Qed.

Lemma orchestrator_price_result :
  forall symbol st,
    fst (TradingBot.get_current_price symbol st)
    = fst (BinanceFuturesClient.get_current_price symbol (sys st)).
Proof.
  intros symbol [b s]. unfold TradingBot.get_current_price. run.
  destruct (BinanceFuturesClient.get_current_price symbol s) as [[price | e] s1];
    reflexivity.
Qed.

Lemma orchestrator_symbol_result :
  forall symbol st,
    fst (TradingBot.get_symbol_info symbol st)
    = fst (BinanceFuturesClient.get_symbol_info symbol (sys st)).
Proof.
  intros symbol [b s]. unfold TradingBot.get_symbol_info. run.
  destruct (BinanceFuturesClient.get_symbol_info symbol s) as [[info | e] s1];
    reflexivity.
Qed.

(** X8.  The orchestrator keeps the failures of the exchange to itself.
    Starting, the three displays of account, positions and open orders, the
    two order placements, cancelling and validating return whatever the
    exchange answers or raises.  Stopping and the display of the metrics
    return in every state a constructed bot can reach.  Only
    [get_current_price] and [get_symbol_info] let an exception through, and
    then the very exception of the adapter. *)
Theorem operations_swallow_errors :
  forall (op : Op) (st : State),
    match op with
    | op_get_current_price symbol =>
        failure op st
        = raised (fst (BinanceFuturesClient.get_current_price symbol (sys st)))
    | op_get_symbol_info symbol =>
        failure op st
        = raised (fst (BinanceFuturesClient.get_symbol_info symbol (sys st)))
    | op_stop | op_display_performance_metrics => reachable st -> failure op st = None
    | _ => failure op st = None
    end.
Proof.
  intros op st.
  assert (N : forall (A : Type) (m : M State A),
             never_raises m -> raised (fst (m st)) = None).
  { intros A m H. destruct (H st) as [a Ha]. rewrite Ha. reflexivity. }
  destruct op; cbn [failure].
  - apply N, nr_start.
  - intros H. rewrite stop_return; [reflexivity | apply reachable_sound, H].
  - apply N, nr_display_account_info.
  - apply N, nr_display_positions.
  - apply N, nr_display_open_orders.
  - apply N, nr_place_market_order.
  - apply N, nr_place_limit_order.
  - apply N, nr_cancel_order.
  - rewrite orchestrator_price_result. reflexivity.
  - intros H. rewrite metrics_return; [reflexivity | apply reachable_sound, H].
  - apply N, nr_validate_symbol.
  - rewrite orchestrator_symbol_result. reflexivity.
Qed.

(** X9.  [cancel_order] of the orchestrator never raises and leaves the bot
    as it was.  It returns true exactly when the exchange answers the
    cancellation and the answer has a ['status']; it returns false when the
    exchange raises, and also when the exchange has cancelled the order but
    its answer has no ['status'] to print. *)
Theorem cancel_order_reports :
  forall (symbol : string) (order_id : Z) (st : State),
    let out := TradingBot.cancel_order symbol order_id st in
    self (snd out) = self st
    /\ fst out
       = Ok match remote (sys st)
                    (requests (sys st) ++ [futures_cancel_order symbol order_id])%list
            with
            | Ok answer => match py_getitem answer "status" with
                           | Ok _ => true
                           | Raise _ => false
                           end
            | Raise _ => false
            end.
Proof.
  intros symbol order_id [b [cfg rem reqs so lg]]. cbn zeta.
  unfold TradingBot.cancel_order, BinanceFuturesClient.cancel_order. run.
  destruct (rem _) as [answer | e]; run.
  - destruct (py_getitem answer "status"); run; split; reflexivity.
  - split; reflexivity.
Qed.

(** ** The counters over a session *)

(** X10.  In every state a constructed bot can reach, whatever operations
    ran and whatever the exchange answered, the trade count is the sum of the
    successful and the failed trades, and no counter is negative; so the
    successes never exceed the trade count. *)
Theorem counters_stay_consistent :
  forall st : State,
    reachable st ->
    trade_count (self st) = successful_trades (self st) + failed_trades (self st)
    /\ 0 <= successful_trades (self st) <= trade_count (self st)
    /\ 0 <= failed_trades (self st) <= trade_count (self st).
Proof.
  intros st H. apply reachable_sound in H. destruct H as (Hs & Hf & Hi).
  unfold invariant in Hi. lia.
Qed.

(** A bot is constructed, places an order the exchange accepts and one it
    rejects, and is stopped. *)
Lemma counters_stay_consistent_witness :
  let account := PDict [("totalWalletBalance", PStr "100.00")] in
  let init := TradingBot.__init__ (boot [Ok PNone; Ok account; Ok (order_new 1);
                                         Raise rejected]) in
  let st := after op_stop
              (after (op_place_limit_order "BTCUSDT" "SELL" 0.5%float 100%float)
                 (after (op_place_market_order "BTCUSDT" "BUY" 0.5%float)
                    (mkState (mkBot false 0 0 0) (snd init)))) in
  self st = mkBot false 2 1 1
  /\ trade_count (self st) = successful_trades (self st) + failed_trades (self st).
Proof.
  cbn zeta. split; [vm_compute; reflexivity |].
  apply counters_stay_consistent.
  do 3 apply reach_step.
  apply (reach_init (boot [Ok PNone; Ok (PDict [("totalWalletBalance", PStr "100.00")]);
                           Ok (order_new 1); Raise rejected])).
  vm_compute. reflexivity.
Defined.

#[local] Instance same_running_preorder : RelationClasses.PreOrder same_running.
Proof.
  split.
  - intros b. reflexivity.
  - intros a b c H1 H2. unfold same_running in *. congruence.
Qed.

Lemma running_kept_by_attempts :
  forall symbol side quantity price,
    respects same_running (TradingBot.place_market_order symbol side quantity)
    /\ respects same_running (TradingBot.place_limit_order symbol side quantity price).
Proof.
  intros symbol side quantity price.
  assert (I1 : respects same_running incr_trade_count) by (intros st; reflexivity).
  assert (I2 : respects same_running incr_successful_trades) by (intros st; reflexivity).
  assert (I3 : respects same_running incr_failed_trades) by (intros st; reflexivity).
  split.
  - unfold TradingBot.place_market_order.
    repeat lazymatch goal with
      | |- forall _ : _, _ => intro
      | |- respects _ incr_trade_count => exact I1
      | |- respects _ incr_successful_trades => exact I2
      | |- respects _ incr_failed_trades => exact I3
      | |- respects _ (ret _) => apply respects_ret; exact _
      | |- respects _ (lift _) => apply respects_lift; exact _
      | |- respects _ (io _) => apply respects_io; exact _
      | |- respects _ (try_except _ _) => apply respects_try_except; [exact _ | |]
      | |- respects _ (bind _ _) => apply respects_bind; [exact _ | |]
      end.
  - unfold TradingBot.place_limit_order.
    repeat lazymatch goal with
      | |- forall _ : _, _ => intro
      | |- respects _ incr_trade_count => exact I1
      | |- respects _ incr_successful_trades => exact I2
      | |- respects _ incr_failed_trades => exact I3
      | |- respects _ (ret _) => apply respects_ret; exact _
      | |- respects _ (lift _) => apply respects_lift; exact _
      | |- respects _ (io _) => apply respects_io; exact _
      | |- respects _ (try_except _ _) => apply respects_try_except; [exact _ | |]
      | |- respects _ (bind _ _) => apply respects_bind; [exact _ | |]
      end.
Qed.

(** X11.  What each operation may change in the bot.  Only an order
    placement changes a counter: it adds one or two to the trade count, the
    same in total to the two other counters, and takes nothing from any.
    Only [start] and [stop] change the running flag, to true and to false. *)
Theorem operations_change_little :
  forall (op : Op) (st : State),
    let b := self st in
    let b' := self (after op st) in
    (is_order_attempt op = false -> same_counters b b')
    /\ (is_order_attempt op = true ->
        (trade_count b' = trade_count b + 1 \/ trade_count b' = trade_count b + 2)
        /\ successful_trades b <= successful_trades b'
        /\ failed_trades b <= failed_trades b'
        /\ trade_count b' - trade_count b
           = (successful_trades b' - successful_trades b)
             + (failed_trades b' - failed_trades b))
    /\ match op with
       | op_start => running b' = true
       | op_stop => running b' = false
       | _ => running b' = running b
       end.
Proof.
  intros op st. cbn zeta. split; [| split].
  - apply only_attempts_count.
  - intros H.
    assert (C : counted 1 1 0 (self st) (self (after op st))
                \/ counted 1 0 1 (self st) (self (after op st))
                \/ counted 2 1 1 (self st) (self (after op st))).
    { destruct op; try discriminate H; cbn [after].
      - apply market_attempt_counts.
      - apply limit_attempt_counts. }
    unfold counted in C. lia.
  - destruct op; cbn [after].
    + rewrite start_unfold. rewrite <- (display_account_info_frame eq _). reflexivity.
    + rewrite stop_unfold. unfold TradingBot.display_performance_metrics.
      rewrite <- (display_performance_metrics_frame eq PyFloat.int_truediv _).
      reflexivity.
    + exact (display_account_info_frame same_running st).
    + exact (display_positions_frame same_running st).
    + exact (display_open_orders_frame same_running symbol st).
    + exact (proj1 (running_kept_by_attempts symbol side quantity quantity) st).
    + exact (proj2 (running_kept_by_attempts symbol side quantity price) st).
    + exact (cancel_order_frame same_running symbol order_id st).
    + exact (get_current_price_frame same_running symbol st).
    + exact (display_performance_metrics_frame same_running PyFloat.int_truediv st).
    + exact (validate_symbol_frame same_running symbol st).
    + exact (get_symbol_info_frame same_running symbol st).
Qed.

(** ** The handlers of the shell *)

Lemma get_symbol_info_mute :
  forall symbol s, stdout (snd (BinanceFuturesClient.get_symbol_info symbol s)) = stdout s.
Proof.
  intros symbol [cfg rem reqs so lg]. unfold BinanceFuturesClient.get_symbol_info. run.
  destruct (rem _) as [info | e]; run; [| reflexivity].
  destruct (py_getitem info "symbols") as [listed | e]; run; [| reflexivity].
  destruct (py_iter listed) as [records | e]; run; [| reflexivity].
  destruct (BinanceFuturesClient.find_symbol symbol records); reflexivity.
Qed.

(** What validating a symbol leaves behind: one request, no line on the
    terminal, the bot as it was, and a boolean. *)
Lemma validate_symbol_run :
  forall symbol st,
    exists (valid : bool) (st' : State),
      TradingBot.validate_symbol symbol st = (Ok valid, st')
      /\ self st' = self st
      /\ requests (sys st') = (requests (sys st) ++ [futures_exchange_info])%list
      /\ remote (sys st') = remote (sys st)
      /\ stdout (sys st') = stdout (sys st).
Proof.
  intros symbol st.
  destruct (nr_validate_symbol symbol st) as [valid Hv].
  destruct (emits_validate_symbol symbol st) as (Hr & Hm & _).
  pose proof (validate_symbol_frame eq symbol st) as Hs.
  assert (Ho : stdout (sys (snd (TradingBot.validate_symbol symbol st))) = stdout (sys st)).
  { destruct st as [b s]. unfold TradingBot.validate_symbol. run.
    pose proof (get_symbol_info_mute symbol s) as Hmute.
    destruct (BinanceFuturesClient.get_symbol_info symbol s) as [[info | e] s1];
      cbn [snd] in Hmute; run.
    - destruct (py_getitem info "status"); run; destruct s1; exact Hmute.
    - destruct s1; exact Hmute. }
  destruct (TradingBot.validate_symbol symbol st) as [r st'] eqn:E.
  cbn [fst snd] in *. subst r. exists valid, st'. auto.
Qed.

Lemma place_market_order_mute_counts :
  forall symbol side quantity,
    emits [futures_create_order (market_kwargs symbol side quantity false)]
          (bind (TradingBot.place_market_order symbol side quantity) (fun _ => ret tt)).
Proof.
  intros. apply emits_bind_r; [apply emits_place_market_order | intros _; apply emits_ret].
Qed.

Lemma place_limit_order_mute_counts :
  forall symbol side quantity price,
    emits [futures_create_order (limit_kwargs symbol side quantity price "GTC" false)]
          (bind (TradingBot.place_limit_order symbol side quantity price)
                (fun _ => ret tt)).
Proof.
  intros. apply emits_bind_r; [apply emits_place_limit_order | intros _; apply emits_ret].
Qed.

(** The run of an order handler once its arguments are read: the symbol is
    validated, and only a valid symbol is traded. *)
Lemma validate_then_order :
  forall (symbol : string) (order : Request) (place : M State unit) (st : State),
    emits [order] place ->
    never_raises place ->
    let out := bind (TradingBot.validate_symbol symbol)
                    (fun valid => if negb valid
                                  then io (print (TradingBotCLI.invalid_symbol symbol))
                                  else place) st in
    fst out = Ok tt
    /\ match fst (TradingBot.validate_symbol symbol st) with
       | Ok true =>
           requests (sys (snd out))
           = (requests (sys st) ++ [futures_exchange_info; order])%list
       | _ =>
           requests (sys (snd out)) = (requests (sys st) ++ [futures_exchange_info])%list
           /\ self (snd out) = self st
           /\ stdout (sys (snd out))
              = (stdout (sys st) ++ [TradingBotCLI.invalid_symbol symbol])%list
       end.
Proof.
  intros symbol order place st He Hn. cbn zeta.
  destruct (validate_symbol_run symbol st) as (valid & st' & Hv & Hs & Hr & Hm & Ho).
  unfold bind. rewrite Hv. cbn [fst].
  destruct valid; cbn [negb].
  - destruct (Hn st') as [[] Ha]. split; [exact Ha |].
    destruct (He st') as (H1 & _). rewrite H1, Hr, <- app_assoc. reflexivity.
  - destruct st' as [b' s']. cbn [self sys] in *. cbn. subst b'.
    rewrite Hr, Ho. auto.
Qed.

Lemma nr_market_then_ret symbol side quantity :
  never_raises (bind (TradingBot.place_market_order symbol side quantity)
                     (fun _ => ret tt)).
Proof. apply nr_bind; [apply nr_place_market_order | intros _; apply nr_ret]. Qed.

Lemma nr_limit_then_ret symbol side quantity price :
  never_raises (bind (TradingBot.place_limit_order symbol side quantity price)
                     (fun _ => ret tt)).
Proof. apply nr_bind; [apply nr_place_limit_order | intros _; apply nr_ret]. Qed.

(** X12.  [buy_market] and [sell_market] with a symbol and a quantity,
    both ASCII text, the quantity a number: the symbol, in upper case, is
    validated first.  A symbol that validates is traded, by one market order
    of that quantity, bought for [buy_market] and sold for [sell_market],
    never reduce-only.  For a symbol that does not validate no order is
    sent: the handler writes that the symbol is invalid and the bot is as it
    was.  The handler returns in both cases. *)
Theorem market_handlers_validate_first :
  forall (symbol quantity : string) (more : list string) (q : float) (st : State),
    PyStr.is_ascii symbol = true ->
    PyStr.is_ascii quantity = true ->
    PyStr.float_of_string quantity = Some q ->
    let sym := PyStr.upper symbol in
    let args := symbol :: quantity :: more in
    let verdict (side : string) (out : result unit * State) : Prop :=
      fst out = Ok tt
      /\ match fst (TradingBot.validate_symbol sym st) with
         | Ok true =>
             requests (sys (snd out))
             = (requests (sys st)
                  ++ [futures_exchange_info;
                      futures_create_order (market_kwargs sym side q false)])%list
         | _ =>
             requests (sys (snd out)) = (requests (sys st) ++ [futures_exchange_info])%list
             /\ self (snd out) = self st
             /\ stdout (sys (snd out))
                = (stdout (sys st) ++ [TradingBotCLI.invalid_symbol sym])%list
         end in
    verdict "BUY" (TradingBotCLI.handle_buy_market args st)
    /\ verdict "SELL" (TradingBotCLI.handle_sell_market args st).
Proof.
  intros symbol quantity more q st _ _ Hq. cbn zeta.
  unfold TradingBotCLI.handle_buy_market, TradingBotCLI.handle_sell_market.
  cbn [length Nat.ltb Nat.leb nth]. rewrite Hq.
  split.
  - apply (validate_then_order (PyStr.upper symbol) _ _ st
             (place_market_order_mute_counts (PyStr.upper symbol) "BUY" q)
             (nr_market_then_ret (PyStr.upper symbol) "BUY" q)).
  - apply (validate_then_order (PyStr.upper symbol) _ _ st
             (place_market_order_mute_counts (PyStr.upper symbol) "SELL" q)
             (nr_market_then_ret (PyStr.upper symbol) "SELL" q)).
Qed.

(** [buy_market btcusdt 0.5] typed at a bot whose exchange lists the symbol
    as trading: two requests go out, the second a market buy of 0.5
    BTCUSDT. *)
Lemma market_handlers_validate_first_witness :
  let listing := PDict [("symbols", PList [PDict [("symbol", PStr "BTCUSDT");
                                                  ("status", PStr "TRADING")]])] in
  let st := fresh [Ok listing; Ok (order_new 7)] in
  requests (sys (snd (TradingBotCLI.handle_buy_market ["btcusdt"; "0.5"] st)))
  = [futures_exchange_info;
     futures_create_order (market_kwargs "BTCUSDT" "BUY" 0.5%float false)].
Proof.
  cbn zeta.
  exact (proj2 (proj1 (market_handlers_validate_first "btcusdt" "0.5" [] 0.5%float
                         (fresh [Ok (PDict [("symbols",
                                             PList [PDict [("symbol", PStr "BTCUSDT");
                                                           ("status", PStr "TRADING")]])]);
                                 Ok (order_new 7)])
                         eq_refl eq_refl ltac:(vm_compute; reflexivity)))).
Defined.

(** X13.  [buy_limit] and [sell_limit], their arguments ASCII text: with a
    symbol, a quantity and a price that are numbers they do the same with a
    limit order at that price, always good-till-cancelled and never
    reduce-only; when the quantity or the price is not a number, or an
    argument is missing, they write one line and do nothing else. *)
Theorem limit_handlers_validate_first :
  forall (args : list string) (st : State),
    Forall (fun a => PyStr.is_ascii a = true) args ->
    let refused (line : string) : result unit * State :=
      (Ok tt, mkState (self st) (printed [[Txt (Fore.RED ++ line)]] (sys st))) in
    ((length args < 3)%nat ->
     TradingBotCLI.handle_buy_limit args st
     = refused "❌ Usage: buy_limit <symbol> <quantity> <price>"
     /\ TradingBotCLI.handle_sell_limit args st
        = refused "❌ Usage: sell_limit <symbol> <quantity> <price>")
    /\ ((3 <= length args)%nat ->
        TradingBotCLI.quantity_and_price args = None ->
        TradingBotCLI.handle_buy_limit args st
        = refused "❌ Invalid quantity or price. Please enter numbers."
        /\ TradingBotCLI.handle_sell_limit args st
           = refused "❌ Invalid quantity or price. Please enter numbers.")
    /\ (forall q p : float,
          (3 <= length args)%nat ->
          TradingBotCLI.quantity_and_price args = Some (q, p) ->
          let sym := PyStr.upper (nth 0 args "") in
          let verdict (side : string) (out : result unit * State) : Prop :=
            fst out = Ok tt
            /\ match fst (TradingBot.validate_symbol sym st) with
               | Ok true =>
                   requests (sys (snd out))
                   = (requests (sys st)
                        ++ [futures_exchange_info;
                            futures_create_order
                              (limit_kwargs sym side q p "GTC" false)])%list
               | _ =>
                   requests (sys (snd out))
                   = (requests (sys st) ++ [futures_exchange_info])%list
                   /\ self (snd out) = self st
                   /\ stdout (sys (snd out))
                      = (stdout (sys st) ++ [TradingBotCLI.invalid_symbol sym])%list
               end in
          verdict "BUY" (TradingBotCLI.handle_buy_limit args st)
          /\ verdict "SELL" (TradingBotCLI.handle_sell_limit args st)).
Proof.
  intros args st _. cbn zeta.
  unfold TradingBotCLI.handle_buy_limit, TradingBotCLI.handle_sell_limit.
  split; [| split].
  - intros H. apply Nat.ltb_lt in H. rewrite H. destruct st as [b s]. split; reflexivity.
  - intros H Hq. destruct (length args <? 3)%nat eqn:E; [apply Nat.ltb_lt in E; lia |].
    rewrite Hq. destruct st as [b s]. split; reflexivity.
  - intros q p H Hq. destruct (length args <? 3)%nat eqn:E; [apply Nat.ltb_lt in E; lia |].
    rewrite Hq. split.
    + apply (validate_then_order (PyStr.upper (nth 0 args "")) _ _ st
               (place_limit_order_mute_counts (PyStr.upper (nth 0 args "")) "BUY" q p)
               (nr_limit_then_ret (PyStr.upper (nth 0 args "")) "BUY" q p)).
    + apply (validate_then_order (PyStr.upper (nth 0 args "")) _ _ st
               (place_limit_order_mute_counts (PyStr.upper (nth 0 args "")) "SELL" q p)
               (nr_limit_then_ret (PyStr.upper (nth 0 args "")) "SELL" q p)).
Qed.

(** A limit order typed with a price that is no number, and one typed
    without a price. *)
Lemma limit_handlers_validate_first_witness :
  TradingBotCLI.handle_buy_limit ["BTCUSDT"; "0.5"; "cheap"] (fresh [])
  = (Ok tt, mkState (mkBot false 0 0 0)
              (printed [[Txt (Fore.RED
                              ++ "❌ Invalid quantity or price. Please enter numbers.")]]
                       (boot [])))
  /\ TradingBotCLI.handle_sell_limit ["BTCUSDT"; "0.5"] (fresh [])
     = (Ok tt, mkState (mkBot false 0 0 0)
                 (printed [[Txt (Fore.RED
                                 ++ "❌ Usage: sell_limit <symbol> <quantity> <price>")]]
                          (boot []))).
Proof.
  split.
  - exact (proj1 (proj1 (proj2 (limit_handlers_validate_first
                                  ["BTCUSDT"; "0.5"; "cheap"] (fresh [])
                                  ltac:(repeat constructor)))
                    ltac:(cbn; lia) eq_refl)).
  - exact (proj2 (proj1 (limit_handlers_validate_first ["BTCUSDT"; "0.5"] (fresh [])
                           ltac:(repeat constructor))
                    ltac:(cbn; lia))).
Defined.

Lemma get_order_history_run :
  forall symbol limit cfg rem reqs so lg,
    exists lg',
      BinanceFuturesClient.get_order_history symbol limit (mkSys cfg rem reqs so lg)
      = (rem (reqs ++ [futures_get_all_orders symbol limit])%list,
         mkSys cfg rem (reqs ++ [futures_get_all_orders symbol limit])%list so lg').
Proof.
  intros. unfold BinanceFuturesClient.get_order_history. run.
  destruct (rem _); eexists; reflexivity.
Qed.

Lemma get_current_price_run :
  forall symbol cfg rem reqs so lg,
    exists lg',
      snd (BinanceFuturesClient.get_current_price symbol (mkSys cfg rem reqs so lg))
      = mkSys cfg rem (reqs ++ [futures_symbol_ticker symbol])%list so lg'.
Proof.
  intros. unfold BinanceFuturesClient.get_current_price. run.
  destruct (rem _) as [ticker | e]; run; [| eexists; reflexivity].
  destruct (py_getitem ticker "price") as [price | e]; run; [| eexists; reflexivity].
  destruct (py_float price); eexists; reflexivity.
Qed.

(** X14.  [cancel], its arguments ASCII text, needs a symbol and an order
    id that is an integer: with fewer than two arguments, or an id that
    [int] does not read (one of more than 4300 digits among them), the
    handler writes one line, sends nothing and changes nothing else.
    Otherwise it sends one cancellation, for the symbol in upper case and
    that id, without validating the symbol first; it returns whatever the
    exchange does, and leaves the bot as it was. *)
Theorem cancel_handler_checks_arguments :
  forall (args : list string) (st : State),
    Forall (fun a => PyStr.is_ascii a = true) args ->
    let refused (line : string) : result unit * State :=
      (Ok tt, mkState (self st) (printed [[Txt (Fore.RED ++ line)]] (sys st))) in
    ((length args < 2)%nat ->
     TradingBotCLI.handle_cancel args st = refused "❌ Usage: cancel <symbol> <order_id>")
    /\ ((2 <= length args)%nat ->
        int_of_string (nth 1 args "") = None ->
        TradingBotCLI.handle_cancel args st
        = refused "❌ Invalid order ID. Please enter a number.")
    /\ (forall order_id : Z,
          (2 <= length args)%nat ->
          int_of_string (nth 1 args "") = Some order_id ->
          let out := TradingBotCLI.handle_cancel args st in
          fst out = Ok tt
          /\ self (snd out) = self st
          /\ requests (sys (snd out))
             = (requests (sys st)
                  ++ [futures_cancel_order (PyStr.upper (nth 0 args "")) order_id])%list).
Proof.
  intros args st _. cbn zeta. unfold TradingBotCLI.handle_cancel.
  split; [| split].
  - intros H. apply Nat.ltb_lt in H. rewrite H. destruct st as [b s]. reflexivity.
  - intros H Hid. destruct (length args <? 2)%nat eqn:E; [apply Nat.ltb_lt in E; lia |].
    rewrite Hid. destruct st as [b s]. reflexivity.
  - intros order_id H Hid.
    destruct (length args <? 2)%nat eqn:E; [apply Nat.ltb_lt in E; lia |].
    rewrite Hid.
    split; [| split].
    + destruct (nr_bind (TradingBot.cancel_order (PyStr.upper (nth 0 args "")) order_id)
                  (fun _ => ret tt) (nr_cancel_order _ _) (fun _ => nr_ret tt) st)
        as [[] Ha].
      exact Ha.
    + symmetry.
      refine (respects_bind eq _ _ _ _ st);
        [apply cancel_order_frame; exact _ | intros _; apply respects_ret; exact _].
    + apply emits_bind_r; [apply emits_cancel_order | intros _; apply emits_ret].
Qed.

(** [cancel btcusdt 12x]: the id is no integer. *)
Lemma cancel_handler_checks_arguments_witness :
  TradingBotCLI.handle_cancel ["btcusdt"; "12x"] (fresh [])
  = (Ok tt, mkState (mkBot false 0 0 0)
              (printed [[Txt (Fore.RED ++ "❌ Invalid order ID. Please enter a number.")]]
                       (boot []))).
Proof.
  exact (proj1 (proj2 (cancel_handler_checks_arguments ["btcusdt"; "12x"] (fresh [])
                         ltac:(repeat constructor)))
           ltac:(cbn; lia) eq_refl).
Defined.

(** X15.  [price] without a symbol writes how it is used and sends nothing.
    With a symbol, ASCII text, it asks for the ticker of that symbol in
    upper case, once, and writes one line: the price, or, when the exchange
    raises or its answer has no price that [float] reads, the error (the
    price of the answer being a number or ASCII text).  It never raises and
    leaves the bot as it was. *)
Theorem price_handler_reports :
  forall (st : State),
    TradingBotCLI.handle_price [] st
    = (Ok tt, mkState (self st)
                (printed [[Txt (Fore.RED
                                ++ "❌ Please provide a symbol. Usage: price <symbol>")]]
                         (sys st)))
    /\ forall (symbol : string) (more : list string),
        let sym := PyStr.upper symbol in
        let out := TradingBotCLI.handle_price (symbol :: more) st in
        PyStr.is_ascii symbol = true ->
        ascii_price (remote (sys st) (requests (sys st) ++ [futures_symbol_ticker sym])%list) ->
        fst out = Ok tt
        /\ requests (sys (snd out)) = (requests (sys st) ++ [futures_symbol_ticker sym])%list
        /\ writes (TradingBotCLI.handle_price (symbol :: more)) st
             [match fst (BinanceFuturesClient.get_current_price sym (sys st)) with
              | Ok price =>
                  [Txt (Fore.GREEN ++ "💰 Current price of "); Fmt (PStr sym);
                   Txt ": "; Fmt (PFloat price); Txt " USDT"]
              | Raise e =>
                  [Txt (Fore.RED ++ "❌ Error getting price for "); Fmt (PStr sym);
                   Txt ": "; FmtExc e]
              end].
Proof.
  intros [b [cfg rem reqs so lg]]. split; [reflexivity |].
  intros symbol more. cbn zeta. intros _ _. unfold writes.
  unfold TradingBotCLI.handle_price, TradingBot.get_current_price.
  destruct (get_current_price_run (PyStr.upper symbol) cfg rem reqs so lg) as [lg' E].
  run.
  destruct (BinanceFuturesClient.get_current_price (PyStr.upper symbol) _)
    as [[price | e] s1]; run; cbn [snd] in E; subst s1; auto.
Qed.

(** [price btcusdt] typed at a bot whose exchange knows the price. *)
Lemma price_handler_reports_witness :
  stdout (sys (snd (TradingBotCLI.handle_price ["btcusdt"]
                      (fresh [Ok (PDict [("symbol", PStr "BTCUSDT");
                                         ("price", PStr "43250.50")])]))))
  = [[Txt (Fore.GREEN ++ "💰 Current price of "); Fmt (PStr "BTCUSDT");
      Txt ": "; Fmt (PFloat 43250.5%float); Txt " USDT"]].
Proof.
  exact (proj2 (proj2 (proj2 (proj2 (price_handler_reports
                                       (fresh [Ok (PDict [("symbol", PStr "BTCUSDT");
                                                          ("price", PStr "43250.50")])]))
                                "btcusdt" [] eq_refl ltac:(price_is_ascii))))).
Defined.

Lemma printed_printed :
  forall a b s, printed b (printed a s) = printed (a ++ b) s.
Proof. intros a b [cfg rem reqs so lg]. unfold printed. cbn. rewrite app_assoc. reflexivity. Qed.

Lemma printed_nil : forall s, printed [] s = s.
Proof. intros [cfg rem reqs so lg]. unfold printed. cbn. rewrite app_nil_r. reflexivity. Qed.

(** A row of the history is one line, or none when a field is missing. *)
Lemma history_row_run :
  forall order st,
    exists added,
      snd (TradingBotCLI.history_row order st) = mkState (self st) (printed added (sys st))
      /\ match fst (TradingBotCLI.history_row order st) with
         | Ok _ => (length added <= 1)%nat
         | Raise _ => added = []
         end.
Proof.
  intros order [b s]. unfold TradingBotCLI.history_row.
  assert (N : exists added : list text,
             mkState b s = mkState b (printed added s) /\ added = []).
  { exists []. rewrite printed_nil. auto. }
  run.
  destruct (py_getitem order "orderId"); [| exact N].
  destruct (py_getitem order "side"); [| exact N].
  destruct (py_getitem order "type"); [| exact N].
  destruct (py_getitem order "origQty"); [| exact N].
  destruct (py_get order "price" (PStr "Market")); [| exact N].
  destruct (py_getitem order "status"); [| exact N].
  destruct (py_getitem order "time"); [| exact N].
  destruct s as [cfg rem reqs so lg]. eexists [_]. split; [reflexivity | cbn; lia].
Qed.

Lemma history_rows_run :
  forall items st,
    exists added,
      snd (for_each items TradingBotCLI.history_row st)
      = mkState (self st) (printed added (sys st))
      /\ match fst (for_each items TradingBotCLI.history_row st) with
         | Ok _ => (length added <= length items)%nat
         | Raise _ => (length added < length items)%nat
         end.
Proof.
  induction items as [| order items IH]; intros st.
  - exists []. rewrite printed_nil. destruct st. cbn. auto.
  - cbn [for_each]. unfold bind.
    destruct (history_row_run order st) as (a1 & H1 & L1).
    destruct (TradingBotCLI.history_row order st) as [[[] | e] st1]; cbn [fst snd] in *.
    + destruct (IH st1) as (a2 & H2 & L2). subst st1. cbn [self sys] in H2.
      exists (a1 ++ a2)%list. rewrite H2, printed_printed. split; [reflexivity |].
      rewrite length_app. destruct (fst _); cbn [length]; lia.
    + exists a1. split; [exact H1 |]. subst a1. cbn. lia.
Qed.

Lemma last10_length :
  forall orders recent items,
    py_last10 orders = Ok recent -> py_iter recent = Ok items -> (length items <= 10)%nat.
Proof.
  intros orders recent items H1 H2.
  destruct orders as [| v | v | v | s | l | d]; cbn in H1; try discriminate H1;
    injection H1 as <-; cbn in H2; injection H2 as <-.
  - assert (L : forall t, length (chars t) = String.length t).
    { induction t; cbn; auto. }
    assert (L1 : forall l, String.length (string_of_list_ascii l) = length l).
    { induction l; cbn; auto. }
    assert (L2 : forall t, length (list_ascii_of_string t) = String.length t).
    { induction t; cbn; auto. }
    rewrite L, L1, length_skipn, L2. lia.
  - rewrite length_skipn. lia.
Qed.

(** Evaluates the monad and leaves the loops as they are. *)
Ltac run_outside_loops :=
  cbv beta iota zeta delta
    [ret raise bind try_except lift print io fst snd self sys config remote requests
     stdout logs].

(** A row of the history of an order that has its fields. *)
Lemma history_row_complete :
  forall d st,
    has_history_fields d = true ->
    TradingBotCLI.history_row (PDict d) st
    = (Ok tt, mkState (self st) (printed [history_line d] (sys st))).
Proof.
  intros d [b [cfg rem reqs so lg]] H. unfold has_history_fields in H.
  cbn [forallb] in H. unfold TradingBotCLI.history_row, history_line, field.
  cbn [py_getitem py_get]. run.
  repeat match type of H with
         | (match assoc ?k d with _ => _ end && _)%bool = true =>
             destruct (assoc k d); [cbn [andb] in H | discriminate H]
         end.
  run. destruct (assoc "price" d); reflexivity.
Qed.

Lemma history_rows_complete :
  forall ds st,
    Forall (fun d => has_history_fields d = true) ds ->
    for_each (map PDict ds) TradingBotCLI.history_row st
    = (Ok tt, mkState (self st) (printed (map history_line ds) (sys st))).
Proof.
  induction ds as [| d ds IH]; intros st H.
  - cbn. rewrite printed_nil. destruct st. reflexivity.
  - inversion H as [| ? ? Hd Hds]; subst.
    cbn [map for_each]. unfold bind. rewrite (history_row_complete d st Hd).
    rewrite (IH _ Hds). cbn [self sys]. rewrite printed_printed. reflexivity.
Qed.

(** X16.  [history] without a symbol writes how it is used and sends
    nothing.  With a symbol, ASCII text, it asks once for the orders of that
    symbol in upper case, twenty at most, and shows the last ten of the
    answer: when the answer is a list that is not empty and each of its last
    ten orders has the fields shown, it writes two lines of heading and then
    one line for each of these, in their order, and nothing for the orders
    before them.  It writes no more than twelve lines in any case; when the
    exchange raises, it writes the error; when the answer is empty, one line
    that says so.  It never raises and leaves the bot as it was. *)
Theorem history_handler_shows_last_ten :
  forall (st : State),
    TradingBotCLI.handle_history [] st
    = (Ok tt, mkState (self st)
                (printed [[Txt (Fore.RED
                                ++ "❌ Please provide a symbol. Usage: history <symbol>")]]
                         (sys st)))
    /\ forall (symbol : string) (more : list string),
        let sym := PyStr.upper symbol in
        let sent := futures_get_all_orders sym 20 in
        let out := TradingBotCLI.handle_history (symbol :: more) st in
        PyStr.is_ascii symbol = true ->
        fst out = Ok tt
        /\ requests (sys (snd out)) = (requests (sys st) ++ [sent])%list
        /\ (exists lines : list text,
              writes (TradingBotCLI.handle_history (symbol :: more)) st lines
              /\ (length lines <= 12)%nat
              /\ match remote (sys st) (requests (sys st) ++ [sent])%list with
                 | Ok orders =>
                     py_truthy orders = false ->
                     lines = [[Txt "No order history found for "; Fmt (PStr sym)]]
                 | Raise e =>
                     lines = [[Txt (Fore.RED ++ "❌ Error getting order history: ");
                               FmtExc e]]
                 end)
        /\ (forall (orders : list PyVal) (shown : list (list (string * PyVal))),
              remote (sys st) (requests (sys st) ++ [sent])%list = Ok (PList orders) ->
              orders <> [] ->
              last_ten orders = map PDict shown ->
              Forall (fun d => has_history_fields d = true) shown ->
              writes (TradingBotCLI.handle_history (symbol :: more)) st
                ([Txt (nl ++ Fore.GREEN ++ "Order History for "); Fmt (PStr sym); Txt ":"]
                   :: [Txt (rep "-" 80)]
                   :: map history_line shown)).
Proof.
  intros [b [cfg rem reqs so lg]]. split; [reflexivity |].
  intros symbol more. cbn zeta. intros _. unfold writes.
  unfold TradingBotCLI.handle_history.
  destruct (get_order_history_run (PyStr.upper symbol) 20 cfg rem reqs so lg) as [lg' E].
  run_outside_loops. rewrite E. clear E.
  destruct (rem _) as [orders | e]; run_outside_loops.
  - destruct (py_truthy orders) eqn:T; cbn [negb]; run_outside_loops.
    + destruct (py_last10 orders) as [recent | e] eqn:R; run_outside_loops.
      * destruct (py_iter recent) as [items | e] eqn:I; run_outside_loops.
        -- pose proof (last10_length orders recent items R I) as L.
           assert (S : forall l shown,
                      Ok orders = Ok (PList l) -> last_ten l = map PDict shown ->
                      items = map PDict shown).
           { intros l shown Hl Hs. injection Hl as ->. cbn in R. injection R as <-.
             cbn in I. injection I as <-. exact Hs. }
           match goal with
           | |- context [for_each items TradingBotCLI.history_row ?st] =>
               pose proof (fun shown H => history_rows_complete shown st H) as C;
               destruct (history_rows_run items st) as (added & Hs & Hl);
               destruct (for_each items TradingBotCLI.history_row st)
                 as [[[] | e] st2] eqn:F
           end; cbn [fst snd self sys] in Hs, Hl; subst st2; unfold printed;
             run_outside_loops.
           ++ split; [reflexivity |]. split; [reflexivity |]. split.
              ** eexists. rewrite <- !app_assoc.
                 repeat split; [| discriminate].
                 rewrite !length_app. cbn [length]. lia.
              ** intros l shown Hr _ Hsh Hc. rewrite (S l shown Hr Hsh) in F.
                 rewrite (C shown Hc) in F. injection F as F.
                 unfold printed in F. cbn [stdout] in F.
                 rewrite <- !app_assoc in F. apply app_inv_head in F.
                 cbn [app] in F. injection F as F. subst added.
                 rewrite <- !app_assoc. auto.
           ++ split; [reflexivity |]. split; [reflexivity |]. split.
              ** eexists. rewrite <- !app_assoc.
                 repeat split; [| discriminate].
                 rewrite !length_app. cbn [length]. lia.
              ** intros l shown Hr _ Hsh Hc. rewrite (S l shown Hr Hsh) in F.
                 rewrite (C shown Hc) in F. discriminate F.
        -- split; [reflexivity |]. split; [reflexivity |]. split.
           ++ eexists. rewrite <- !app_assoc.
              repeat split; [cbn; lia | discriminate].
           ++ intros l shown Hr _ _ _. injection Hr as ->. cbn in R. injection R as <-.
              discriminate I.
      * split; [reflexivity |]. split; [reflexivity |]. split.
        -- eexists. rewrite <- !app_assoc.
           repeat split; [cbn; lia | discriminate].
        -- intros l shown Hr _ _ _. injection Hr as ->. discriminate R.
    + split; [reflexivity |]. split; [reflexivity |]. split.
      * eexists. repeat split; cbn; lia.
      * intros l shown Hr Hne _ _. injection Hr as ->. destruct l; [contradiction |].
        discriminate T.
  - split; [reflexivity |]. split; [reflexivity |]. split.
    + eexists. repeat split. cbn. lia.
    + intros l shown Hr. discriminate Hr.
Qed.

(** Eleven orders come back: the first is not shown. *)
Lemma history_handler_shows_last_ten_witness :
  let fields (id : Z) : list (string * PyVal) :=
    [("orderId", PInt id); ("side", PStr "BUY"); ("type", PStr "LIMIT");
     ("origQty", PStr "0.5"); ("price", PStr "100"); ("status", PStr "FILLED");
     ("time", PInt (1700000000 + id))] in
  let ids := [1; 2; 3; 4; 5; 6; 7; 8; 9; 10; 11] in
  stdout (sys (snd (TradingBotCLI.handle_history ["btcusdt"]
                      (fresh [Ok (PList (map (fun id => PDict (fields id)) ids))]))))
  = [Txt (nl ++ Fore.GREEN ++ "Order History for "); Fmt (PStr "BTCUSDT"); Txt ":"]
      :: [Txt (rep "-" 80)]
      :: map (fun id => history_line (fields id)) (tl ids).
Proof.
  cbv zeta.
  exact (proj2 (proj2 (proj2 (proj2 (proj2 (history_handler_shows_last_ten
    (fresh [Ok (PList (map (fun id => PDict
      [("orderId", PInt id); ("side", PStr "BUY"); ("type", PStr "LIMIT");
       ("origQty", PStr "0.5"); ("price", PStr "100"); ("status", PStr "FILLED");
       ("time", PInt (1700000000 + id))]) [1; 2; 3; 4; 5; 6; 7; 8; 9; 10; 11]))]))
    "btcusdt" [] eq_refl)))
    (map (fun id => PDict
      [("orderId", PInt id); ("side", PStr "BUY"); ("type", PStr "LIMIT");
       ("origQty", PStr "0.5"); ("price", PStr "100"); ("status", PStr "FILLED");
       ("time", PInt (1700000000 + id))]) [1; 2; 3; 4; 5; 6; 7; 8; 9; 10; 11])
    (map (fun id =>
      [("orderId", PInt id); ("side", PStr "BUY"); ("type", PStr "LIMIT");
       ("origQty", PStr "0.5"); ("price", PStr "100"); ("status", PStr "FILLED");
       ("time", PInt (1700000000 + id))]) [2; 3; 4; 5; 6; 7; 8; 9; 10; 11])
    eq_refl ltac:(discriminate) eq_refl ltac:(repeat constructor))).
Defined.

Lemma rows_of_4_partition :
  forall (A : Type) (n : nat) (l : list A),
    (length l <= n)%nat ->
    concat (TradingBotCLI.rows_of_4 l) = l
    /\ Forall (fun row => (1 <= length row <= 4)%nat) (TradingBotCLI.rows_of_4 l)
    /\ length (TradingBotCLI.rows_of_4 l) = ((length l + 3) / 4)%nat.
Proof.
  intros A n. induction n as [n IH] using lt_wf_ind. intros l Hn.
  destruct l as [| a [| b [| c [| d r]]]]; cbn [TradingBotCLI.rows_of_4].
  - split; [reflexivity | split; [constructor | reflexivity]].
  - split; [reflexivity | split; [| reflexivity]].
    constructor; [cbn; lia | constructor].
  - split; [reflexivity | split; [| reflexivity]].
    constructor; [cbn; lia | constructor].
  - split; [reflexivity | split; [| reflexivity]].
    constructor; [cbn; lia | constructor].
  - cbn [length] in Hn.
    destruct (IH (length r) ltac:(lia) r (le_n _)) as (H1 & H2 & H3).
    split; [| split].
    + cbn [concat app]. rewrite H1. reflexivity.
    + constructor; [cbn; lia | exact H2].
    + cbn [length]. rewrite H3.
      replace (S (S (S (S (length r)))) + 3)%nat with (length r + 3 + 1 * 4)%nat by lia.
      rewrite Nat.div_add by lia. lia.
Qed.

(** X17.  [symbols] asks the exchange for its listing, once; it never
    raises and leaves the bot as it was.  The symbols are written four to a
    row in the order of the listing: cutting a list into rows loses and
    reorders nothing, no row is empty or longer than four, and [n] symbols
    take [n / 4] rows, rounded up. *)
Theorem symbols_handler_rows :
  forall (args : list string) (st : State),
    let out := TradingBotCLI.handle_symbols args st in
    fst out = Ok tt
    /\ self (snd out) = self st
    /\ requests (sys (snd out)) = (requests (sys st) ++ [futures_exchange_info])%list
    /\ forall symbols : list PyVal,
        concat (TradingBotCLI.rows_of_4 symbols) = symbols
        /\ Forall (fun row => (1 <= length row <= 4)%nat) (TradingBotCLI.rows_of_4 symbols)
        /\ length (TradingBotCLI.rows_of_4 symbols) = ((length symbols + 3) / 4)%nat.
Proof.
  intros args st. cbn zeta. split; [| split; [| split]].
  - assert (N : never_raises (TradingBotCLI.handle_symbols args)).
    { unfold TradingBotCLI.handle_symbols. safe. }
    destruct (N st) as [[] H]. exact H.
  - symmetry. revert st. change (respects eq (TradingBotCLI.handle_symbols args)).
    unfold TradingBotCLI.handle_symbols. frame.
  - revert st.
    assert (E : emits [futures_exchange_info] (TradingBotCLI.handle_symbols args)).
    { unfold TradingBotCLI.handle_symbols.
      apply emits_try_except; [| quiet].
      apply emits_bind_r; [apply emits_io, calls_call | quiet]. }
    intros st. apply E.
  - intros symbols. apply (rows_of_4_partition PyVal (length symbols)). apply le_n.
Qed.

(** ** Reading a command line *)

Lemma split_lstrip : forall s, PyStr.split (PyStr.lstrip s) = PyStr.split s.
Proof.
  induction s as [| c r IH]; [reflexivity |].
  cbn [PyStr.lstrip]. destruct (PyStr.is_space c) eqn:Sc; [| reflexivity].
  rewrite IH. cbn [PyStr.split]. rewrite Sc. reflexivity.
Qed.

Lemma rstrip_head :
  forall c r, PyStr.rstrip (String c r) = EmptyString
              \/ exists r', PyStr.rstrip (String c r) = String c r'.
Proof.
  intros c r. cbn [PyStr.rstrip].
  destruct (PyStr.rstrip r); [destruct (PyStr.is_space c) |]; eauto.
Qed.

Lemma split_rstrip : forall s, PyStr.split (PyStr.rstrip s) = PyStr.split s.
Proof.
  induction s as [| c r IH]; [reflexivity |].
  cbn [PyStr.rstrip].
  destruct (PyStr.rstrip r) as [| d r'] eqn:E.
  - cbn [PyStr.split] in IH.
    destruct (PyStr.is_space c) eqn:Sc.
    + cbn [PyStr.split]. rewrite Sc. exact IH.
    + cbn [PyStr.split]. rewrite Sc.
      destruct r as [| c' r0]; [reflexivity |].
      rewrite <- IH. destruct (PyStr.is_space c'); reflexivity.
  - destruct r as [| c' r0]; [discriminate E |].
    destruct (rstrip_head c' r0) as [H | [r1 H]]; rewrite H in E; [discriminate E |].
    injection E as <- <-.
    cbn [PyStr.split] in *. destruct (PyStr.is_space c); [exact IH |].
    destruct (PyStr.is_space c'); rewrite IH; reflexivity.
Qed.

Lemma split_strip : forall s, PyStr.split (PyStr.strip s) = PyStr.split s.
Proof. intros s. unfold PyStr.strip. rewrite split_rstrip. apply split_lstrip. Qed.

Lemma split_word : forall t, word t -> PyStr.split t = [t].
Proof.
  intros t [Hne Hs]. induction t as [| c t IH]; [contradiction |].
  cbn [no_space] in Hs. apply andb_prop in Hs. destruct Hs as [Hc Ht].
  apply negb_true_iff in Hc. cbn [PyStr.split]. rewrite Hc.
  destruct t as [| c' t']; [reflexivity |].
  pose proof Ht as Ht'. cbn [no_space] in Ht'. apply andb_prop in Ht'.
  destruct Ht' as [Hc' _]. apply negb_true_iff in Hc'. rewrite Hc'.
  rewrite IH; [reflexivity | discriminate | exact Ht].
Qed.

Lemma split_word_space :
  forall t r, word t -> PyStr.split (t ++ String " " r) = t :: PyStr.split r.
Proof.
  intros t r [Hne Hs]. induction t as [| c t IH]; [contradiction |].
  cbn [no_space] in Hs. apply andb_prop in Hs. destruct Hs as [Hc Ht].
  apply negb_true_iff in Hc. cbn [String.append PyStr.split]. rewrite Hc.
  destruct t as [| c' t'].
  - cbn [String.append]. reflexivity.
  - pose proof Ht as Ht'. cbn [no_space] in Ht'. apply andb_prop in Ht'.
    destruct Ht' as [Hc' _]. apply negb_true_iff in Hc'.
    cbn [String.append] in *. rewrite Hc'.
    rewrite IH; [reflexivity | discriminate | exact Ht].
Qed.

Lemma split_words :
  forall ts, Forall word ts -> PyStr.split (String.concat " " ts) = ts.
Proof.
  induction 1 as [| t ts Ht Hts IH]; [reflexivity |].
  destruct ts as [| t' ts'].
  - apply split_word, Ht.
  - change (String.concat " " (t :: t' :: ts'))
      with (t ++ String " " (String.concat " " (t' :: ts'))).
    rewrite split_word_space by exact Ht. rewrite IH. reflexivity.
Qed.

Lemma split_gives_words : forall s, Forall word (PyStr.split s).
Proof.
  induction s as [| c r IH]; [constructor |].
  cbn [PyStr.split]. destruct (PyStr.is_space c) eqn:Sc; [exact IH |].
  assert (W : word (String c EmptyString)).
  { split; [discriminate | cbn; rewrite Sc; reflexivity]. }
  destruct r as [| c' r0]; [constructor; [exact W | constructor] |].
  destruct (PyStr.is_space c') eqn:Sc'; [constructor; [exact W | exact IH] |].
  destruct (PyStr.split (String c' r0)) as [| t ts]; [constructor; [exact W | constructor] |].
  inversion IH as [| ? ? [Hne Ht] Hts]; subst.
  constructor; [| exact Hts].
  split; [discriminate | cbn [no_space]; rewrite Sc, Ht; reflexivity].
Qed.

Lemma lstrip_ascii :
  forall s, PyStr.is_ascii s = true -> PyStr.is_ascii (PyStr.lstrip s) = true.
Proof.
  induction s as [| c r IH]; intros H; [reflexivity |].
  cbn [PyStr.lstrip]. destruct (PyStr.is_space c); [| exact H].
  cbn [PyStr.is_ascii] in H. apply andb_prop in H. apply IH, H.
Qed.

Lemma rstrip_ascii :
  forall s, PyStr.is_ascii s = true -> PyStr.is_ascii (PyStr.rstrip s) = true.
Proof.
  induction s as [| c r IH]; intros H; [reflexivity |].
  cbn [PyStr.is_ascii] in H. apply andb_prop in H. destruct H as [Hc Hr].
  specialize (IH Hr). cbn [PyStr.rstrip].
  destruct (PyStr.rstrip r) as [| d r'].
  - destruct (PyStr.is_space c); [reflexivity |].
    cbn [PyStr.is_ascii]. rewrite Hc. reflexivity.
  - cbn [PyStr.is_ascii] in *. rewrite Hc. exact IH.
Qed.

Lemma lower_char_ascii :
  forall c, PyStr.is_ascii_char c = true -> PyStr.is_ascii_char (PyStr.lower_char c) = true.
Proof.
  intros c. destruct c as [[] [] [] [] [] [] [] []]; intros H;
    first [discriminate H | vm_compute; reflexivity].
Qed.

Lemma lower_ascii :
  forall s, PyStr.is_ascii s = true -> PyStr.is_ascii (PyStr.lower s) = true.
Proof.
  induction s as [| c r IH]; intros H; [reflexivity |].
  cbn [PyStr.is_ascii] in H. apply andb_prop in H. destruct H as [Hc Hr].
  change (PyStr.lower (String c r)) with (String (PyStr.lower_char c) (PyStr.lower r)).
  cbn [PyStr.is_ascii]. rewrite (lower_char_ascii c Hc). apply IH, Hr.
Qed.

Lemma split_ascii :
  forall s,
    PyStr.is_ascii s = true -> Forall (fun w => PyStr.is_ascii w = true) (PyStr.split s).
Proof.
  induction s as [| c r IH]; intros H; [constructor |].
  cbn [PyStr.is_ascii] in H. apply andb_prop in H. destruct H as [Hc Hr].
  specialize (IH Hr). cbn [PyStr.split].
  destruct (PyStr.is_space c); [exact IH |].
  assert (W : PyStr.is_ascii (String c EmptyString) = true).
  { cbn [PyStr.is_ascii]. rewrite Hc. reflexivity. }
  destruct r as [| c' r0]; [constructor; [exact W | constructor] |].
  destruct (PyStr.is_space c'); [constructor; [exact W | exact IH] |].
  destruct (PyStr.split (String c' r0)) as [| t ts]; [constructor; [exact W | constructor] |].
  inversion IH as [| ? ? Ht Hts]; subst.
  constructor; [| exact Hts].
  cbn [PyStr.is_ascii]. rewrite Hc. exact Ht.
Qed.

(** X18.  [parse_command] reads a line of ASCII text as words separated by
    blanks: the first, in lower case, is the command, the others are the
    arguments as they were typed.  Words joined by single blanks are read
    back as they were, whatever blanks surround the line; every argument
    read is a word, not empty and without a blank, and the command and the
    arguments read are ASCII text, as the line is. *)
Theorem parse_command_reads_words :
  forall (typed : string),
    PyStr.is_ascii typed = true ->
    TradingBotCLI.parse_command (PyStr.strip typed) = TradingBotCLI.parse_command typed
    /\ Forall (fun w => word w /\ PyStr.is_ascii w = true)
              (snd (TradingBotCLI.parse_command typed))
    /\ match fst (TradingBotCLI.parse_command typed) with
       | Some cmd => PyStr.is_ascii cmd = true
       | None => True
       end
    /\ forall (cmd : string) (args : list string),
        Forall (fun w => PyStr.is_ascii w = true) (cmd :: args) ->
        word cmd -> Forall word args ->
        TradingBotCLI.parse_command (String.concat " " (cmd :: args))
        = (Some (PyStr.lower cmd), args).
Proof.
  intros typed A. unfold TradingBotCLI.parse_command. split; [| split; [| split]].
  - rewrite !split_strip. reflexivity.
  - rewrite split_strip. pose proof (split_gives_words typed) as H.
    pose proof (split_ascii typed A) as H'.
    destruct (PyStr.split typed) as [| cmd args]; [constructor |].
    inversion H as [| ? ? _ Hw]; inversion H' as [| ? ? _ Ha]; subst. cbn [snd].
    clear - Hw Ha. induction Hw as [| w ws Hw _ IH]; [constructor |].
    inversion Ha; subst. constructor; [split; assumption | apply IH; assumption].
  - rewrite split_strip. pose proof (split_ascii typed A) as H'.
    destruct (PyStr.split typed) as [| cmd args]; [exact I |].
    inversion H'; subst. cbn [fst]. apply lower_ascii. assumption.
  - intros cmd args _ Hc Ha. rewrite split_strip, split_words; [reflexivity |].
    constructor; assumption.
Qed.

(** A line with blanks around and a command in capitals. *)
Lemma parse_command_reads_words_witness :
  TradingBotCLI.parse_command (PyStr.strip "  Buy_Market btcusdt 0.5 ")
  = TradingBotCLI.parse_command "  Buy_Market btcusdt 0.5 "
  /\ TradingBotCLI.parse_command "Buy_Market btcusdt 0.5"
     = (Some "buy_market", ["btcusdt"; "0.5"]).
Proof.
  split.
  - exact (proj1 (parse_command_reads_words "  Buy_Market btcusdt 0.5 " eq_refl)).
  - exact (proj2 (proj2 (proj2 (parse_command_reads_words "" eq_refl)))
             "Buy_Market" ["btcusdt"; "0.5"]
             ltac:(repeat constructor)
             ltac:(split; [discriminate | reflexivity])
             ltac:(repeat constructor; discriminate)).
Defined.

(** ** One line of the session *)

Lemma parse_command_strip :
  forall typed,
    TradingBotCLI.parse_command (PyStr.strip typed) = TradingBotCLI.parse_command typed.
Proof. intros. unfold TradingBotCLI.parse_command. rewrite !split_strip. reflexivity. Qed.

Lemma parse_command_blank :
  forall typed,
    PyStr.strip typed = "" -> TradingBotCLI.parse_command typed = (None, []).
Proof. intros typed E. unfold TradingBotCLI.parse_command. rewrite E. reflexivity. Qed.

(** A line whose first word is not [quit] or [exit] is dispatched, and
    whatever the handler raises is reported and logged. *)
Lemma handle_line_dispatches :
  forall typed cmd args st,
    TradingBotCLI.parse_command typed = (Some cmd, args) ->
    String.eqb cmd "quit" || String.eqb cmd "exit" = false ->
    TradingBotCLI.handle_line typed st
    = try_except
        (TradingBotCLI.dispatch cmd args ;;; ret false)
        (fun e =>
           io (print [Txt (Fore.RED ++ "❌ Unexpected error: "); FmtExc e]) ;;;
           io (log TradingBotCLI.logger ERROR [Txt "CLI error: "; FmtExc e]) ;;;
           ret false) st.
Proof.
  intros typed cmd args st P Q. unfold TradingBotCLI.handle_line. cbv zeta.
  destruct (String.eqb (PyStr.strip typed) "") eqn:E.
  - apply String.eqb_eq, parse_command_blank in E. rewrite E in P. discriminate P.
  - rewrite parse_command_strip, P, Q. reflexivity.
Qed.

(** X19.  One line of the session, ASCII text, never raises.  It ends the
    session exactly when its first word, in any case, is [quit] or [exit],
    and then it only says goodbye; a blank line does nothing at all; after
    any other line the session goes on, whatever the handler of the command
    did or raised. *)
Theorem handle_line_leaves_on_quit :
  forall (typed : string) (st : State),
    PyStr.is_ascii typed = true ->
    let out := TradingBotCLI.handle_line typed st in
    match TradingBotCLI.parse_command typed with
    | (None, _) => out = (Ok false, st)
    | (Some cmd, _) =>
        if String.eqb cmd "quit" || String.eqb cmd "exit"
        then out = (Ok true, mkState (self st) (printed [TradingBotCLI.goodbye] (sys st)))
        else fst out = Ok false
    end.
Proof.
  intros typed st _. cbv zeta.
  destruct (TradingBotCLI.parse_command typed) as [[cmd |] args] eqn:P.
  - destruct (String.eqb cmd "quit" || String.eqb cmd "exit") eqn:Q.
    + unfold TradingBotCLI.handle_line. cbv zeta.
      destruct (String.eqb (PyStr.strip typed) "") eqn:E.
      * apply String.eqb_eq, parse_command_blank in E. rewrite E in P. discriminate P.
      * rewrite parse_command_strip, P, Q. destruct st as [b [cfg rem reqs so lg]].
        reflexivity.
    + rewrite (handle_line_dispatches typed cmd args st P Q).
      unfold try_except, bind.
      destruct (TradingBotCLI.dispatch cmd args st) as [[[] | e] st']; reflexivity.
  - unfold TradingBotCLI.handle_line. cbv zeta.
    destruct (String.eqb (PyStr.strip typed) "") eqn:E.
    + destruct st. reflexivity.
    + rewrite parse_command_strip, P. destruct st. reflexivity.
Qed.

(** [  EXIT now], and a line of blanks, typed at a new bot. *)
Lemma handle_line_leaves_on_quit_witness :
  TradingBotCLI.handle_line "  EXIT now" (fresh [])
  = (Ok true, mkState (mkBot false 0 0 0) (printed [TradingBotCLI.goodbye] (boot [])))
  /\ TradingBotCLI.handle_line "   " (fresh []) = (Ok false, fresh []).
Proof.
  split.
  - exact (handle_line_leaves_on_quit "  EXIT now" (fresh []) eq_refl).
  - exact (handle_line_leaves_on_quit "   " (fresh []) eq_refl).
Defined.

(** Settles that a command is none of those of the loop. *)
Ltac other_command H :=
  repeat match goal with
    | |- context [String.eqb ?c ?name] =>
        destruct (String.eqb_spec c name) as [-> | _];
        [exfalso; apply H; unfold commands; cbn [In]; tauto |]
    end.

(** X20.  In a line of ASCII text, a command the loop does not know costs
    two lines, which name it and point to [help], and nothing else.  [help]
    itself shows no help: the loop calls a method the class does not have,
    so the line is reported as an unexpected error, which is logged; nothing
    is sent and the session goes on. *)
Theorem unknown_and_help_commands :
  forall (typed cmd : string) (args : list string) (st : State),
    PyStr.is_ascii typed = true ->
    TradingBotCLI.parse_command typed = (Some cmd, args) ->
    (~ In cmd commands ->
     TradingBotCLI.handle_line typed st
     = (Ok false,
        mkState (self st)
          (printed [[Txt (Fore.RED ++ "❌ Unknown command: "); Fmt (PStr cmd)];
                    [Txt (Fore.YELLOW ++ "Type 'help' to see available commands.")]]
                   (sys st))))
    /\ (cmd = "help" ->
        let e := AttributeError "'TradingBotCLI' object has no attribute 'handle_help'" in
        TradingBotCLI.handle_line typed st
        = (Ok false,
           mkState (self st)
             (mkSys (config (sys st)) (remote (sys st)) (requests (sys st))
                    (stdout (sys st)
                       ++ [[Txt (Fore.RED ++ "❌ Unexpected error: "); FmtExc e]])
                    (logs (sys st)
                       ++ [mkLog "__main__" ERROR [Txt "CLI error: "; FmtExc e]])))).
Proof.
  intros typed cmd args st _ P. split.
  - intros H.
    assert (Q : String.eqb cmd "quit" || String.eqb cmd "exit" = false).
    { other_command H. reflexivity. }
    rewrite (handle_line_dispatches typed cmd args st P Q).
    unfold TradingBotCLI.dispatch. other_command H.
    destruct st as [b [cfg rem reqs so lg]]. unfold printed. run.
    rewrite <- app_assoc. reflexivity.
  - intros ->. cbv zeta.
    rewrite (handle_line_dispatches typed "help" args st P eq_refl).
    destruct st as [b [cfg rem reqs so lg]]. reflexivity.
Qed.

(** [HELP me] and [frobnicate] typed at a new bot. *)
Lemma unknown_and_help_commands_witness :
  fst (TradingBotCLI.handle_line "  HELP me" (fresh [])) = Ok false
  /\ stdout (sys (snd (TradingBotCLI.handle_line "frobnicate" (fresh []))))
     = [[Txt (Fore.RED ++ "❌ Unknown command: "); Fmt (PStr "frobnicate")];
        [Txt (Fore.YELLOW ++ "Type 'help' to see available commands.")]].
Proof.
  split.
  - rewrite (proj2 (unknown_and_help_commands "  HELP me" "help" ["me"] (fresh [])
                      eq_refl eq_refl) eq_refl).
    reflexivity.
  - rewrite (proj1 (unknown_and_help_commands "frobnicate" "frobnicate" [] (fresh [])
                      eq_refl eq_refl)).
    + reflexivity.
    + unfold commands. cbn [In]. intros H.
      repeat (destruct H as [H | H]; [discriminate H |]). exact H.
Defined.

(** ** The whole session *)

#[local] Instance stays_sound_preorder : RelationClasses.PreOrder stays_sound.
Proof. split; [intros b H; exact H | intros a b c H1 H2 H; exact (H2 (H1 H))]. Qed.

Lemma unchanged_counters_sound {A : Type} (m : M State A) :
  respects same_counters m -> respects stays_sound m.
Proof. intros H st Hs. exact (same_counters_sound _ _ (H st) Hs). Qed.

Lemma place_market_order_sound symbol side quantity :
  respects stays_sound (TradingBot.place_market_order symbol side quantity).
Proof.
  intros st Hs. exact (counted_sound _ _ Hs (market_attempt_counts symbol side quantity st)).
Qed.

Lemma place_limit_order_sound symbol side quantity price :
  respects stays_sound (TradingBot.place_limit_order symbol side quantity price).
Proof.
  intros st Hs.
  exact (counted_sound _ _ Hs (limit_attempt_counts symbol side quantity price st)).
Qed.

Lemma dispatch_sound cmd args : respects stays_sound (TradingBotCLI.dispatch cmd args).
Proof.
  unfold TradingBotCLI.dispatch.
  repeat match goal with
    | |- respects _ (if String.eqb cmd ?name then _ else _) =>
        destruct (String.eqb cmd name)
    end.
  - apply respects_raise; exact _.
  - apply display_account_info_frame; exact _.
  - apply display_positions_frame; exact _.
  - apply display_open_orders_frame; exact _.
  - unfold TradingBotCLI.handle_price. destruct args; [frame |].
    apply respects_try_except; [exact _ | | frame].
    apply respects_bind; [exact _ | apply get_current_price_frame; exact _ | frame].
  - unfold TradingBotCLI.handle_buy_market.
    destruct (length args <? 2)%nat; [frame |]. cbv zeta.
    destruct (PyStr.float_of_string _); [| frame].
    apply respects_bind; [exact _ | apply validate_symbol_frame; exact _ | intros valid].
    destruct (negb valid); [frame |].
    apply respects_bind; [exact _ | apply place_market_order_sound | frame].
  - unfold TradingBotCLI.handle_sell_market.
    destruct (length args <? 2)%nat; [frame |]. cbv zeta.
    destruct (PyStr.float_of_string _); [| frame].
    apply respects_bind; [exact _ | apply validate_symbol_frame; exact _ | intros valid].
    destruct (negb valid); [frame |].
    apply respects_bind; [exact _ | apply place_market_order_sound | frame].
  - unfold TradingBotCLI.handle_buy_limit.
    destruct (length args <? 3)%nat; [frame |]. cbv zeta.
    destruct (TradingBotCLI.quantity_and_price args) as [[q p] |]; [| frame].
    apply respects_bind; [exact _ | apply validate_symbol_frame; exact _ | intros valid].
    destruct (negb valid); [frame |].
    apply respects_bind; [exact _ | apply place_limit_order_sound | frame].
  - unfold TradingBotCLI.handle_sell_limit.
    destruct (length args <? 3)%nat; [frame |]. cbv zeta.
    destruct (TradingBotCLI.quantity_and_price args) as [[q p] |]; [| frame].
    apply respects_bind; [exact _ | apply validate_symbol_frame; exact _ | intros valid].
    destruct (negb valid); [frame |].
    apply respects_bind; [exact _ | apply place_limit_order_sound | frame].
  - unfold TradingBotCLI.handle_cancel.
    destruct (length args <? 2)%nat; [frame |]. cbv zeta.
    destruct (int_of_string _); [| frame].
    apply respects_bind; [exact _ | apply cancel_order_frame; exact _ | frame].
  - unfold TradingBotCLI.handle_history, TradingBotCLI.history_row.
    destruct args; [frame |]. cbv zeta. frame.
  - unfold TradingBotCLI.handle_symbols. frame.
  - apply display_performance_metrics_frame; exact _.
  - apply unchanged_counters_sound, start_counters.
  - apply unchanged_counters_sound, stop_counters.
  - frame.
Qed.

Lemma handle_line_sound typed : respects stays_sound (TradingBotCLI.handle_line typed).
Proof.
  unfold TradingBotCLI.handle_line. cbv zeta.
  apply respects_try_except; [exact _ | | frame].
  destruct (String.eqb _ _); [frame |].
  destruct (TradingBotCLI.parse_command _) as [[cmd |] args]; [| frame].
  destruct (_ || _); [frame |].
  apply respects_bind; [exact _ | apply dispatch_sound | frame].
Qed.

Lemma nr_handle_line typed : never_raises (TradingBotCLI.handle_line typed).
Proof. unfold TradingBotCLI.handle_line. safe. Qed.

Lemma loop_sound inputs : respects stays_sound (TradingBotCLI.loop inputs).
Proof.
  induction inputs as [| [typed |] rest IH]; cbn [TradingBotCLI.loop];
    unfold TradingBotCLI.prompt; [frame | | frame].
  apply respects_bind; [exact _ | frame | intros _].
  apply respects_bind; [exact _ | apply handle_line_sound | intros leave].
  destruct leave; [frame | exact IH].
Qed.

Lemma nr_loop inputs : never_raises (TradingBotCLI.loop inputs).
Proof.
  induction inputs as [| [typed |] rest IH]; cbn [TradingBotCLI.loop];
    unfold TradingBotCLI.prompt; [safe | | safe].
  apply nr_bind; [safe | intros _].
  apply nr_bind; [apply nr_handle_line | intros leave].
  destruct leave; [apply nr_ret | exact IH].
Qed.

Lemma stop_clears_running : forall st, running (self (snd (TradingBot.stop st))) = false.
Proof.
  intros st. rewrite stop_unfold.
  rewrite <- (display_performance_metrics_frame eq PyFloat.int_truediv _). reflexivity.
Qed.

(** The session without its banner: start, the loop, and stop at the end. *)
Lemma session_run :
  forall inputs st,
    sound (self st) ->
    let out := (TradingBot.start ;;; try_finally (TradingBotCLI.loop inputs) TradingBot.stop) st in
    fst out = Ok tt /\ running (self (snd out)) = false /\ sound (self (snd out)).
Proof.
  intros inputs st Hs. cbv zeta. unfold bind, try_finally.
  pose proof (unchanged_counters_sound _ start_counters st Hs) as H1.
  destruct (nr_start st) as [[] N1].
  destruct (TradingBot.start st) as [r1 st1]. cbn [fst snd] in *. subst r1.
  pose proof (loop_sound inputs st1 H1) as H2.
  destruct (nr_loop inputs st1) as [[] N2].
  destruct (TradingBotCLI.loop inputs st1) as [r2 st2]. cbn [fst snd] in *. subst r2.
  pose proof (stop_return st2 H2) as N3.
  pose proof (stop_clears_running st2) as R3.
  pose proof (unchanged_counters_sound _ stop_counters st2 H2) as H3.
  destruct (TradingBot.stop st2) as [r3 st3]. cbn [fst snd] in *. subst r3.
  auto.
Qed.

(** [run] is the session after the banner. *)
Lemma run_after_banner :
  forall inputs st,
    exists banner : list text,
      TradingBotCLI.run inputs st
      = (TradingBot.start ;;; try_finally (TradingBotCLI.loop inputs) TradingBot.stop)
          (mkState (self st) (printed banner (sys st))).
Proof.
  intros inputs [b [cfg rem reqs so lg]].
  assert (W : exists banner : list text,
             TradingBotCLI.display_welcome (mkState b (mkSys cfg rem reqs so lg))
             = (Ok tt, mkState b (mkSys cfg rem reqs (so ++ banner)%list lg))).
  { unfold TradingBotCLI.display_welcome. run.
    rewrite <- !app_assoc. eexists. reflexivity. }
  destruct W as [banner W]. exists banner.
  unfold TradingBotCLI.run. unfold bind at 1. rewrite W. reflexivity.
Qed.

(** X21.  A session of the shell, started from a bot whose counters are
    sound, always comes to its end, whatever is typed and whatever the
    exchange answers or raises: [run] returns, the bot is stopped, and the
    counters are sound still. *)
Theorem session_ends_stopped :
  forall (inputs : list Input) (st : State),
    sound (self st) ->
    let out := TradingBotCLI.run inputs st in
    fst out = Ok tt
    /\ running (self (snd out)) = false
    /\ sound (self (snd out)).
Proof.
  intros inputs st Hs. cbv zeta.
  destruct (run_after_banner inputs st) as [banner ->].
  apply session_run. exact Hs.
Qed.

(** A session of two lines, an order and [quit], at a new bot whose
    exchange answers nothing. *)
Lemma session_ends_stopped_witness :
  fst (TradingBotCLI.run [Line "buy_market btcusdt 0.5"; Line "quit"] (fresh [])) = Ok tt.
Proof.
  exact (proj1 (session_ends_stopped [Line "buy_market btcusdt 0.5"; Line "quit"] (fresh [])
                  ltac:(unfold sound, invariant; cbn; lia))).
Defined.

(** X22.  The exit status of the [__main__] block, once the imports of the
    script have succeeded.  When the bot cannot be constructed, because the
    exchange refuses the connection or the first request for the account,
    the block writes one line with the error and exits with status 1,
    without having read a line.  Once the bot is constructed the block ends
    with status 0, whatever is typed and whatever the exchange does from
    then on. *)
Theorem main_block_exit_status :
  forall (inputs : list Input) (s : Sys),
    let out := main_block inputs s in
    match TradingBotCLI.__init__ s with
    | (Ok _, _) => fst out = Ok 0
    | (Raise e, s1) =>
        out = (Ok 1, printed [[Txt (Fore.RED ++ "❌ Failed to start CLI: "); FmtExc e]] s1)
    end.
Proof.
  intros inputs s. cbv zeta. unfold main_block.
  destruct (TradingBotCLI.__init__ s) as [[bot | e] s1] eqn:E.
  - apply construction_zero in E. subst bot.
    destruct (run_after_banner inputs (mkState (mkBot false 0 0 0) s1)) as [banner ->].
    destruct (session_run inputs (mkState (mkBot false 0 0 0) (printed banner s1)))
      as [H _]; [unfold sound, invariant; cbn; lia |].
    cbn [self sys].
    destruct ((TradingBot.start;;; try_finally (TradingBotCLI.loop inputs) TradingBot.stop) _)
      as [[[] | e] st]; [reflexivity | discriminate H].
  - destruct s1 as [cfg rem reqs so lg]. reflexivity.
Qed.

(** ** What the displays write *)

Lemma get_positions_all_run :
  forall cfg rem reqs so lg response all,
    rem (reqs ++ [futures_position_information])%list = Ok response ->
    py_iter response = Ok all ->
    Forall (fun pos => exists b, BinanceFuturesClient.is_active pos = Ok b) all ->
    BinanceFuturesClient.get_positions None (mkSys cfg rem reqs so lg)
    = (Ok (kept None all),
       mkSys cfg rem (reqs ++ [futures_position_information])%list so lg).
Proof.
  intros cfg rem reqs so lg response all Hr Hi Ha.
  unfold BinanceFuturesClient.get_positions, kept. run. rewrite Hr. run. rewrite Hi.
  cbn [BinanceFuturesClient.given]. run.
  match goal with
  | |- context [filter_m ?l ?k ?s0] =>
      change k with (fun pos => @lift Sys bool (BinanceFuturesClient.is_active pos));
      rewrite (filter_m_lift_total BinanceFuturesClient.is_active l s0 Ha)
  end.
  reflexivity.
Qed.

Lemma kept_flat :
  forall all,
    Forall (fun pos => BinanceFuturesClient.is_active pos = Ok false) all ->
    kept None all = [].
Proof.
  intros all H. unfold kept. cbn [BinanceFuturesClient.given].
  induction H as [| pos all Hp _ IH]; [reflexivity |].
  cbn [filter]. rewrite Hp. exact IH.
Qed.

(** X23.  A display that the exchange fails writes the error and nothing
    else.  When the exchange raises on the request of
    [display_account_info], [display_positions] or [display_open_orders],
    the display writes one line, which names what could not be got and
    carries the message of the exception, and leaves the bot as it was. *)
Theorem displays_report_failure :
  forall (st : State) (e : PyExc),
    let fails (r : Request) : Prop :=
      remote (sys st) (requests (sys st) ++ [r])%list = Raise e in
    (fails futures_account ->
     writes TradingBot.display_account_info st
       [[Txt "Error getting account info: "; FmtExc e]])
    /\ (fails futures_position_information ->
        writes TradingBot.display_positions st
          [[Txt "Error getting positions: "; FmtExc e]])
    /\ (forall symbol : option string,
          fails (futures_get_open_orders (BinanceFuturesClient.given symbol)) ->
          writes (TradingBot.display_open_orders symbol) st
            [[Txt "Error getting open orders: "; FmtExc e]]).
Proof.
  intros [b [cfg rem reqs so lg]] e. cbv zeta. cbn [sys remote requests]. unfold writes.
  split; [| split].
  - intros H. unfold TradingBot.display_account_info, BinanceFuturesClient.get_account_info.
    run. rewrite H. run. auto.
  - intros H. unfold TradingBot.display_positions, BinanceFuturesClient.get_positions.
    run. rewrite H. run. auto.
  - intros symbol H.
    unfold TradingBot.display_open_orders, BinanceFuturesClient.get_open_orders.
    destruct (BinanceFuturesClient.given symbol); run; rewrite H; run; auto.
Qed.

(** An exchange that refuses every connection. *)
Lemma displays_report_failure_witness :
  stdout (sys (snd (TradingBot.display_positions (fresh []))))
  = [[Txt "Error getting positions: ";
      FmtExc (OtherException "ConnectionError" "connection refused")]].
Proof.
  exact (proj2 (proj1 (proj2 (displays_report_failure (fresh [])
                                (OtherException "ConnectionError" "connection refused")))
                  eq_refl)).
Defined.

(** X24.  Nothing to show.  When every position the exchange reports has
    an amount that reads as zero, [display_positions] writes
    [No open positions] and no table.  When the answer of the exchange for
    the open orders is empty, [display_open_orders] writes [No open orders],
    followed by the symbol when one was given and is not the empty string.
    Both leave the bot as it was. *)
Theorem empty_displays :
  forall (st : State),
    (forall response all,
        remote (sys st) (requests (sys st) ++ [futures_position_information])%list
        = Ok response ->
        py_iter response = Ok all ->
        Forall (fun pos => BinanceFuturesClient.is_active pos = Ok false) all ->
        writes TradingBot.display_positions st [[Txt "No open positions"]])
    /\ (forall symbol orders,
          remote (sys st)
            (requests (sys st)
               ++ [futures_get_open_orders (BinanceFuturesClient.given symbol)])%list
          = Ok orders ->
          py_truthy orders = false ->
          writes (TradingBot.display_open_orders symbol) st
            [Txt "No open orders"
               :: match symbol with
                  | Some s => if String.eqb s "" then [Fmt (PStr "")]
                              else [Fmt (PStr (" for " ++ s))]
                  | None => [Fmt (PStr "")]
                  end]).
Proof.
  intros [b [cfg rem reqs so lg]]. cbn [sys remote requests]. unfold writes. split.
  - intros response all Hr Hi Ha. unfold TradingBot.display_positions.
    assert (Ha' : Forall (fun pos => exists b, BinanceFuturesClient.is_active pos = Ok b) all).
    { eapply Forall_impl; [| exact Ha]. intros pos H. exists false. exact H. }
    run. rewrite (get_positions_all_run cfg rem reqs so lg response all Hr Hi Ha').
    rewrite (kept_flat all Ha). run. auto.
  - intros symbol orders Hr Ht.
    unfold TradingBot.display_open_orders, BinanceFuturesClient.get_open_orders,
      TradingBot.for_symbol.
    destruct symbol as [s |]; cbn [BinanceFuturesClient.given] in *.
    + unfold BinanceFuturesClient.given in *.
      destruct (String.eqb s ""); run; rewrite Hr; run; rewrite Ht; run; auto.
    + run. rewrite Hr. run. rewrite Ht. run. auto.
Qed.

(** An account whose one position is flat. *)
Lemma empty_displays_witness :
  let flat := PDict [("symbol", PStr "BTCUSDT"); ("positionAmt", PStr "0.000")] in
  stdout (sys (snd (TradingBot.display_positions (fresh [Ok (PList [flat])]))))
  = [[Txt "No open positions"]].
Proof.
  cbv zeta.
  exact (proj2 (proj1 (empty_displays
                         (fresh [Ok (PList [PDict [("symbol", PStr "BTCUSDT");
                                                   ("positionAmt", PStr "0.000")]])]))
                  (PList [PDict [("symbol", PStr "BTCUSDT"); ("positionAmt", PStr "0.000")]])
                  [PDict [("symbol", PStr "BTCUSDT"); ("positionAmt", PStr "0.000")]]
                  eq_refl eq_refl
                  ltac:(constructor; [vm_compute; reflexivity | constructor]))).
Defined.

(** ** The trade log and the counter of successful trades *)

Section Preserved.

Context {S : Type} (R : S -> S -> Prop) `{!RelationClasses.PreOrder R}.

Lemma preserves_ret {A : Type} (a : A) : preserves R (ret a).
Proof. intros s. cbn. reflexivity. Qed.

Lemma preserves_raise {A : Type} (e : PyExc) : preserves R (@raise S A e).
Proof. intros s. cbn. reflexivity. Qed.

Lemma preserves_lift {A : Type} (r : result A) : preserves R (lift r).
Proof. intros s. cbn. reflexivity. Qed.

Lemma preserves_bind {A B : Type} (m : M S A) (k : A -> M S B) :
  preserves R m -> (forall a, preserves R (k a)) -> preserves R (bind m k).
Proof.
  intros Hm Hk s. unfold bind. specialize (Hm s).
  destruct (m s) as [[a | e] s']; cbn in *; [| exact Hm].
  etransitivity; [exact Hm | apply Hk].
Qed.

Lemma preserves_try_except {A : Type} (m : M S A) (h : PyExc -> M S A) :
  preserves R m -> (forall e, preserves R (h e)) -> preserves R (try_except m h).
Proof.
  intros Hm Hh s. unfold try_except. specialize (Hm s).
  destruct (m s) as [[a | e] s']; cbn in *; [exact Hm |].
  etransitivity; [exact Hm | apply Hh].
Qed.

Lemma preserves_for_each {A : Type} (l : list A) (body : A -> M S unit) :
  (forall x, preserves R (body x)) -> preserves R (for_each l body).
Proof.
  intros Hb. induction l as [| x l IH]; cbn [for_each].
  - apply preserves_ret.
  - apply preserves_bind; [apply Hb | intros _; exact IH].
Qed.

Lemma preserves_filter_m {A : Type} (l : list A) (keep : A -> M S bool) :
  (forall x, preserves R (keep x)) -> preserves R (filter_m l keep).
Proof.
  intros Hk. induction l as [| x l IH]; cbn [filter_m].
  - apply preserves_ret.
  - apply preserves_bind; [apply Hk | intros b].
    apply preserves_bind; [exact IH | intros rest; apply preserves_ret].
Qed.

End Preserved.

#[local] Instance same_trades_preorder : RelationClasses.PreOrder same_trades.
Proof.
  split; [intros s; reflexivity |].
  intros a b c H1 H2. unfold same_trades in *. congruence.
Qed.

#[local] Instance same_trade_log_preorder : RelationClasses.PreOrder same_trade_log.
Proof.
  split; [intros s; unfold same_trade_log; reflexivity |].
  intros a b c H1 H2. unfold same_trade_log in *. etransitivity; eassumption.
Qed.

Lemma trade_records_snoc :
  forall lg n lv t,
    trade_records (lg ++ [mkLog n lv t])
    = (trade_records lg
         ++ (if String.eqb n "trading_bot.trades" then [mkLog n lv t] else []))%list.
Proof.
  intros. unfold trade_records. rewrite filter_app. cbn [filter log_name].
  destruct (String.eqb n "trading_bot.trades"); reflexivity.
Qed.

Lemma print_same_trades t : preserves same_trades (print t).
Proof. intros s. reflexivity. Qed.

Lemma call_same_trades r : preserves same_trades (call r).
Proof. intros s. reflexivity. Qed.

Lemma log_same_trades n lv t :
  String.eqb n "trading_bot.trades" = false -> preserves same_trades (log n lv t).
Proof.
  intros H s. unfold same_trades. cbn [log snd logs].
  rewrite trade_records_snoc, H, app_nil_r. reflexivity.
Qed.

Lemma io_same_trades {A : Type} (m : M Sys A) :
  preserves same_trades m -> preserves same_trade_log (io m).
Proof.
  intros H st. unfold io, same_trade_log. specialize (H (sys st)).
  destruct (m (sys st)) as [r s']. exact H.
Qed.

Lemma get_self_same_trades : preserves same_trade_log get_self.
Proof. intros st. unfold same_trade_log. reflexivity. Qed.

Lemma set_self_same_trades b : preserves same_trade_log (set_self b).
Proof. intros st. unfold same_trade_log. reflexivity. Qed.

(** Settles that a stretch of a method writes no trade record. *)
Ltac steady :=
  repeat lazymatch goal with
    | |- forall _ : _, _ => intro
    | |- RelationClasses.PreOrder _ => exact _
    | |- preserves _ (ret _) => apply preserves_ret
    | |- preserves _ (raise _) => apply preserves_raise
    | |- preserves _ (lift _) => apply preserves_lift
    | |- preserves _ get_self => apply get_self_same_trades
    | |- preserves _ (set_self _) => apply set_self_same_trades
    | |- preserves _ (io _) => apply io_same_trades
    | |- preserves _ (print _) => apply print_same_trades
    | |- preserves _ (call _) => apply call_same_trades
    | |- preserves _ (log _ _ _) => apply log_same_trades; reflexivity
    | |- preserves _ (for_each _ _) => apply preserves_for_each
    | |- preserves _ (filter_m _ _) => apply preserves_filter_m
    | |- preserves _ (try_except _ _) => apply preserves_try_except
    | |- preserves _ (bind _ _) => apply preserves_bind
    | |- preserves _ (match ?x with _ => _ end) => destruct x
    | |- preserves _ (let _ := _ in _) => cbv zeta
    end.

Lemma start_same_trades : preserves same_trade_log TradingBot.start.
Proof.
  unfold TradingBot.start, TradingBot.display_account_info,
    BinanceFuturesClient.get_account_info, set_running, Logger.log_error.
  steady.
Qed.

Lemma metrics_same_trades :
  preserves same_trade_log TradingBot.display_performance_metrics.
Proof.
  unfold TradingBot.display_performance_metrics,
    TradingBot.display_performance_metrics_with, Logger.log_performance_metrics.
  steady.
Qed.

Lemma stop_same_trades : preserves same_trade_log TradingBot.stop.
Proof.
  unfold TradingBot.stop, set_running.
  apply preserves_bind; [exact _ | steady | intros _].
  apply preserves_bind; [exact _ | steady | intros _].
  apply metrics_same_trades.
Qed.

Lemma quiet_ops_same_trades :
  forall op st, is_order_attempt op = false -> same_trade_log st (after op st).
Proof.
  intros op st H. destruct op; try discriminate H; cbn [after]; revert st.
  - apply start_same_trades.
  - apply stop_same_trades.
  - change (preserves same_trade_log TradingBot.display_account_info).
    unfold TradingBot.display_account_info, BinanceFuturesClient.get_account_info,
      Logger.log_error.
    steady.
  - change (preserves same_trade_log TradingBot.display_positions).
    unfold TradingBot.display_positions, TradingBot.position_row,
      BinanceFuturesClient.get_positions, Logger.log_error.
    steady.
  - change (preserves same_trade_log (TradingBot.display_open_orders symbol)).
    unfold TradingBot.display_open_orders, TradingBot.order_row,
      BinanceFuturesClient.get_open_orders, Logger.log_error.
    steady.
  - change (preserves same_trade_log (TradingBot.cancel_order symbol order_id)).
    unfold TradingBot.cancel_order, BinanceFuturesClient.cancel_order, Logger.log_error.
    steady.
  - change (preserves same_trade_log (TradingBot.get_current_price symbol)).
    unfold TradingBot.get_current_price, BinanceFuturesClient.get_current_price,
      Logger.log_error.
    steady.
  - apply metrics_same_trades.
  - change (preserves same_trade_log (TradingBot.validate_symbol symbol)).
    unfold TradingBot.validate_symbol, BinanceFuturesClient.get_symbol_info.
    steady.
  - change (preserves same_trade_log (TradingBot.get_symbol_info symbol)).
    unfold TradingBot.get_symbol_info, BinanceFuturesClient.get_symbol_info,
      Logger.log_error.
    steady.
Qed.

(** Tidies the trade records of a log written record by record. *)
Ltac tally :=
  unfold trades_logged; cbn [self sys logs successful_trades];
  repeat rewrite trade_records_snoc;
  repeat match goal with
    | |- context [String.eqb ?a ?b] =>
        let v := eval vm_compute in (String.eqb a b) in
        change (String.eqb a b) with v
    end;
  cbv iota; repeat rewrite app_nil_r; repeat rewrite length_app; cbn [length]; lia.

Lemma market_attempt_logs :
  forall symbol side quantity st,
    let st' := snd (TradingBot.place_market_order symbol side quantity st) in
    trades_logged st st' = successful_trades (self st') - successful_trades (self st).
Proof.
  intros symbol side quantity [[r t sc fl] [cfg rem reqs out lg]]. cbn zeta.
  unfold TradingBot.place_market_order, BinanceFuturesClient.place_market_order. run.
  destruct (rem _) as [order | e].
  - destruct (py_getitem order "orderId") as [id | e1]; run.
    + destruct (py_getitem order "status") as [status | e2]; run;
        destruct (str_is_empty id); tally.
    + tally.
  - destruct (BinanceFuturesClient.is_api_exception e); run; tally.
Qed.

Lemma limit_attempt_logs :
  forall symbol side quantity price st,
    let st' := snd (TradingBot.place_limit_order symbol side quantity price st) in
    trades_logged st st' = successful_trades (self st') - successful_trades (self st).
Proof.
  intros symbol side quantity price [[r t sc fl] [cfg rem reqs out lg]]. cbn zeta.
  unfold TradingBot.place_limit_order, BinanceFuturesClient.place_limit_order. run.
  destruct (rem _) as [order | e].
  - destruct (py_getitem order "orderId") as [id | e1]; run.
    + destruct (py_getitem order "status") as [status | e2]; run;
        destruct (py_truthy (PFloat price)); destruct (str_is_empty id); tally.
    + tally.
  - destruct (BinanceFuturesClient.is_api_exception e); run; tally.
Qed.

(** X25.  The trade log and the counter of successful trades agree.
    Whatever operation of the orchestrator runs, in whatever state and
    whatever the exchange does, the number of records it adds to the log
    [trading_bot.trades] is the amount it adds to [successful_trades]: one
    for an order the exchange accepted with an ['orderId'], none otherwise.
    Only the two order placements write to that log. *)
Theorem trade_log_matches_successes :
  forall (op : Op) (st : State),
    trades_logged st (after op st)
    = successful_trades (self (after op st)) - successful_trades (self st)
    /\ (is_order_attempt op = false ->
        trade_records (logs (sys (after op st))) = trade_records (logs (sys st))).
Proof.
  intros op st. split.
  - destruct (is_order_attempt op) eqn:E.
    + destruct op; try discriminate E; cbn [after].
      * apply market_attempt_logs.
      * apply limit_attempt_logs.
    + pose proof (quiet_ops_same_trades op st E) as H.
      destruct (only_attempts_count op st E) as (_ & Hs & _).
      unfold trades_logged. unfold same_trade_log, same_trades in H. rewrite H, Hs. lia.
  - intros E. exact (quiet_ops_same_trades op st E).
Qed.

(** ** More of the shell *)

Lemma word_given : forall a, word a -> BinanceFuturesClient.given (Some a) = Some a.
Proof.
  intros a [Hne _]. unfold BinanceFuturesClient.given.
  destruct (String.eqb_spec a ""); [contradiction | reflexivity].
Qed.

(** X26.  [orders] asks for the open orders of its first argument, as it
    was typed: unlike the other handlers it does not put the symbol in upper
    case.  Without an argument it asks for the open orders of all symbols.
    It sends that one request, never raises and leaves the bot as it was. *)
Theorem orders_handler_keeps_case :
  forall (args : list string) (st : State),
    Forall word args ->
    let out := TradingBotCLI.handle_orders args st in
    fst out = Ok tt
    /\ self (snd out) = self st
    /\ requests (sys (snd out))
       = (requests (sys st) ++ [futures_get_open_orders (hd_error args)])%list.
Proof.
  intros args st Hw. cbv zeta. unfold TradingBotCLI.handle_orders.
  split; [| split].
  - destruct (nr_display_open_orders
                match args with a :: _ => Some a | [] => None end st) as [[] H].
    exact H.
  - symmetry. apply (display_open_orders_frame eq).
  - destruct (emits_display_open_orders
                match args with a :: _ => Some a | [] => None end st) as (H & _).
    rewrite H. destruct Hw as [| a rest Ha _]; [reflexivity |].
    rewrite (word_given a Ha). reflexivity.
Qed.

(** [orders btcusdt]: the symbol goes out in lower case. *)
Lemma orders_handler_keeps_case_witness :
  requests (sys (snd (TradingBotCLI.handle_orders ["btcusdt"] (fresh []))))
  = [futures_get_open_orders (Some "btcusdt")].
Proof.
  exact (proj2 (proj2 (orders_handler_keeps_case ["btcusdt"] (fresh [])
                         ltac:(repeat constructor; discriminate)))).
Defined.

Lemma leaving_line :
  forall typed st,
    leaving typed = true ->
    TradingBotCLI.handle_line typed st
    = (Ok true, mkState (self st) (printed [TradingBotCLI.goodbye] (sys st))).
Proof.
  intros typed st. unfold leaving, TradingBotCLI.handle_line. cbv zeta.
  destruct (TradingBotCLI.parse_command typed) as [[cmd |] args] eqn:P; [| discriminate].
  intros Q.
  destruct (String.eqb (PyStr.strip typed) "") eqn:E.
  - apply String.eqb_eq, parse_command_blank in E. rewrite E in P. discriminate P.
  - rewrite parse_command_strip, P, Q. destruct st as [b [cfg rem reqs so lg]].
    reflexivity.
Qed.

(** X27.  Nothing typed after the end of the session is read.  The loop
    stops at a line that leaves ([quit] or [exit]) and at an interrupt, so
    what follows either in the input changes nothing; and the end of the
    input ends the session as an interrupt does. *)
Theorem nothing_read_after_the_end :
  forall (before rest : list Input) (st : State),
    TradingBotCLI.loop (before ++ Interrupt :: rest) st
    = TradingBotCLI.loop (before ++ [Interrupt]) st
    /\ TradingBotCLI.loop before st = TradingBotCLI.loop (before ++ [Interrupt]) st
    /\ forall typed : string,
        leaving typed = true ->
        TradingBotCLI.loop (before ++ Line typed :: rest) st
        = TradingBotCLI.loop (before ++ [Line typed]) st.
Proof.
  intros before rest.
  induction before as [| [t |] before IH]; intros st.
  - split; [reflexivity | split; [reflexivity |]].
    intros typed Q. cbn [app TradingBotCLI.loop]. unfold bind.
    destruct (TradingBotCLI.prompt st) as [[[] | e] st1]; [| reflexivity].
    rewrite (leaving_line typed st1 Q). reflexivity.
  - cbn [app TradingBotCLI.loop]. unfold bind.
    destruct (TradingBotCLI.prompt st) as [[[] | e] st1]; [| auto].
    destruct (TradingBotCLI.handle_line t st1) as [[[|] | e] st2]; auto.
  - cbn [app TradingBotCLI.loop]. auto.
Qed.
